(** * Decentralized charity platform: contracts and their properties

    A shallow embedding of the four Solidity contracts of the platform
    (NGOGovernance, NGORegistry, SoulboundToken, CampaignFactory) as
    state-passing functions in an error monad, followed by the properties
    of the fund-custody and entitlement lifecycle.

    Conventions.
    - [uint256] and [address] are integers in [Z]; Solidity 0.8 checked
      arithmetic is written out ([checked_add], [checked_sub],
      [checked_mul] raise [Panic 0x11] outside [0, MAX_UINT256]).
    - A Solidity [mapping] is a total function with default values.
    - A call either returns [Ok] with the new storage or [Err]; a failed
      call leaves the storage as it was (the transaction reverts).
    - Gas is not modelled.
    - The contracts are first given with external callees that only
      answer. The module [Reentrant] gives the entry points that reach an
      external callee with callees that call back; the properties that
      depend on what a callee does are stated there. *)

From Stdlib Require Import ZArith List String Bool Lia.
Import ListNotations.
Local Open Scope string_scope.
Local Open Scope list_scope.
Local Open Scope Z_scope.

(** ** The execution environment *)

Module Evm.

Definition address := Z.
Definition uint256 := Z.

Definition MAX_UINT256 : Z := 2 ^ 256 - 1.
Definition zero_address : address := 0.

(** The [bytes32] role identifiers ([keccak256] of the role name, and the
    zero word for the default admin role of AccessControl). *)
Inductive Role :=
| DEFAULT_ADMIN_ROLE
| ADMIN_ROLE
| VERIFIER_ROLE
| MINTER_ROLE
| REDEEMER_ROLE.

Definition Role_eqb (a b : Role) : bool :=
  match a, b with
  | DEFAULT_ADMIN_ROLE, DEFAULT_ADMIN_ROLE
  | ADMIN_ROLE, ADMIN_ROLE
  | VERIFIER_ROLE, VERIFIER_ROLE
  | MINTER_ROLE, MINTER_ROLE
  | REDEEMER_ROLE, REDEEMER_ROLE => true
  | _, _ => false
  end.

(** What a reverted call reports: a [require]/[revert] reason string, a
    compiler panic, or one of the custom errors of the inherited
    AccessControl, Pausable, ReentrancyGuard and ERC721 contracts. *)
Inductive error :=
| Revert (reason : string)
| Panic (code : Z)
| AccessControlUnauthorizedAccount (account : address) (neededRole : Role)
| EnforcedPause
| ExpectedPause
| ReentrancyGuardReentrantCall
| ERC721InvalidReceiver (receiver : address)
| ERC721InvalidSender (sender : address).

Inductive result (A : Type) :=
| Ok (a : A)
| Err (e : error).

Arguments Ok {A} a.
Arguments Err {A} e.

Definition bind {A B} (c : result A) (k : A -> result B) : result B :=
  match c with
  | Ok a => k a
  | Err e => Err e
  end.

Definition is_ok {A} (c : result A) : bool :=
  match c with Ok _ => true | Err _ => false end.

Definition require (cond : bool) (reason : string) : result unit :=
  if cond then Ok tt else Err (Revert reason).

Definition checked_add (a b : uint256) : result uint256 :=
  if a + b <=? MAX_UINT256 then Ok (a + b) else Err (Panic 17).

Definition checked_sub (a b : uint256) : result uint256 :=
  if b <=? a then Ok (a - b) else Err (Panic 17).

Definition checked_mul (a b : uint256) : result uint256 :=
  if a * b <=? MAX_UINT256 then Ok (a * b) else Err (Panic 17).

(** [msg.sender] and [block.timestamp] of the current call. *)
Record Msg := { sender : address; timestamp : uint256 }.

(** Update of a mapping at one key. *)
Definition upd {V} (m : Z -> V) (k : Z) (v : V) : Z -> V :=
  fun k' => if k' =? k then v else m k'.

(** [bytes(s).length > 0] *)
Definition nonempty (s : string) : bool :=
  match s with
  | EmptyString => false
  | String _ _ => true
  end.

(** The inherited OpenZeppelin mix-ins, as interfaces over a contract's
    storage. *)
Class AccessControl (S : Type) := {
  _roles : S -> Role -> address -> bool;
  set_roles : (Role -> address -> bool) -> S -> S
}.

Class Pausable (S : Type) := {
  _paused : S -> bool;
  set_paused : bool -> S -> S
}.

(** [_status == ENTERED] is [true]. *)
Class ReentrancyGuard (S : Type) := {
  _status : S -> bool;
  set_status : bool -> S -> S
}.

Definition hasRole {S} `{AccessControl S} (s : S) (r : Role) (a : address) : bool :=
  _roles s r a.

Definition onlyRole {S} `{AccessControl S} (r : Role) (m : Msg) (s : S) : result unit :=
  if hasRole s r (sender m) then Ok tt
  else Err (AccessControlUnauthorizedAccount (sender m) r).

Definition whenNotPaused {S} `{Pausable S} (s : S) : result unit :=
  if _paused s then Err EnforcedPause else Ok tt.

Definition whenPaused {S} `{Pausable S} (s : S) : result unit :=
  if _paused s then Ok tt else Err ExpectedPause.

Definition nonReentrant {S A} `{ReentrancyGuard S}
    (body : S -> result (A * S)) (s : S) : result (A * S) :=
  if _status s then Err ReentrancyGuardReentrantCall
  else
    match body (set_status true s) with
    | Ok (a, s') => Ok (a, set_status false s')
    | Err e => Err e
    end.

Definition _grantRole {S} `{AccessControl S} (r : Role) (a : address) (s : S) : S :=
  set_roles (fun r' a' => if Role_eqb r' r && (a' =? a) then true else _roles s r' a') s.

Definition _revokeRole {S} `{AccessControl S} (r : Role) (a : address) (s : S) : S :=
  set_roles (fun r' a' => if Role_eqb r' r && (a' =? a) then false else _roles s r' a') s.

(** [grantRole] and [revokeRole]: every role is administered by
    [DEFAULT_ADMIN_ROLE]. *)
Definition grantRole {S} `{AccessControl S} (m : Msg) (r : Role) (a : address) (s : S)
  : result S :=
  bind (onlyRole DEFAULT_ADMIN_ROLE m s) (fun _ => Ok (_grantRole r a s)).

Definition revokeRole {S} `{AccessControl S} (m : Msg) (r : Role) (a : address) (s : S)
  : result S :=
  bind (onlyRole DEFAULT_ADMIN_ROLE m s) (fun _ => Ok (_revokeRole r a s)).

Definition pause {S} `{AccessControl S} `{Pausable S} (m : Msg) (s : S) : result S :=
  bind (onlyRole ADMIN_ROLE m s) (fun _ =>
  bind (whenNotPaused s) (fun _ => Ok (set_paused true s))).

Definition unpause {S} `{AccessControl S} `{Pausable S} (m : Msg) (s : S) : result S :=
  bind (onlyRole ADMIN_ROLE m s) (fun _ =>
  bind (whenPaused s) (fun _ => Ok (set_paused false s))).

(** A failed call leaves the storage untouched. *)
Definition commit {S} (s : S) (r : result S) : S :=
  match r with
  | Ok s' => s'
  | Err _ => s
  end.

End Evm.

Import Evm.

Declare Scope evm_scope.
Delimit Scope evm_scope with evm.
Notation "x <- c1 ;; c2" := (bind c1 (fun x => c2))
  (at level 61, c1 at next level, right associativity) : evm_scope.
Notation "' pat <- c1 ;; c2" := (bind c1 (fun x => match x with pat => c2 end))
  (at level 61, pat pattern, c1 at next level, right associativity) : evm_scope.
Notation "c1 ;; c2" := (bind c1 (fun _ => c2))
  (at level 61, right associativity) : evm_scope.
Local Open Scope evm_scope.

(** ** NGOGovernance.sol *)

Module NGOGovernance.

Definition VOTING_DURATION : uint256 := 7 * 86400.
Definition MIN_REPUTATION_TO_VOTE : uint256 := 100.
Definition VOTE_WEIGHT_BASE : uint256 := 100.
Definition REPUTATION_CHANGE_PER_VOTE : uint256 := 10.

Inductive ProposalType := Verification | Challenge.
Inductive VoteType := Upvote | Downvote.

Record Vote := {
  hasVoted : bool;
  voteType : VoteType;
  votingPower : uint256;
  reputationStake : uint256
}.

Record Proposal := {
  proposalId : uint256;
  ngoId : uint256;
  proposalType : ProposalType;
  proposer : address;
  description : string;
  evidenceHash : string;
  startTime : uint256;
  endTime : uint256;
  upvotes : uint256;
  downvotes : uint256;
  totalVotingPower : uint256;
  executed : bool;
  votes : address -> Vote
}.

Record UserReputation := {
  score : uint256;
  totalProposals : uint256;
  successfulVerifications : uint256;
  successfulChallenges : uint256;
  lastActivity : uint256
}.

Inductive Event :=
| ProposalCreated (proposalId ngoId : uint256) (proposalType : ProposalType)
    (proposer : address) (description : string)
| VoteCast (proposalId : uint256) (voter : address) (voteType : VoteType)
    (votingPower : uint256)
| ProposalExecuted (proposalId : uint256) (verified : bool) (reason : string)
| NGOChallenged (ngoId proposalId : uint256) (challenger : address).

Record State := {
  proposals : uint256 -> Proposal;
  userReputations : address -> UserReputation;
  ngoVerificationProposals : uint256 -> uint256;
  ngoChallenges : uint256 -> list uint256;
  allProposalIds : list uint256;
  _proposalIdCounter : uint256;
  roles : Role -> address -> bool;
  status : bool;
  events : list Event
}.

(** Storage values before any write. *)
Definition default_Vote : Vote :=
  {| hasVoted := false; voteType := Upvote; votingPower := 0; reputationStake := 0 |}.

Definition default_Proposal : Proposal :=
  {| proposalId := 0; ngoId := 0; proposalType := Verification;
     proposer := zero_address; description := EmptyString;
     evidenceHash := EmptyString; startTime := 0; endTime := 0; upvotes := 0;
     downvotes := 0; totalVotingPower := 0; executed := false;
     votes := fun _ => default_Vote |}.

Definition default_UserReputation : UserReputation :=
  {| score := 0; totalProposals := 0; successfulVerifications := 0;
     successfulChallenges := 0; lastActivity := 0 |}.

(** The storage after the constructor has run for [deployer]. *)
Definition constructor (deployer : address) : State :=
  {| proposals := fun _ => default_Proposal;
     userReputations := fun _ => default_UserReputation;
     ngoVerificationProposals := fun _ => 0;
     ngoChallenges := fun _ => [];
     allProposalIds := [];
     _proposalIdCounter := 0;
     roles := fun r a => Role_eqb r DEFAULT_ADMIN_ROLE && (a =? deployer);
     status := false;
     events := [] |}.

(** Field updates. *)
Definition with_proposals (f : uint256 -> Proposal) (s : State) : State :=
  {| proposals := f; userReputations := userReputations s;
     ngoVerificationProposals := ngoVerificationProposals s;
     ngoChallenges := ngoChallenges s; allProposalIds := allProposalIds s;
     _proposalIdCounter := _proposalIdCounter s; roles := roles s;
     status := status s; events := events s |}.

Definition with_userReputations (f : address -> UserReputation) (s : State) : State :=
  {| proposals := proposals s; userReputations := f;
     ngoVerificationProposals := ngoVerificationProposals s;
     ngoChallenges := ngoChallenges s; allProposalIds := allProposalIds s;
     _proposalIdCounter := _proposalIdCounter s; roles := roles s;
     status := status s; events := events s |}.

Definition with_ngoVerificationProposals (f : uint256 -> uint256) (s : State) : State :=
  {| proposals := proposals s; userReputations := userReputations s;
     ngoVerificationProposals := f;
     ngoChallenges := ngoChallenges s; allProposalIds := allProposalIds s;
     _proposalIdCounter := _proposalIdCounter s; roles := roles s;
     status := status s; events := events s |}.

Definition with_ngoChallenges (f : uint256 -> list uint256) (s : State) : State :=
  {| proposals := proposals s; userReputations := userReputations s;
     ngoVerificationProposals := ngoVerificationProposals s;
     ngoChallenges := f; allProposalIds := allProposalIds s;
     _proposalIdCounter := _proposalIdCounter s; roles := roles s;
     status := status s; events := events s |}.

Definition with_proposalIdCounter (n : uint256) (s : State) : State :=
  {| proposals := proposals s; userReputations := userReputations s;
     ngoVerificationProposals := ngoVerificationProposals s;
     ngoChallenges := ngoChallenges s; allProposalIds := allProposalIds s;
     _proposalIdCounter := n; roles := roles s;
     status := status s; events := events s |}.

Definition with_roles (f : Role -> address -> bool) (s : State) : State :=
  {| proposals := proposals s; userReputations := userReputations s;
     ngoVerificationProposals := ngoVerificationProposals s;
     ngoChallenges := ngoChallenges s; allProposalIds := allProposalIds s;
     _proposalIdCounter := _proposalIdCounter s; roles := f;
     status := status s; events := events s |}.

Definition with_status (b : bool) (s : State) : State :=
  {| proposals := proposals s; userReputations := userReputations s;
     ngoVerificationProposals := ngoVerificationProposals s;
     ngoChallenges := ngoChallenges s; allProposalIds := allProposalIds s;
     _proposalIdCounter := _proposalIdCounter s; roles := roles s;
     status := b; events := events s |}.

Definition emit (e : Event) (s : State) : State :=
  {| proposals := proposals s; userReputations := userReputations s;
     ngoVerificationProposals := ngoVerificationProposals s;
     ngoChallenges := ngoChallenges s; allProposalIds := allProposalIds s;
     _proposalIdCounter := _proposalIdCounter s; roles := roles s;
     status := status s; events := events s ++ [e] |}.

#[global] Instance State_AccessControl : AccessControl State :=
  {| _roles := roles; set_roles := with_roles |}.

#[global] Instance State_ReentrancyGuard : ReentrancyGuard State :=
  {| _status := status; set_status := with_status |}.

Definition with_score (n : uint256) (r : UserReputation) : UserReputation :=
  {| score := n; totalProposals := totalProposals r;
     successfulVerifications := successfulVerifications r;
     successfulChallenges := successfulChallenges r;
     lastActivity := lastActivity r |}.

Definition with_successfulVerifications (n : uint256) (r : UserReputation)
  : UserReputation :=
  {| score := score r; totalProposals := totalProposals r;
     successfulVerifications := n;
     successfulChallenges := successfulChallenges r;
     lastActivity := lastActivity r |}.

Definition with_successfulChallenges (n : uint256) (r : UserReputation)
  : UserReputation :=
  {| score := score r; totalProposals := totalProposals r;
     successfulVerifications := successfulVerifications r;
     successfulChallenges := n;
     lastActivity := lastActivity r |}.

(** [_calculateVotingPower]: [(rep.score * VOTE_WEIGHT_BASE) / 1000]. *)
Definition _calculateVotingPower (voter : address) (s : State) : result uint256 :=
  let rep := userReputations s voter in
  x <- checked_mul (score rep) VOTE_WEIGHT_BASE ;;
  Ok (x / 1000).

(** [_castVote] *)
Definition _castVote (m : Msg) (pid : uint256) (vt : VoteType) (voter : address)
    (s : State) : result State :=
  let proposal := proposals s pid in
  require (timestamp m <=? endTime proposal) "Voting ended" ;;
  require (negb (hasVoted (votes proposal voter))) "Already voted" ;;
  power <- _calculateVotingPower voter s ;;
  let vote := {| hasVoted := true; voteType := vt; votingPower := power;
                 reputationStake := REPUTATION_CHANGE_PER_VOTE |} in
  up <- match vt with
        | Upvote => checked_add (upvotes proposal) power
        | Downvote => Ok (upvotes proposal)
        end ;;
  down <- match vt with
          | Upvote => Ok (downvotes proposal)
          | Downvote => checked_add (downvotes proposal) power
          end ;;
  total <- checked_add (totalVotingPower proposal) power ;;
  let proposal' :=
    {| proposalId := proposalId proposal; ngoId := ngoId proposal;
       proposalType := proposalType proposal; proposer := proposer proposal;
       description := description proposal;
       evidenceHash := evidenceHash proposal;
       startTime := startTime proposal; endTime := endTime proposal;
       upvotes := up; downvotes := down; totalVotingPower := total;
       executed := executed proposal;
       votes := upd (votes proposal) voter vote |} in
  Ok (emit (VoteCast pid voter vt power)
        (with_proposals (upd (proposals s) pid proposal') s)).

(** The assignments that fill a new proposal in storage; the fields not
    assigned keep what the slot held. *)
Definition open_proposal (m : Msg) (pid nid : uint256) (pt : ProposalType)
    (desc evidence : string) (end_ : uint256) (p : Proposal) : Proposal :=
  {| proposalId := pid; ngoId := nid; proposalType := pt;
     proposer := sender m; description := desc; evidenceHash := evidence;
     startTime := timestamp m; endTime := end_;
     upvotes := upvotes p; downvotes := downvotes p;
     totalVotingPower := totalVotingPower p; executed := executed p;
     votes := votes p |}.

Definition createVerificationProposal (m : Msg) (nid : uint256)
    (desc evidence : string) (s : State) : result (uint256 * State) :=
  nonReentrant (fun s =>
    require (ngoVerificationProposals s nid =? 0) "Proposal already exists" ;;
    require (MIN_REPUTATION_TO_VOTE <=? score (userReputations s (sender m)))
      "Insufficient reputation" ;;
    pid <- checked_add (_proposalIdCounter s) 1 ;;
    end_ <- checked_add (timestamp m) VOTING_DURATION ;;
    let s := with_proposalIdCounter pid s in
    let s := with_proposals
               (upd (proposals s) pid
                  (open_proposal m pid nid Verification desc evidence end_
                     (proposals s pid))) s in
    let s := with_ngoVerificationProposals
               (upd (ngoVerificationProposals s) nid pid) s in
    s <- _castVote m pid Upvote (sender m) s ;;
    Ok (pid, emit (ProposalCreated pid nid Verification (sender m) desc) s)) s.

Definition challengeNGO (m : Msg) (nid : uint256) (desc evidence : string)
    (s : State) : result (uint256 * State) :=
  nonReentrant (fun s =>
    require (MIN_REPUTATION_TO_VOTE <=? score (userReputations s (sender m)))
      "Insufficient reputation" ;;
    pid <- checked_add (_proposalIdCounter s) 1 ;;
    end_ <- checked_add (timestamp m) VOTING_DURATION ;;
    let s := with_proposalIdCounter pid s in
    let s := with_proposals
               (upd (proposals s) pid
                  (open_proposal m pid nid Challenge desc evidence end_
                     (proposals s pid))) s in
    let s := with_ngoChallenges
               (upd (ngoChallenges s) nid (ngoChallenges s nid ++ [pid])) s in
    s <- _castVote m pid Downvote (sender m) s ;;
    let s := emit (ProposalCreated pid nid Challenge (sender m) desc) s in
    Ok (pid, emit (NGOChallenged nid pid (sender m)) s)) s.

Definition castVote (m : Msg) (pid : uint256) (vt : VoteType) (s : State)
  : result State :=
  '(_, s') <- nonReentrant (fun s =>
    require (MIN_REPUTATION_TO_VOTE <=? score (userReputations s (sender m)))
      "Insufficient reputation" ;;
    s <- _castVote m pid vt (sender m) s ;;
    Ok (tt, s)) s ;;
  Ok s'.

(** The loop of [_updateReputationForSuccess] over [totalVotingPower]: its
    body is empty. *)
Definition update_voters_loop (n : uint256) (s : State) : State :=
  Z.iter n (fun st => st) s.

Definition _updateReputationForSuccess (pid : uint256) (isVerification : bool)
    (s : State) : result State :=
  let p := proposer (proposals s pid) in
  sc <- checked_add (score (userReputations s p)) (REPUTATION_CHANGE_PER_VOTE * 2) ;;
  let s := with_userReputations
             (upd (userReputations s) p (with_score sc (userReputations s p))) s in
  sv <- checked_add (successfulVerifications (userReputations s p))
          (if isVerification then 1 else 0) ;;
  let s := with_userReputations
             (upd (userReputations s) p
                (with_successfulVerifications sv (userReputations s p))) s in
  sch <- checked_add (successfulChallenges (userReputations s p))
           (if isVerification then 0 else 1) ;;
  let s := with_userReputations
             (upd (userReputations s) p
                (with_successfulChallenges sch (userReputations s p))) s in
  Ok (update_voters_loop (totalVotingPower (proposals s pid)) s).

Definition _updateReputationForFailure (pid : uint256) (s : State) : result State :=
  let p := proposer (proposals s pid) in
  if REPUTATION_CHANGE_PER_VOTE <? score (userReputations s p) then
    sc <- checked_sub (score (userReputations s p)) REPUTATION_CHANGE_PER_VOTE ;;
    Ok (with_userReputations
          (upd (userReputations s) p (with_score sc (userReputations s p))) s)
  else Ok s.

Definition with_executed (b : bool) (p : Proposal) : Proposal :=
  {| proposalId := proposalId p; ngoId := ngoId p;
     proposalType := proposalType p; proposer := proposer p;
     description := description p; evidenceHash := evidenceHash p;
     startTime := startTime p; endTime := endTime p;
     upvotes := upvotes p; downvotes := downvotes p;
     totalVotingPower := totalVotingPower p; executed := b;
     votes := votes p |}.

Definition executeProposal (m : Msg) (pid : uint256) (s : State) : result State :=
  '(_, s') <- nonReentrant (fun s =>
    let proposal := proposals s pid in
    require (endTime proposal <? timestamp m) "Voting not ended" ;;
    require (negb (executed proposal)) "Already executed" ;;
    let s := with_proposals (upd (proposals s) pid (with_executed true proposal)) s in
    let proposal := proposals s pid in
    let passed := downvotes proposal <? upvotes proposal in
    let reason := if passed then "Proposal passed" else "Proposal rejected" in
    s <- (if passed then
            match proposalType proposal with
            | Verification => _updateReputationForSuccess pid true s
            | Challenge => _updateReputationForSuccess pid false s
            end
          else _updateReputationForFailure pid s) ;;
    Ok (tt, emit (ProposalExecuted pid passed reason) s)) s ;;
  Ok s'.

Definition initializeReputation (m : Msg) (user : address) (s : State)
  : result State :=
  onlyRole ADMIN_ROLE m s ;;
  require (score (userReputations s user) =? 0) "Reputation already initialized" ;;
  Ok (with_userReputations
        (upd (userReputations s) user
           {| score := 500; totalProposals := 0; successfulVerifications := 0;
              successfulChallenges := 0; lastActivity := timestamp m |}) s).

Definition updateNgoRegistry (m : Msg) (_ngoRegistry : address) (s : State)
  : result State :=
  onlyRole ADMIN_ROLE m s ;;
  require (negb (_ngoRegistry =? zero_address)) "Invalid NGO registry address" ;;
  Ok s.

(** The public getter [userReputations(address)]: the five fields in the
    order of the struct. *)
Definition userReputations_getter (s : State) (a : address)
  : uint256 * uint256 * uint256 * uint256 * uint256 :=
  let r := userReputations s a in
  (score r, totalProposals r, successfulVerifications r,
   successfulChallenges r, lastActivity r).

Definition canVote (m : Msg) (user : address) (pid : uint256) (s : State) : bool :=
  if score (userReputations s user) <? MIN_REPUTATION_TO_VOTE then false
  else if executed (proposals s pid) then false
  else if endTime (proposals s pid) <? timestamp m then false
  else if hasVoted (votes (proposals s pid) user) then false
  else true.

(** The external entry points that write storage. *)
Inductive Call :=
| CreateVerificationProposal (ngoId : uint256) (description evidenceHash : string)
| ChallengeNGO (ngoId : uint256) (description evidenceHash : string)
| CastVote (proposalId : uint256) (voteType : VoteType)
| ExecuteProposal (proposalId : uint256)
| InitializeReputation (user : address)
| UpdateNgoRegistry (_ngoRegistry : address)
| GrantRole (role : Role) (account : address)
| RevokeRole (role : Role) (account : address).

Definition exec (m : Msg) (c : Call) (s : State) : result State :=
  match c with
  | CreateVerificationProposal nid d e =>
      '(_, s') <- createVerificationProposal m nid d e s ;; Ok s'
  | ChallengeNGO nid d e =>
      '(_, s') <- challengeNGO m nid d e s ;; Ok s'
  | CastVote pid vt => castVote m pid vt s
  | ExecuteProposal pid => executeProposal m pid s
  | InitializeReputation u => initializeReputation m u s
  | UpdateNgoRegistry a => updateNgoRegistry m a s
  | GrantRole r a => grantRole m r a s
  | RevokeRole r a => revokeRole m r a s
  end.

Definition step (s : State) (tx : Msg * Call) : State :=
  commit s (exec (fst tx) (snd tx) s).

Definition run (s : State) (txs : list (Msg * Call)) : State :=
  fold_left step txs s.

(** The states the contract can be in after deployment. *)
Definition reachable (s : State) : Prop :=
  exists deployer txs, s = run (constructor deployer) txs.

(** What every successful call other than [executeProposal] and
    [initializeReputation] guarantees: reputations untouched, no
    execution flag changed, no recorded vote rewritten. *)
Definition quiet (s s' : State) : Prop :=
  status s' = status s /\
  userReputations s' = userReputations s /\
  (forall q, executed (proposals s' q) = executed (proposals s q)) /\
  (forall q u, hasVoted (votes (proposals s q) u) = true ->
               votes (proposals s' q) u = votes (proposals s q) u).

End NGOGovernance.

(** ** SoulboundToken.sol *)

Module SoulboundToken.

Inductive TokenStatus := Active | Redeemed | Expired | Revoked.

Definition TokenStatus_eqb (a b : TokenStatus) : bool :=
  match a, b with
  | Active, Active | Redeemed, Redeemed | Expired, Expired | Revoked, Revoked => true
  | _, _ => false
  end.

Record TokenMetadata := {
  tokenId : uint256;
  beneficiary : address;
  campaignId : uint256;
  entitledAmount : uint256;
  serviceType : string;
  issuedAt : uint256;
  expiryDate : uint256;
  isRedeemed : bool;
  redeemedBy : address;
  redeemedAt : uint256;
  proofOfServiceHash : string;
  status : TokenStatus
}.

Inductive Event :=
| Transfer (from to : address) (tokenId : uint256)
| TokenMinted (tokenId : uint256) (beneficiary : address) (campaignId : uint256)
    (entitledAmount : uint256) (serviceType : string) (expiryDate : uint256)
| TokenRedeemed (tokenId : uint256) (redeemer beneficiary : address)
    (proofOfServiceHash : string) (redeemedAt : uint256)
| TokenRevoked (tokenId : uint256) (reason : string)
| TokenExpired (tokenId : uint256).

(** [_owners] and [_balances] are the ownership tables of the inherited
    ERC721 contract; its enumeration indexes are left out. *)
Record State := {
  _tokenIdCounter : uint256;
  tokenMetadata : uint256 -> TokenMetadata;
  beneficiaryTokens : address -> list uint256;
  campaignTokens : uint256 -> list uint256;
  _owners : uint256 -> address;
  _balances : address -> uint256;
  roles : Role -> address -> bool;
  paused : bool;
  guard : bool;
  events : list Event
}.

Definition default_TokenMetadata : TokenMetadata :=
  {| tokenId := 0; beneficiary := zero_address; campaignId := 0;
     entitledAmount := 0; serviceType := EmptyString; issuedAt := 0;
     expiryDate := 0; isRedeemed := false; redeemedBy := zero_address;
     redeemedAt := 0; proofOfServiceHash := EmptyString; status := Active |}.

Definition constructor (deployer : address) : State :=
  {| _tokenIdCounter := 0;
     tokenMetadata := fun _ => default_TokenMetadata;
     beneficiaryTokens := fun _ => [];
     campaignTokens := fun _ => [];
     _owners := fun _ => zero_address;
     _balances := fun _ => 0;
     roles := fun r a =>
       (Role_eqb r DEFAULT_ADMIN_ROLE || Role_eqb r ADMIN_ROLE
        || Role_eqb r MINTER_ROLE) && (a =? deployer);
     paused := false;
     guard := false;
     events := [] |}.

Definition with_tokenIdCounter (n : uint256) (s : State) : State :=
  {| _tokenIdCounter := n; tokenMetadata := tokenMetadata s;
     beneficiaryTokens := beneficiaryTokens s; campaignTokens := campaignTokens s;
     _owners := _owners s; _balances := _balances s; roles := roles s;
     paused := paused s; guard := guard s; events := events s |}.

Definition with_tokenMetadata (f : uint256 -> TokenMetadata) (s : State) : State :=
  {| _tokenIdCounter := _tokenIdCounter s; tokenMetadata := f;
     beneficiaryTokens := beneficiaryTokens s; campaignTokens := campaignTokens s;
     _owners := _owners s; _balances := _balances s; roles := roles s;
     paused := paused s; guard := guard s; events := events s |}.

Definition with_beneficiaryTokens (f : address -> list uint256) (s : State) : State :=
  {| _tokenIdCounter := _tokenIdCounter s; tokenMetadata := tokenMetadata s;
     beneficiaryTokens := f; campaignTokens := campaignTokens s;
     _owners := _owners s; _balances := _balances s; roles := roles s;
     paused := paused s; guard := guard s; events := events s |}.

Definition with_campaignTokens (f : uint256 -> list uint256) (s : State) : State :=
  {| _tokenIdCounter := _tokenIdCounter s; tokenMetadata := tokenMetadata s;
     beneficiaryTokens := beneficiaryTokens s; campaignTokens := f;
     _owners := _owners s; _balances := _balances s; roles := roles s;
     paused := paused s; guard := guard s; events := events s |}.

Definition with_owners (f : uint256 -> address) (s : State) : State :=
  {| _tokenIdCounter := _tokenIdCounter s; tokenMetadata := tokenMetadata s;
     beneficiaryTokens := beneficiaryTokens s; campaignTokens := campaignTokens s;
     _owners := f; _balances := _balances s; roles := roles s;
     paused := paused s; guard := guard s; events := events s |}.

Definition with_balances (f : address -> uint256) (s : State) : State :=
  {| _tokenIdCounter := _tokenIdCounter s; tokenMetadata := tokenMetadata s;
     beneficiaryTokens := beneficiaryTokens s; campaignTokens := campaignTokens s;
     _owners := _owners s; _balances := f; roles := roles s;
     paused := paused s; guard := guard s; events := events s |}.

Definition with_roles (f : Role -> address -> bool) (s : State) : State :=
  {| _tokenIdCounter := _tokenIdCounter s; tokenMetadata := tokenMetadata s;
     beneficiaryTokens := beneficiaryTokens s; campaignTokens := campaignTokens s;
     _owners := _owners s; _balances := _balances s; roles := f;
     paused := paused s; guard := guard s; events := events s |}.

Definition with_paused (b : bool) (s : State) : State :=
  {| _tokenIdCounter := _tokenIdCounter s; tokenMetadata := tokenMetadata s;
     beneficiaryTokens := beneficiaryTokens s; campaignTokens := campaignTokens s;
     _owners := _owners s; _balances := _balances s; roles := roles s;
     paused := b; guard := guard s; events := events s |}.

Definition with_guard (b : bool) (s : State) : State :=
  {| _tokenIdCounter := _tokenIdCounter s; tokenMetadata := tokenMetadata s;
     beneficiaryTokens := beneficiaryTokens s; campaignTokens := campaignTokens s;
     _owners := _owners s; _balances := _balances s; roles := roles s;
     paused := paused s; guard := b; events := events s |}.

Definition emit (e : Event) (s : State) : State :=
  {| _tokenIdCounter := _tokenIdCounter s; tokenMetadata := tokenMetadata s;
     beneficiaryTokens := beneficiaryTokens s; campaignTokens := campaignTokens s;
     _owners := _owners s; _balances := _balances s; roles := roles s;
     paused := paused s; guard := guard s; events := events s ++ [e] |}.

#[global] Instance State_AccessControl : AccessControl State :=
  {| _roles := roles; set_roles := with_roles |}.

#[global] Instance State_Pausable : Pausable State :=
  {| _paused := paused; set_paused := with_paused |}.

#[global] Instance State_ReentrancyGuard : ReentrancyGuard State :=
  {| _status := guard; set_status := with_guard |}.

(** [_ownerOf] of ERC721. *)
Definition _ownerOf (s : State) (tid : uint256) : address := _owners s tid.

(** [_safeMint] of ERC721: [_mint], then the acceptance check on the
    receiver. [onERC721Received to] tells whether [to] passes it (an
    account without code always does). This is the mint to a receiver
    that makes no call from inside its hook; [Reentrant.mintToken] is the
    mint to a receiver that does. *)
Definition _safeMint (onERC721Received : address -> bool) (to : address)
    (tid : uint256) (s : State) : result State :=
  if to =? zero_address then Err (ERC721InvalidReceiver zero_address)
  else if negb (_ownerOf s tid =? zero_address) then
    Err (ERC721InvalidSender zero_address)
  else
    let s := with_balances
               (upd (_balances s) to ((_balances s to + 1) mod 2 ^ 256)) s in
    let s := with_owners (upd (_owners s) tid to) s in
    let s := emit (Transfer zero_address to tid) s in
    if onERC721Received to then Ok s else Err (ERC721InvalidReceiver to).

Definition mintToken (onERC721Received : address -> bool) (m : Msg)
    (beneficiary_ : address) (cid amount : uint256) (service : string)
    (validityPeriod : uint256) (s : State) : result (uint256 * State) :=
  onlyRole MINTER_ROLE m s ;;
  whenNotPaused s ;;
  require (negb (beneficiary_ =? zero_address)) "Invalid beneficiary address" ;;
  require (0 <? amount) "Entitled amount must be greater than 0" ;;
  require (0 <? validityPeriod) "Validity period must be greater than 0" ;;
  let tid := _tokenIdCounter s in
  next <- checked_add (_tokenIdCounter s) 1 ;;
  let s := with_tokenIdCounter next s in
  expiry <- checked_add (timestamp m) validityPeriod ;;
  s <- _safeMint onERC721Received beneficiary_ tid s ;;
  let s := with_tokenMetadata
             (upd (tokenMetadata s) tid
                {| tokenId := tid; beneficiary := beneficiary_;
                   campaignId := cid; entitledAmount := amount;
                   serviceType := service; issuedAt := timestamp m;
                   expiryDate := expiry; isRedeemed := false;
                   redeemedBy := zero_address; redeemedAt := 0;
                   proofOfServiceHash := EmptyString; status := Active |}) s in
  let s := with_beneficiaryTokens
             (upd (beneficiaryTokens s) beneficiary_
                (beneficiaryTokens s beneficiary_ ++ [tid])) s in
  let s := with_campaignTokens
             (upd (campaignTokens s) cid (campaignTokens s cid ++ [tid])) s in
  Ok (tid, emit (TokenMinted tid beneficiary_ cid amount service expiry) s).

(** The five assignments of [redeemToken] to the token's record. *)
Definition redeemed_by (who : address) (time : uint256) (proof : string)
    (t : TokenMetadata) : TokenMetadata :=
  {| tokenId := tokenId t; beneficiary := beneficiary t;
     campaignId := campaignId t; entitledAmount := entitledAmount t;
     serviceType := serviceType t; issuedAt := issuedAt t;
     expiryDate := expiryDate t; isRedeemed := true; redeemedBy := who;
     redeemedAt := time; proofOfServiceHash := proof; status := Redeemed |}.

Definition with_token_status (st : TokenStatus) (t : TokenMetadata) : TokenMetadata :=
  {| tokenId := tokenId t; beneficiary := beneficiary t;
     campaignId := campaignId t; entitledAmount := entitledAmount t;
     serviceType := serviceType t; issuedAt := issuedAt t;
     expiryDate := expiryDate t; isRedeemed := isRedeemed t;
     redeemedBy := redeemedBy t; redeemedAt := redeemedAt t;
     proofOfServiceHash := proofOfServiceHash t; status := st |}.

Definition redeemToken (m : Msg) (tid : uint256) (proof : string) (s : State)
  : result State :=
  onlyRole REDEEMER_ROLE m s ;;
  '(_, s') <- nonReentrant (fun s =>
    whenNotPaused s ;;
    let metadata := tokenMetadata s tid in
    require (negb (_ownerOf s tid =? zero_address)) "Token does not exist" ;;
    require (TokenStatus_eqb (status metadata) Active) "Token is not active" ;;
    require (negb (isRedeemed metadata)) "Token already redeemed" ;;
    require (timestamp m <=? expiryDate metadata) "Token has expired" ;;
    require (nonempty proof) "Proof of service required" ;;
    let s := with_tokenMetadata
               (upd (tokenMetadata s) tid
                  (redeemed_by (sender m) (timestamp m) proof metadata)) s in
    Ok (tt, emit (TokenRedeemed tid (sender m) (beneficiary metadata) proof
                    (timestamp m)) s)) s ;;
  Ok s'.

Definition revokeToken (m : Msg) (tid : uint256) (reason : string) (s : State)
  : result State :=
  onlyRole ADMIN_ROLE m s ;;
  let metadata := tokenMetadata s tid in
  require (negb (_ownerOf s tid =? zero_address)) "Token does not exist" ;;
  require (TokenStatus_eqb (status metadata) Active) "Token is not active" ;;
  let s := with_tokenMetadata
             (upd (tokenMetadata s) tid (with_token_status Revoked metadata)) s in
  Ok (emit (TokenRevoked tid reason) s).

Definition markExpired (m : Msg) (tid : uint256) (s : State) : result State :=
  let metadata := tokenMetadata s tid in
  require (negb (_ownerOf s tid =? zero_address)) "Token does not exist" ;;
  require (TokenStatus_eqb (status metadata) Active) "Token is not active" ;;
  require (expiryDate metadata <? timestamp m) "Token has not expired yet" ;;
  let s := with_tokenMetadata
             (upd (tokenMetadata s) tid (with_token_status Expired metadata)) s in
  Ok (emit (TokenExpired tid) s).

Definition getTokenMetadata (tid : uint256) (s : State) : result TokenMetadata :=
  require (negb (_ownerOf s tid =? zero_address)) "Token does not exist" ;;
  Ok (tokenMetadata s tid).

Definition isTokenRedeemable (m : Msg) (tid : uint256) (s : State) : bool :=
  let metadata := tokenMetadata s tid in
  negb (_ownerOf s tid =? zero_address)
  && TokenStatus_eqb (status metadata) Active
  && negb (isRedeemed metadata)
  && (timestamp m <=? expiryDate metadata).

(** The overrides that make the token soulbound. *)
Definition transferFrom (m : Msg) (from to : address) (tid : uint256) (s : State)
  : result State :=
  Err (Revert "Soulbound tokens cannot be transferred").

Definition safeTransferFrom (m : Msg) (from to : address) (tid : uint256)
    (data : string) (s : State) : result State :=
  Err (Revert "Soulbound tokens cannot be transferred").

Definition approve (m : Msg) (to : address) (tid : uint256) (s : State)
  : result State :=
  Err (Revert "Soulbound tokens cannot be approved").

Definition setApprovalForAll (m : Msg) (operator : address) (approved : bool)
    (s : State) : result State :=
  Err (Revert "Soulbound tokens cannot be approved").

Inductive Call :=
| MintToken (beneficiary : address) (campaignId entitledAmount : uint256)
    (serviceType : string) (validityPeriod : uint256)
| RedeemToken (tokenId : uint256) (proofOfServiceHash : string)
| RevokeToken (tokenId : uint256) (reason : string)
| MarkExpired (tokenId : uint256)
| TransferFrom (from to : address) (tokenId : uint256)
| SafeTransferFrom (from to : address) (tokenId : uint256) (data : string)
| Approve (to : address) (tokenId : uint256)
| SetApprovalForAll (operator : address) (approved : bool)
| Pause
| Unpause
| GrantRole (role : Role) (account : address)
| RevokeRole (role : Role) (account : address).

Definition exec (onERC721Received : address -> bool) (m : Msg) (c : Call)
    (s : State) : result State :=
  match c with
  | MintToken b cid amount service validity =>
      '(_, s') <- mintToken onERC721Received m b cid amount service validity s ;;
      Ok s'
  | RedeemToken tid proof => redeemToken m tid proof s
  | RevokeToken tid reason => revokeToken m tid reason s
  | MarkExpired tid => markExpired m tid s
  | TransferFrom from to tid => transferFrom m from to tid s
  | SafeTransferFrom from to tid data => safeTransferFrom m from to tid data s
  | Approve to tid => approve m to tid s
  | SetApprovalForAll op b => setApprovalForAll m op b s
  | Pause => pause m s
  | Unpause => unpause m s
  | GrantRole r a => grantRole m r a s
  | RevokeRole r a => revokeRole m r a s
  end.

Definition step (onERC721Received : address -> bool) (s : State)
    (tx : Msg * Call) : State :=
  commit s (exec onERC721Received (fst tx) (snd tx) s).

Definition run (onERC721Received : address -> bool) (s : State)
    (txs : list (Msg * Call)) : State :=
  fold_left (step onERC721Received) txs s.

End SoulboundToken.

(** ** NGORegistry.sol

    The registry reads the reputation table of the governance contract it
    was deployed with; [updateGovernance], which rewires it to another
    contract, is left out. *)

Module NGORegistry.

Inductive NGOStatus := Pending | Verified | Rejected | Suspended | Blacklisted.

Definition NGOStatus_eqb (a b : NGOStatus) : bool :=
  match a, b with
  | Pending, Pending | Verified, Verified | Rejected, Rejected
  | Suspended, Suspended | Blacklisted, Blacklisted => true
  | _, _ => false
  end.

Record NGO := {
  ngoId : uint256;
  ngoAddress : address;
  name : string;
  registrationNumber : string;
  country : string;
  category : string;
  kycDocumentHash : string;
  registeredAt : uint256;
  verifiedAt : uint256;
  status : NGOStatus;
  reputationScore : uint256;
  totalCampaigns : uint256;
  totalFundsRaised : uint256;
  totalBeneficiaries : uint256;
  isActive : bool
}.

Inductive Event :=
| NGORegistered (ngoId : uint256) (ngoAddress : address) (name : string)
| NGOVerified (ngoId : uint256) (verifier : address)
| NGOStatusChanged (ngoId : uint256) (oldStatus newStatus : NGOStatus)
| NGOReputationUpdated (ngoId oldScore newScore : uint256)
| NGOActivityLogged (ngoId : uint256) (activity : string)
| AdminVerificationFrozen (triggeredBy : address) (time : uint256).

Record State := {
  _ngoIdCounter : uint256;
  addressToNgoId : address -> uint256;
  ngos : uint256 -> NGO;
  ngoActivityLogs : uint256 -> list string;
  verifiedCount : uint256;
  adminVerificationFrozen : bool;
  roles : Role -> address -> bool;
  paused : bool;
  events : list Event
}.

Definition default_NGO : NGO :=
  {| ngoId := 0; ngoAddress := zero_address; name := EmptyString;
     registrationNumber := EmptyString; country := EmptyString;
     category := EmptyString; kycDocumentHash := EmptyString;
     registeredAt := 0; verifiedAt := 0; status := Pending;
     reputationScore := 0; totalCampaigns := 0; totalFundsRaised := 0;
     totalBeneficiaries := 0; isActive := false |}.

Definition constructor (deployer : address) : State :=
  {| _ngoIdCounter := 0;
     addressToNgoId := fun _ => 0;
     ngos := fun _ => default_NGO;
     ngoActivityLogs := fun _ => [];
     verifiedCount := 0;
     adminVerificationFrozen := false;
     roles := fun r a =>
       (Role_eqb r DEFAULT_ADMIN_ROLE || Role_eqb r ADMIN_ROLE
        || Role_eqb r VERIFIER_ROLE) && (a =? deployer);
     paused := false;
     events := [] |}.

Definition with_ngoIdCounter (n : uint256) (s : State) : State :=
  {| _ngoIdCounter := n; addressToNgoId := addressToNgoId s; ngos := ngos s;
     ngoActivityLogs := ngoActivityLogs s; verifiedCount := verifiedCount s;
     adminVerificationFrozen := adminVerificationFrozen s; roles := roles s;
     paused := paused s; events := events s |}.

Definition with_addressToNgoId (f : address -> uint256) (s : State) : State :=
  {| _ngoIdCounter := _ngoIdCounter s; addressToNgoId := f; ngos := ngos s;
     ngoActivityLogs := ngoActivityLogs s; verifiedCount := verifiedCount s;
     adminVerificationFrozen := adminVerificationFrozen s; roles := roles s;
     paused := paused s; events := events s |}.

Definition with_ngos (f : uint256 -> NGO) (s : State) : State :=
  {| _ngoIdCounter := _ngoIdCounter s; addressToNgoId := addressToNgoId s;
     ngos := f;
     ngoActivityLogs := ngoActivityLogs s; verifiedCount := verifiedCount s;
     adminVerificationFrozen := adminVerificationFrozen s; roles := roles s;
     paused := paused s; events := events s |}.

Definition with_ngoActivityLogs (f : uint256 -> list string) (s : State) : State :=
  {| _ngoIdCounter := _ngoIdCounter s; addressToNgoId := addressToNgoId s;
     ngos := ngos s;
     ngoActivityLogs := f; verifiedCount := verifiedCount s;
     adminVerificationFrozen := adminVerificationFrozen s; roles := roles s;
     paused := paused s; events := events s |}.

Definition with_verifiedCount (n : uint256) (s : State) : State :=
  {| _ngoIdCounter := _ngoIdCounter s; addressToNgoId := addressToNgoId s;
     ngos := ngos s;
     ngoActivityLogs := ngoActivityLogs s; verifiedCount := n;
     adminVerificationFrozen := adminVerificationFrozen s; roles := roles s;
     paused := paused s; events := events s |}.

Definition with_adminVerificationFrozen (b : bool) (s : State) : State :=
  {| _ngoIdCounter := _ngoIdCounter s; addressToNgoId := addressToNgoId s;
     ngos := ngos s;
     ngoActivityLogs := ngoActivityLogs s; verifiedCount := verifiedCount s;
     adminVerificationFrozen := b; roles := roles s;
     paused := paused s; events := events s |}.

Definition with_roles (f : Role -> address -> bool) (s : State) : State :=
  {| _ngoIdCounter := _ngoIdCounter s; addressToNgoId := addressToNgoId s;
     ngos := ngos s;
     ngoActivityLogs := ngoActivityLogs s; verifiedCount := verifiedCount s;
     adminVerificationFrozen := adminVerificationFrozen s; roles := f;
     paused := paused s; events := events s |}.

Definition with_paused (b : bool) (s : State) : State :=
  {| _ngoIdCounter := _ngoIdCounter s; addressToNgoId := addressToNgoId s;
     ngos := ngos s;
     ngoActivityLogs := ngoActivityLogs s; verifiedCount := verifiedCount s;
     adminVerificationFrozen := adminVerificationFrozen s; roles := roles s;
     paused := b; events := events s |}.

Definition emit (e : Event) (s : State) : State :=
  {| _ngoIdCounter := _ngoIdCounter s; addressToNgoId := addressToNgoId s;
     ngos := ngos s;
     ngoActivityLogs := ngoActivityLogs s; verifiedCount := verifiedCount s;
     adminVerificationFrozen := adminVerificationFrozen s; roles := roles s;
     paused := paused s; events := events s ++ [e] |}.

#[global] Instance State_AccessControl : AccessControl State :=
  {| _roles := roles; set_roles := with_roles |}.

#[global] Instance State_Pausable : Pausable State :=
  {| _paused := paused; set_paused := with_paused |}.

(** [ngo.status = st; ngo.verifiedAt = t; ngo.isActive = act] on a record. *)
Definition with_ngo_status (st : NGOStatus) (n : NGO) : NGO :=
  {| ngoId := ngoId n; ngoAddress := ngoAddress n; name := name n;
     registrationNumber := registrationNumber n; country := country n;
     category := category n; kycDocumentHash := kycDocumentHash n;
     registeredAt := registeredAt n; verifiedAt := verifiedAt n;
     status := st; reputationScore := reputationScore n;
     totalCampaigns := totalCampaigns n;
     totalFundsRaised := totalFundsRaised n;
     totalBeneficiaries := totalBeneficiaries n; isActive := isActive n |}.

Definition with_verifiedAt (t : uint256) (n : NGO) : NGO :=
  {| ngoId := ngoId n; ngoAddress := ngoAddress n; name := name n;
     registrationNumber := registrationNumber n; country := country n;
     category := category n; kycDocumentHash := kycDocumentHash n;
     registeredAt := registeredAt n; verifiedAt := t;
     status := status n; reputationScore := reputationScore n;
     totalCampaigns := totalCampaigns n;
     totalFundsRaised := totalFundsRaised n;
     totalBeneficiaries := totalBeneficiaries n; isActive := isActive n |}.

Definition with_isActive (b : bool) (n : NGO) : NGO :=
  {| ngoId := ngoId n; ngoAddress := ngoAddress n; name := name n;
     registrationNumber := registrationNumber n; country := country n;
     category := category n; kycDocumentHash := kycDocumentHash n;
     registeredAt := registeredAt n; verifiedAt := verifiedAt n;
     status := status n; reputationScore := reputationScore n;
     totalCampaigns := totalCampaigns n;
     totalFundsRaised := totalFundsRaised n;
     totalBeneficiaries := totalBeneficiaries n; isActive := b |}.

Definition with_reputationScore (x : uint256) (n : NGO) : NGO :=
  {| ngoId := ngoId n; ngoAddress := ngoAddress n; name := name n;
     registrationNumber := registrationNumber n; country := country n;
     category := category n; kycDocumentHash := kycDocumentHash n;
     registeredAt := registeredAt n; verifiedAt := verifiedAt n;
     status := status n; reputationScore := x;
     totalCampaigns := totalCampaigns n;
     totalFundsRaised := totalFundsRaised n;
     totalBeneficiaries := totalBeneficiaries n; isActive := isActive n |}.

Definition with_statistics (c f b : uint256) (n : NGO) : NGO :=
  {| ngoId := ngoId n; ngoAddress := ngoAddress n; name := name n;
     registrationNumber := registrationNumber n; country := country n;
     category := category n; kycDocumentHash := kycDocumentHash n;
     registeredAt := registeredAt n; verifiedAt := verifiedAt n;
     status := status n; reputationScore := reputationScore n;
     totalCampaigns := c; totalFundsRaised := f;
     totalBeneficiaries := b; isActive := isActive n |}.

Definition logActivity (m : Msg) (nid : uint256) (activity : string) (s : State)
  : result State :=
  require (hasRole s ADMIN_ROLE (sender m)
           || hasRole s VERIFIER_ROLE (sender m)
           || (ngoAddress (ngos s nid) =? sender m)) "Not authorized" ;;
  require (negb (ngoId (ngos s nid) =? 0)) "NGO does not exist" ;;
  let s := with_ngoActivityLogs
             (upd (ngoActivityLogs s) nid (ngoActivityLogs s nid ++ [activity])) s in
  Ok (emit (NGOActivityLogged nid activity) s).

Definition registerNGO (m : Msg) (ngoAddress_ : address)
    (name_ registrationNumber_ country_ category_ kycDocumentHash_ : string)
    (s : State) : result (uint256 * State) :=
  whenNotPaused s ;;
  require (negb (ngoAddress_ =? zero_address)) "Invalid NGO address" ;;
  require (addressToNgoId s ngoAddress_ =? 0) "NGO already registered" ;;
  require (nonempty name_) "Name cannot be empty" ;;
  require (nonempty registrationNumber_) "Registration number required" ;;
  nid <- checked_add (_ngoIdCounter s) 1 ;;
  let s := with_ngoIdCounter nid s in
  let s := with_ngos
             (upd (ngos s) nid
                {| ngoId := nid; ngoAddress := ngoAddress_; name := name_;
                   registrationNumber := registrationNumber_;
                   country := country_; category := category_;
                   kycDocumentHash := kycDocumentHash_;
                   registeredAt := timestamp m; verifiedAt := 0;
                   status := Pending; reputationScore := 500;
                   totalCampaigns := 0; totalFundsRaised := 0;
                   totalBeneficiaries := 0; isActive := true |}) s in
  let s := with_addressToNgoId (upd (addressToNgoId s) ngoAddress_ nid) s in
  let s := emit (NGORegistered nid ngoAddress_ name_) s in
  s <- logActivity m nid "NGO registered" s ;;
  Ok (nid, s).

(** The state change shared by the two verification paths. *)
Definition mark_verified (m : Msg) (nid : uint256) (s : State) : result State :=
  let ngo := ngos s nid in
  let oldStatus := status ngo in
  let s := with_ngos
             (upd (ngos s) nid
                (with_verifiedAt (timestamp m) (with_ngo_status Verified ngo))) s in
  n <- checked_add (verifiedCount s) 1 ;;
  let s := with_verifiedCount n s in
  let s := emit (NGOVerified nid (sender m)) s in
  Ok (emit (NGOStatusChanged nid oldStatus Verified) s).

Definition verifyNGO (m : Msg) (nid : uint256) (s : State) : result State :=
  onlyRole VERIFIER_ROLE m s ;;
  let ngo := ngos s nid in
  require (negb (ngoId ngo =? 0)) "NGO does not exist" ;;
  require (NGOStatus_eqb (status ngo) Pending) "NGO is not pending verification" ;;
  require (negb (adminVerificationFrozen s)) "Admin verification is frozen" ;;
  s <- mark_verified m nid s ;;
  logActivity m nid "NGO verified by verifier" s.

Definition verifyNGOThroughGovernance (g : NGOGovernance.State) (m : Msg)
    (nid : uint256) (s : State) : result State :=
  let ngo := ngos s nid in
  require (negb (ngoId ngo =? 0)) "NGO does not exist" ;;
  require (NGOStatus_eqb (status ngo) Pending) "NGO is not pending verification" ;;
  let '(reputationScore, _, _, _, _) :=
    NGOGovernance.userReputations_getter g (sender m) in
  (if adminVerificationFrozen s then
     require (100 <=? reputationScore) "Governance-only: insufficient reputation"
   else
     require (hasRole s VERIFIER_ROLE (sender m) || (100 <=? reputationScore))
       "Not authorized") ;;
  s <- mark_verified m nid s ;;
  logActivity m nid "NGO verified through governance" s.

Definition rejectNGO (m : Msg) (nid : uint256) (reason : string) (s : State)
  : result State :=
  onlyRole VERIFIER_ROLE m s ;;
  let ngo := ngos s nid in
  require (negb (ngoId ngo =? 0)) "NGO does not exist" ;;
  require (NGOStatus_eqb (status ngo) Pending) "NGO is not pending verification" ;;
  let oldStatus := status ngo in
  let s := with_ngos (upd (ngos s) nid (with_ngo_status Rejected ngo)) s in
  let s := emit (NGOStatusChanged nid oldStatus Rejected) s in
  logActivity m nid (String.append "NGO rejected: " reason) s.

(** [ngo.status = st; ngo.isActive = false], with the status event. *)
Definition deactivate (nid : uint256) (st : NGOStatus) (s : State) : State :=
  let ngo := ngos s nid in
  let oldStatus := status ngo in
  let s := with_ngos
             (upd (ngos s) nid (with_isActive false (with_ngo_status st ngo))) s in
  emit (NGOStatusChanged nid oldStatus st) s.

Definition suspendNGO (m : Msg) (nid : uint256) (reason : string) (s : State)
  : result State :=
  onlyRole ADMIN_ROLE m s ;;
  let ngo := ngos s nid in
  require (negb (ngoId ngo =? 0)) "NGO does not exist" ;;
  require (NGOStatus_eqb (status ngo) Verified)
    "Only verified NGOs can be suspended" ;;
  let s := deactivate nid Suspended s in
  logActivity m nid (String.append "NGO suspended: " reason) s.

(** The reputation check binds the second component of the getter's
    tuple, as the source does: [(, uint256 reputationScore, , , )]. *)
Definition suspendNGOThroughGovernance (g : NGOGovernance.State) (m : Msg)
    (nid : uint256) (reason : string) (s : State) : result State :=
  let ngo := ngos s nid in
  require (negb (ngoId ngo =? 0)) "NGO does not exist" ;;
  require (NGOStatus_eqb (status ngo) Verified)
    "Only verified NGOs can be suspended" ;;
  let '(_, reputationScore, _, _, _) :=
    NGOGovernance.userReputations_getter g (sender m) in
  require (200 <=? reputationScore) "Insufficient reputation" ;;
  let s := deactivate nid Suspended s in
  logActivity m nid (String.append "NGO suspended through governance: " reason) s.

Definition blacklistNGO (m : Msg) (nid : uint256) (reason : string) (s : State)
  : result State :=
  onlyRole ADMIN_ROLE m s ;;
  let ngo := ngos s nid in
  require (negb (ngoId ngo =? 0)) "NGO does not exist" ;;
  let s := deactivate nid Blacklisted s in
  logActivity m nid (String.append "NGO blacklisted: " reason) s.

Definition updateReputation (m : Msg) (nid newScore : uint256) (s : State)
  : result State :=
  onlyRole ADMIN_ROLE m s ;;
  require (newScore <=? 1000) "Score must be between 0 and 1000" ;;
  let ngo := ngos s nid in
  require (negb (ngoId ngo =? 0)) "NGO does not exist" ;;
  let oldScore := reputationScore ngo in
  let s := with_ngos (upd (ngos s) nid (with_reputationScore newScore ngo)) s in
  Ok (emit (NGOReputationUpdated nid oldScore newScore) s).

Definition updateStatistics (m : Msg) (nid campaignCount fundsRaised beneficiaries
    : uint256) (s : State) : result State :=
  onlyRole ADMIN_ROLE m s ;;
  let ngo := ngos s nid in
  require (negb (ngoId ngo =? 0)) "NGO does not exist" ;;
  Ok (with_ngos
        (upd (ngos s) nid
           (with_statistics campaignCount fundsRaised beneficiaries ngo)) s).

Definition isNGOVerified (s : State) (a : address) : bool :=
  let nid := addressToNgoId s a in
  if nid =? 0 then false
  else NGOStatus_eqb (status (ngos s nid)) Verified && isActive (ngos s nid).

Definition freezeAdminVerification (m : Msg) (s : State) : result State :=
  onlyRole ADMIN_ROLE m s ;;
  require (negb (adminVerificationFrozen s)) "Admin verification already frozen" ;;
  let s := with_adminVerificationFrozen true s in
  Ok (emit (AdminVerificationFrozen (sender m) (timestamp m)) s).

Inductive Call :=
| RegisterNGO (ngoAddress : address)
    (name registrationNumber country category kycDocumentHash : string)
| VerifyNGO (ngoId : uint256)
| VerifyNGOThroughGovernance (ngoId : uint256)
| RejectNGO (ngoId : uint256) (reason : string)
| SuspendNGO (ngoId : uint256) (reason : string)
| SuspendNGOThroughGovernance (ngoId : uint256) (reason : string)
| BlacklistNGO (ngoId : uint256) (reason : string)
| UpdateReputation (ngoId newScore : uint256)
| UpdateStatistics (ngoId campaignCount fundsRaised beneficiaries : uint256)
| LogActivity (ngoId : uint256) (activity : string)
| FreezeAdminVerification
| Pause
| Unpause
| GrantRole (role : Role) (account : address)
| RevokeRole (role : Role) (account : address).

Definition exec (g : NGOGovernance.State) (m : Msg) (c : Call) (s : State)
  : result State :=
  match c with
  | RegisterNGO a n r co ca k =>
      '(_, s') <- registerNGO m a n r co ca k s ;; Ok s'
  | VerifyNGO nid => verifyNGO m nid s
  | VerifyNGOThroughGovernance nid => verifyNGOThroughGovernance g m nid s
  | RejectNGO nid reason => rejectNGO m nid reason s
  | SuspendNGO nid reason => suspendNGO m nid reason s
  | SuspendNGOThroughGovernance nid reason =>
      suspendNGOThroughGovernance g m nid reason s
  | BlacklistNGO nid reason => blacklistNGO m nid reason s
  | UpdateReputation nid x => updateReputation m nid x s
  | UpdateStatistics nid c f b => updateStatistics m nid c f b s
  | LogActivity nid a => logActivity m nid a s
  | FreezeAdminVerification => freezeAdminVerification m s
  | Pause => pause m s
  | Unpause => unpause m s
  | GrantRole r a => grantRole m r a s
  | RevokeRole r a => revokeRole m r a s
  end.

End NGORegistry.

(** ** CampaignFactory.sol *)

Module CampaignFactory.

Inductive CampaignStatus := Draft | Active | Paused | Completed | Cancelled.

Definition CampaignStatus_eqb (a b : CampaignStatus) : bool :=
  match a, b with
  | Draft, Draft | Active, Active | Paused, Paused | Completed, Completed
  | Cancelled, Cancelled => true
  | _, _ => false
  end.

Inductive MilestoneStatus :=
| MilestonePending
| MilestoneInProgress
| MilestoneCompleted
| MilestoneFailed.

Record Milestone := {
  m_description : string;
  m_targetAmount : uint256;
  deadline : uint256;
  m_status : MilestoneStatus;
  proofHash : string;
  completedAt : uint256
}.

Record Campaign := {
  campaignId : uint256;
  ngoAddress : address;
  ngoId : uint256;
  title : string;
  description : string;
  category : string;
  targetAmount : uint256;
  raisedAmount : uint256;
  startDate : uint256;
  endDate : uint256;
  status : CampaignStatus;
  totalDonors : uint256;
  totalBeneficiaries : uint256;
  documentsHash : string;
  hasMilestones : bool;
  createdAt : uint256
}.

Inductive Event :=
| CampaignCreated (campaignId : uint256) (ngo : address) (title : string)
    (targetAmount : uint256)
| CampaignStatusChanged (campaignId : uint256) (oldStatus newStatus : CampaignStatus)
| DonationReceived (campaignId : uint256) (donor : address) (amount : uint256)
| MilestoneAdded (campaignId milestoneIndex : uint256) (description : string)
| MilestoneCompletedEvent (campaignId milestoneIndex : uint256)
| FundsReleased (campaignId amount : uint256) (recipient : address)
| BeneficiaryTokenIssued (campaignId : uint256) (beneficiary : address)
    (tokenId : uint256).

(** [this] is [address(this)] and [balance] the ether the contract holds. *)
Record State := {
  this : address;
  balance : uint256;
  _campaignIdCounter : uint256;
  campaigns : uint256 -> Campaign;
  campaignMilestones : uint256 -> list Milestone;
  campaignDonors : uint256 -> list address;
  campaignDonations : uint256 -> address -> uint256;
  campaignFunds : uint256 -> uint256;
  platformFeePercentage : uint256;
  feeCollector : address;
  roles : Role -> address -> bool;
  paused : bool;
  guard : bool;
  events : list Event
}.

Definition default_Campaign : Campaign :=
  {| campaignId := 0; ngoAddress := zero_address; ngoId := 0;
     title := EmptyString; description := EmptyString;
     category := EmptyString; targetAmount := 0; raisedAmount := 0;
     startDate := 0; endDate := 0; status := Draft; totalDonors := 0;
     totalBeneficiaries := 0; documentsHash := EmptyString;
     hasMilestones := false; createdAt := 0 |}.

Definition constructor (self deployer _feeCollector : address) : State :=
  {| this := self;
     balance := 0;
     _campaignIdCounter := 0;
     campaigns := fun _ => default_Campaign;
     campaignMilestones := fun _ => [];
     campaignDonors := fun _ => [];
     campaignDonations := fun _ _ => 0;
     campaignFunds := fun _ => 0;
     platformFeePercentage := 250;
     feeCollector := _feeCollector;
     roles := fun r a =>
       (Role_eqb r DEFAULT_ADMIN_ROLE || Role_eqb r ADMIN_ROLE) && (a =? deployer);
     paused := false;
     guard := false;
     events := [] |}.

Definition with_balance (n : uint256) (s : State) : State :=
  {| this := this s; balance := n; _campaignIdCounter := _campaignIdCounter s;
     campaigns := campaigns s; campaignMilestones := campaignMilestones s;
     campaignDonors := campaignDonors s; campaignDonations := campaignDonations s;
     campaignFunds := campaignFunds s;
     platformFeePercentage := platformFeePercentage s;
     feeCollector := feeCollector s; roles := roles s; paused := paused s;
     guard := guard s; events := events s |}.

Definition with_campaignIdCounter (n : uint256) (s : State) : State :=
  {| this := this s; balance := balance s; _campaignIdCounter := n;
     campaigns := campaigns s; campaignMilestones := campaignMilestones s;
     campaignDonors := campaignDonors s; campaignDonations := campaignDonations s;
     campaignFunds := campaignFunds s;
     platformFeePercentage := platformFeePercentage s;
     feeCollector := feeCollector s; roles := roles s; paused := paused s;
     guard := guard s; events := events s |}.

Definition with_campaigns (f : uint256 -> Campaign) (s : State) : State :=
  {| this := this s; balance := balance s;
     _campaignIdCounter := _campaignIdCounter s;
     campaigns := f; campaignMilestones := campaignMilestones s;
     campaignDonors := campaignDonors s; campaignDonations := campaignDonations s;
     campaignFunds := campaignFunds s;
     platformFeePercentage := platformFeePercentage s;
     feeCollector := feeCollector s; roles := roles s; paused := paused s;
     guard := guard s; events := events s |}.

Definition with_campaignMilestones (f : uint256 -> list Milestone) (s : State) : State :=
  {| this := this s; balance := balance s;
     _campaignIdCounter := _campaignIdCounter s;
     campaigns := campaigns s; campaignMilestones := f;
     campaignDonors := campaignDonors s; campaignDonations := campaignDonations s;
     campaignFunds := campaignFunds s;
     platformFeePercentage := platformFeePercentage s;
     feeCollector := feeCollector s; roles := roles s; paused := paused s;
     guard := guard s; events := events s |}.

Definition with_campaignDonors (f : uint256 -> list address) (s : State) : State :=
  {| this := this s; balance := balance s;
     _campaignIdCounter := _campaignIdCounter s;
     campaigns := campaigns s; campaignMilestones := campaignMilestones s;
     campaignDonors := f; campaignDonations := campaignDonations s;
     campaignFunds := campaignFunds s;
     platformFeePercentage := platformFeePercentage s;
     feeCollector := feeCollector s; roles := roles s; paused := paused s;
     guard := guard s; events := events s |}.

Definition with_campaignDonations (f : uint256 -> address -> uint256) (s : State)
  : State :=
  {| this := this s; balance := balance s;
     _campaignIdCounter := _campaignIdCounter s;
     campaigns := campaigns s; campaignMilestones := campaignMilestones s;
     campaignDonors := campaignDonors s; campaignDonations := f;
     campaignFunds := campaignFunds s;
     platformFeePercentage := platformFeePercentage s;
     feeCollector := feeCollector s; roles := roles s; paused := paused s;
     guard := guard s; events := events s |}.

Definition with_campaignFunds (f : uint256 -> uint256) (s : State) : State :=
  {| this := this s; balance := balance s;
     _campaignIdCounter := _campaignIdCounter s;
     campaigns := campaigns s; campaignMilestones := campaignMilestones s;
     campaignDonors := campaignDonors s; campaignDonations := campaignDonations s;
     campaignFunds := f;
     platformFeePercentage := platformFeePercentage s;
     feeCollector := feeCollector s; roles := roles s; paused := paused s;
     guard := guard s; events := events s |}.

Definition with_platformFeePercentage (n : uint256) (s : State) : State :=
  {| this := this s; balance := balance s;
     _campaignIdCounter := _campaignIdCounter s;
     campaigns := campaigns s; campaignMilestones := campaignMilestones s;
     campaignDonors := campaignDonors s; campaignDonations := campaignDonations s;
     campaignFunds := campaignFunds s;
     platformFeePercentage := n;
     feeCollector := feeCollector s; roles := roles s; paused := paused s;
     guard := guard s; events := events s |}.

Definition with_feeCollector (a : address) (s : State) : State :=
  {| this := this s; balance := balance s;
     _campaignIdCounter := _campaignIdCounter s;
     campaigns := campaigns s; campaignMilestones := campaignMilestones s;
     campaignDonors := campaignDonors s; campaignDonations := campaignDonations s;
     campaignFunds := campaignFunds s;
     platformFeePercentage := platformFeePercentage s;
     feeCollector := a; roles := roles s; paused := paused s;
     guard := guard s; events := events s |}.

Definition with_roles (f : Role -> address -> bool) (s : State) : State :=
  {| this := this s; balance := balance s;
     _campaignIdCounter := _campaignIdCounter s;
     campaigns := campaigns s; campaignMilestones := campaignMilestones s;
     campaignDonors := campaignDonors s; campaignDonations := campaignDonations s;
     campaignFunds := campaignFunds s;
     platformFeePercentage := platformFeePercentage s;
     feeCollector := feeCollector s; roles := f; paused := paused s;
     guard := guard s; events := events s |}.

Definition with_paused (b : bool) (s : State) : State :=
  {| this := this s; balance := balance s;
     _campaignIdCounter := _campaignIdCounter s;
     campaigns := campaigns s; campaignMilestones := campaignMilestones s;
     campaignDonors := campaignDonors s; campaignDonations := campaignDonations s;
     campaignFunds := campaignFunds s;
     platformFeePercentage := platformFeePercentage s;
     feeCollector := feeCollector s; roles := roles s; paused := b;
     guard := guard s; events := events s |}.

Definition with_guard (b : bool) (s : State) : State :=
  {| this := this s; balance := balance s;
     _campaignIdCounter := _campaignIdCounter s;
     campaigns := campaigns s; campaignMilestones := campaignMilestones s;
     campaignDonors := campaignDonors s; campaignDonations := campaignDonations s;
     campaignFunds := campaignFunds s;
     platformFeePercentage := platformFeePercentage s;
     feeCollector := feeCollector s; roles := roles s; paused := paused s;
     guard := b; events := events s |}.

Definition emit (e : Event) (s : State) : State :=
  {| this := this s; balance := balance s;
     _campaignIdCounter := _campaignIdCounter s;
     campaigns := campaigns s; campaignMilestones := campaignMilestones s;
     campaignDonors := campaignDonors s; campaignDonations := campaignDonations s;
     campaignFunds := campaignFunds s;
     platformFeePercentage := platformFeePercentage s;
     feeCollector := feeCollector s; roles := roles s; paused := paused s;
     guard := guard s; events := events s ++ [e] |}.

#[global] Instance State_AccessControl : AccessControl State :=
  {| _roles := roles; set_roles := with_roles |}.

#[global] Instance State_Pausable : Pausable State :=
  {| _paused := paused; set_paused := with_paused |}.

#[global] Instance State_ReentrancyGuard : ReentrancyGuard State :=
  {| _status := guard; set_status := with_guard |}.

Definition with_raisedAmount (n : uint256) (c : Campaign) : Campaign :=
  {| campaignId := campaignId c; ngoAddress := ngoAddress c; ngoId := ngoId c;
     title := title c; description := description c; category := category c;
     targetAmount := targetAmount c; raisedAmount := n;
     startDate := startDate c; endDate := endDate c; status := status c;
     totalDonors := totalDonors c; totalBeneficiaries := totalBeneficiaries c;
     documentsHash := documentsHash c; hasMilestones := hasMilestones c;
     createdAt := createdAt c |}.

Definition with_campaign_status (st : CampaignStatus) (c : Campaign) : Campaign :=
  {| campaignId := campaignId c; ngoAddress := ngoAddress c; ngoId := ngoId c;
     title := title c; description := description c; category := category c;
     targetAmount := targetAmount c; raisedAmount := raisedAmount c;
     startDate := startDate c; endDate := endDate c; status := st;
     totalDonors := totalDonors c; totalBeneficiaries := totalBeneficiaries c;
     documentsHash := documentsHash c; hasMilestones := hasMilestones c;
     createdAt := createdAt c |}.

Definition with_totalDonors (n : uint256) (c : Campaign) : Campaign :=
  {| campaignId := campaignId c; ngoAddress := ngoAddress c; ngoId := ngoId c;
     title := title c; description := description c; category := category c;
     targetAmount := targetAmount c; raisedAmount := raisedAmount c;
     startDate := startDate c; endDate := endDate c; status := status c;
     totalDonors := n; totalBeneficiaries := totalBeneficiaries c;
     documentsHash := documentsHash c; hasMilestones := hasMilestones c;
     createdAt := createdAt c |}.

Definition with_totalBeneficiaries (n : uint256) (c : Campaign) : Campaign :=
  {| campaignId := campaignId c; ngoAddress := ngoAddress c; ngoId := ngoId c;
     title := title c; description := description c; category := category c;
     targetAmount := targetAmount c; raisedAmount := raisedAmount c;
     startDate := startDate c; endDate := endDate c; status := status c;
     totalDonors := totalDonors c; totalBeneficiaries := n;
     documentsHash := documentsHash c; hasMilestones := hasMilestones c;
     createdAt := createdAt c |}.

Definition with_hasMilestones (b : bool) (c : Campaign) : Campaign :=
  {| campaignId := campaignId c; ngoAddress := ngoAddress c; ngoId := ngoId c;
     title := title c; description := description c; category := category c;
     targetAmount := targetAmount c; raisedAmount := raisedAmount c;
     startDate := startDate c; endDate := endDate c; status := status c;
     totalDonors := totalDonors c; totalBeneficiaries := totalBeneficiaries c;
     documentsHash := documentsHash c; hasMilestones := b;
     createdAt := createdAt c |}.

Definition createCampaign (reg : NGORegistry.State) (m : Msg)
    (title_ description_ category_ : string) (targetAmount_ duration : uint256)
    (documentsHash_ : string) (s : State) : result (uint256 * State) :=
  whenNotPaused s ;;
  require (NGORegistry.isNGOVerified reg (sender m))
    "Only verified NGOs can create campaigns" ;;
  require (0 <? targetAmount_) "Target amount must be greater than 0" ;;
  require (0 <? duration) "Duration must be greater than 0" ;;
  cid <- checked_add (_campaignIdCounter s) 1 ;;
  let s := with_campaignIdCounter cid s in
  let ngoId_ := NGORegistry.addressToNgoId reg (sender m) in
  end_ <- checked_add (timestamp m) duration ;;
  let s := with_campaigns
             (upd (campaigns s) cid
                {| campaignId := cid; ngoAddress := sender m; ngoId := ngoId_;
                   title := title_; description := description_;
                   category := category_; targetAmount := targetAmount_;
                   raisedAmount := 0; startDate := timestamp m;
                   endDate := end_; status := Active; totalDonors := 0;
                   totalBeneficiaries := 0; documentsHash := documentsHash_;
                   hasMilestones := false; createdAt := timestamp m |}) s in
  Ok (cid, emit (CampaignCreated cid (sender m) title_ targetAmount_) s).

Definition addMilestone (m : Msg) (cid : uint256) (description_ : string)
    (targetAmount_ deadline_ : uint256) (s : State) : result State :=
  let campaign := campaigns s cid in
  require (negb (campaignId campaign =? 0)) "Campaign does not exist" ;;
  require (ngoAddress campaign =? sender m)
    "Only campaign creator can add milestones" ;;
  require (CampaignStatus_eqb (status campaign) Draft
           || CampaignStatus_eqb (status campaign) Active)
    "Cannot modify campaign" ;;
  let s := with_campaignMilestones
             (upd (campaignMilestones s) cid
                (campaignMilestones s cid ++
                 [{| m_description := description_;
                     m_targetAmount := targetAmount_; deadline := deadline_;
                     m_status := MilestonePending; proofHash := EmptyString;
                     completedAt := 0 |}])) s in
  let s := with_campaigns
             (upd (campaigns s) cid (with_hasMilestones true campaign)) s in
  idx <- checked_sub (Z.of_nat (List.length (campaignMilestones s cid))) 1 ;;
  Ok (emit (MilestoneAdded cid idx description_) s).

(** [_updateCampaignStatus] *)
Definition _updateCampaignStatus (cid : uint256) (newStatus : CampaignStatus)
    (s : State) : State :=
  let campaign := campaigns s cid in
  let oldStatus := status campaign in
  let s := with_campaigns
             (upd (campaigns s) cid (with_campaign_status newStatus campaign)) s in
  emit (CampaignStatusChanged cid oldStatus newStatus) s.

(** [donate] is payable: [value] is [msg.value], credited to the
    contract's balance when the call starts. *)
Definition donate (m : Msg) (value : uint256) (cid : uint256) (s : State)
  : result State :=
  bal <- checked_add (balance s) value ;;
  let s := with_balance bal s in
  '(_, s') <- nonReentrant (fun s =>
    whenNotPaused s ;;
    let campaign := campaigns s cid in
    require (negb (campaignId campaign =? 0)) "Campaign does not exist" ;;
    require (CampaignStatus_eqb (status campaign) Active) "Campaign is not active" ;;
    require (timestamp m <=? endDate campaign) "Campaign has ended" ;;
    require (0 <? value) "Donation amount must be greater than 0" ;;
    s <- (if campaignDonations s cid (sender m) =? 0 then
            let s := with_campaignDonors
                       (upd (campaignDonors s) cid
                          (campaignDonors s cid ++ [sender m])) s in
            n <- checked_add (totalDonors (campaigns s cid)) 1 ;;
            Ok (with_campaigns
                  (upd (campaigns s) cid
                     (with_totalDonors n (campaigns s cid))) s)
          else Ok s) ;;
    d <- checked_add (campaignDonations s cid (sender m)) value ;;
    let s := with_campaignDonations
               (upd (campaignDonations s) cid
                  (upd (campaignDonations s cid) (sender m) d)) s in
    r <- checked_add (raisedAmount (campaigns s cid)) value ;;
    let s := with_campaigns
               (upd (campaigns s) cid (with_raisedAmount r (campaigns s cid))) s in
    f <- checked_add (campaignFunds s cid) value ;;
    let s := with_campaignFunds (upd (campaignFunds s) cid f) s in
    let s := emit (DonationReceived cid (sender m) value) s in
    let s := if targetAmount (campaigns s cid) <=? raisedAmount (campaigns s cid)
             then _updateCampaignStatus cid Completed s
             else s in
    Ok (tt, s)) s ;;
  Ok s'.

(** [issueBeneficiaryToken]: the mint is a call into the token contract,
    whose [msg.sender] is this contract. *)
Definition issueBeneficiaryToken (onERC721Received : address -> bool) (m : Msg)
    (cid : uint256) (beneficiary : address) (entitledAmount : uint256)
    (serviceType : string) (validityPeriod : uint256)
    (tok : SoulboundToken.State) (s : State)
  : result (uint256 * SoulboundToken.State * State) :=
  nonReentrant (fun s =>
    let campaign := campaigns s cid in
    require (negb (campaignId campaign =? 0)) "Campaign does not exist" ;;
    require (ngoAddress campaign =? sender m)
      "Only campaign creator can issue tokens" ;;
    require (CampaignStatus_eqb (status campaign) Active)
      "Campaign must be active" ;;
    require (entitledAmount <=? campaignFunds s cid) "Insufficient campaign funds" ;;
    require (0 <? entitledAmount) "Entitled amount must be greater than 0" ;;
    require (0 <? validityPeriod) "Validity period must be greater than 0" ;;
    '(tid, tok') <- SoulboundToken.mintToken onERC721Received
                      {| sender := this s; timestamp := timestamp m |}
                      beneficiary cid entitledAmount serviceType validityPeriod
                      tok ;;
    n <- checked_add (totalBeneficiaries (campaigns s cid)) 1 ;;
    let s := with_campaigns
               (upd (campaigns s) cid
                  (with_totalBeneficiaries n (campaigns s cid))) s in
    f <- checked_sub (campaignFunds s cid) entitledAmount ;;
    let s := with_campaignFunds (upd (campaignFunds s) cid f) s in
    Ok ((tid, tok'), emit (BeneficiaryTokenIssued cid beneficiary tid) s)) s.

(** An external value transfer made by the contract, with the storage
    the callee finds at that moment. *)
Record ExternalCall := {
  callee : address;
  callvalue : uint256;
  storage_seen : State
}.

(** [to.call{value: v}("")]: fails when the balance does not cover [v] or
    when the callee rejects the transfer ([acceptsValue] is the callee's
    answer). This is the transfer to a callee that is not the factory
    itself and makes no call while it has control;
    [Reentrant.transfer] is the transfer in general. *)
Definition call (acceptsValue : address -> uint256 -> bool) (to : address)
    (v : uint256) (s : State) : bool * State * list ExternalCall :=
  if (v <=? balance s) && acceptsValue to v then
    let s' := with_balance (balance s - v) s in
    (true, s', [{| callee := to; callvalue := v; storage_seen := s' |}])
  else (false, s, []).

Definition releaseFunds (acceptsValue : address -> uint256 -> bool) (m : Msg)
    (cid : uint256) (recipient : address) (amount : uint256) (s : State)
  : result (list ExternalCall * State) :=
  onlyRole ADMIN_ROLE m s ;;
  nonReentrant (fun s =>
    let campaign := campaigns s cid in
    require (negb (campaignId campaign =? 0)) "Campaign does not exist" ;;
    require (negb (recipient =? zero_address)) "Invalid recipient" ;;
    require (0 <? amount) "Amount must be greater than 0" ;;
    x <- checked_mul amount (platformFeePercentage s) ;;
    let fee := x / 10000 in
    netAmount <- checked_sub amount fee ;;
    let '(successFee, s, log1) := call acceptsValue (feeCollector s) fee s in
    require successFee "Fee transfer failed" ;;
    let '(successNet, s, log2) := call acceptsValue recipient netAmount s in
    require successNet "Fund transfer failed" ;;
    Ok (log1 ++ log2, emit (FundsReleased cid netAmount recipient) s)) s.

Fixpoint set_nth {A} (n : nat) (x : A) (l : list A) : list A :=
  match l, n with
  | [], _ => []
  | _ :: t, O => x :: t
  | h :: t, S n' => h :: set_nth n' x t
  end.

Definition completeMilestone (m : Msg) (cid milestoneIndex : uint256)
    (proofHash_ : string) (s : State) : result State :=
  let campaign := campaigns s cid in
  require (negb (campaignId campaign =? 0)) "Campaign does not exist" ;;
  require (ngoAddress campaign =? sender m)
    "Only campaign creator can complete milestones" ;;
  require (milestoneIndex <? Z.of_nat (List.length (campaignMilestones s cid)))
    "Invalid milestone index" ;;
  match nth_error (campaignMilestones s cid) (Z.to_nat milestoneIndex) with
  | None => Err (Panic 50)
  | Some milestone =>
      require (match m_status milestone with
               | MilestonePending | MilestoneInProgress => true
               | _ => false
               end) "Milestone cannot be completed" ;;
      let milestone' :=
        {| m_description := m_description milestone;
           m_targetAmount := m_targetAmount milestone;
           deadline := deadline milestone; m_status := MilestoneCompleted;
           proofHash := proofHash_; completedAt := timestamp m |} in
      let s := with_campaignMilestones
                 (upd (campaignMilestones s) cid
                    (set_nth (Z.to_nat milestoneIndex) milestone'
                       (campaignMilestones s cid))) s in
      Ok (emit (MilestoneCompletedEvent cid milestoneIndex) s)
  end.

Definition pauseCampaign (m : Msg) (cid : uint256) (s : State) : result State :=
  let campaign := campaigns s cid in
  require (negb (campaignId campaign =? 0)) "Campaign does not exist" ;;
  require ((ngoAddress campaign =? sender m) || hasRole s ADMIN_ROLE (sender m))
    "Not authorized" ;;
  require (CampaignStatus_eqb (status campaign) Active) "Campaign is not active" ;;
  Ok (_updateCampaignStatus cid Paused s).

Definition resumeCampaign (m : Msg) (cid : uint256) (s : State) : result State :=
  let campaign := campaigns s cid in
  require (negb (campaignId campaign =? 0)) "Campaign does not exist" ;;
  require ((ngoAddress campaign =? sender m) || hasRole s ADMIN_ROLE (sender m))
    "Not authorized" ;;
  require (CampaignStatus_eqb (status campaign) Paused) "Campaign is not paused" ;;
  Ok (_updateCampaignStatus cid Active s).

Definition updatePlatformFee (m : Msg) (newFeePercentage : uint256) (s : State)
  : result State :=
  onlyRole ADMIN_ROLE m s ;;
  require (newFeePercentage <=? 1000) "Fee cannot exceed 10%" ;;
  Ok (with_platformFeePercentage newFeePercentage s).

Definition updateFeeCollector (m : Msg) (newFeeCollector : address) (s : State)
  : result State :=
  onlyRole ADMIN_ROLE m s ;;
  require (negb (newFeeCollector =? zero_address)) "Invalid address" ;;
  Ok (with_feeCollector newFeeCollector s).

(** [receive() external payable {}] *)
Definition receive (m : Msg) (value : uint256) (s : State) : result State :=
  bal <- checked_add (balance s) value ;;
  Ok (with_balance bal s).

Definition canIssueTokens (cid : uint256) (ngoAddress_ : address) (s : State) : bool :=
  let campaign := campaigns s cid in
  negb (campaignId campaign =? 0)
  && (ngoAddress campaign =? ngoAddress_)
  && CampaignStatus_eqb (status campaign) Active
  && (0 <? campaignFunds s cid).

Definition getCampaignFunds (cid : uint256) (s : State) : result uint256 :=
  require (negb (campaignId (campaigns s cid) =? 0)) "Campaign does not exist" ;;
  Ok (campaignFunds s cid).

Inductive Call :=
| CreateCampaign (title description category : string)
    (targetAmount duration : uint256) (documentsHash : string)
| AddMilestone (campaignId : uint256) (description : string)
    (targetAmount deadline : uint256)
| Donate (value campaignId : uint256)
| IssueBeneficiaryToken (campaignId : uint256) (beneficiary : address)
    (entitledAmount : uint256) (serviceType : string) (validityPeriod : uint256)
| ReleaseFunds (campaignId : uint256) (recipient : address) (amount : uint256)
| CompleteMilestone (campaignId milestoneIndex : uint256) (proofHash : string)
| PauseCampaign (campaignId : uint256)
| ResumeCampaign (campaignId : uint256)
| UpdatePlatformFee (newFeePercentage : uint256)
| UpdateFeeCollector (newFeeCollector : address)
| Receive (value : uint256)
| Pause
| Unpause
| GrantRole (role : Role) (account : address)
| RevokeRole (role : Role) (account : address).

End CampaignFactory.

(** ** The deployed system

    The four contracts side by side. A transaction names the contract and
    the entry point it calls, and carries the answers of the external
    accounts it touches. *)

Module World.

Record Externals := {
  onERC721Received : address -> bool;
  acceptsValue : address -> uint256 -> bool
}.

Record State := {
  gov : NGOGovernance.State;
  reg : NGORegistry.State;
  tok : SoulboundToken.State;
  fac : CampaignFactory.State
}.

Inductive Call :=
| Governance (c : NGOGovernance.Call)
| Registry (c : NGORegistry.Call)
| Token (c : SoulboundToken.Call)
| Factory (c : CampaignFactory.Call).

Record Tx := {
  tx_msg : Msg;
  tx_ext : Externals;
  tx_call : Call
}.

Definition with_gov (g : NGOGovernance.State) (w : State) : State :=
  {| gov := g; reg := reg w; tok := tok w; fac := fac w |}.

Definition with_reg (r : NGORegistry.State) (w : State) : State :=
  {| gov := gov w; reg := r; tok := tok w; fac := fac w |}.

Definition with_tok (t : SoulboundToken.State) (w : State) : State :=
  {| gov := gov w; reg := reg w; tok := t; fac := fac w |}.

Definition with_fac (f : CampaignFactory.State) (w : State) : State :=
  {| gov := gov w; reg := reg w; tok := tok w; fac := f |}.

Definition exec_factory (ext : Externals) (m : Msg) (c : CampaignFactory.Call)
    (w : State) : result State :=
  match c with
  | CampaignFactory.CreateCampaign t d c target duration docs =>
      '(_, f) <- CampaignFactory.createCampaign (reg w) m t d c target duration
                   docs (fac w) ;;
      Ok (with_fac f w)
  | CampaignFactory.AddMilestone cid d target deadline =>
      f <- CampaignFactory.addMilestone m cid d target deadline (fac w) ;;
      Ok (with_fac f w)
  | CampaignFactory.Donate value cid =>
      f <- CampaignFactory.donate m value cid (fac w) ;;
      Ok (with_fac f w)
  | CampaignFactory.IssueBeneficiaryToken cid b amount service validity =>
      '(_, t, f) <- CampaignFactory.issueBeneficiaryToken (onERC721Received ext)
                      m cid b amount service validity (tok w) (fac w) ;;
      Ok (with_fac f (with_tok t w))
  | CampaignFactory.ReleaseFunds cid recipient amount =>
      '(_, f) <- CampaignFactory.releaseFunds (acceptsValue ext) m cid recipient
                   amount (fac w) ;;
      Ok (with_fac f w)
  | CampaignFactory.CompleteMilestone cid idx proof =>
      f <- CampaignFactory.completeMilestone m cid idx proof (fac w) ;;
      Ok (with_fac f w)
  | CampaignFactory.PauseCampaign cid =>
      f <- CampaignFactory.pauseCampaign m cid (fac w) ;;
      Ok (with_fac f w)
  | CampaignFactory.ResumeCampaign cid =>
      f <- CampaignFactory.resumeCampaign m cid (fac w) ;;
      Ok (with_fac f w)
  | CampaignFactory.UpdatePlatformFee n =>
      f <- CampaignFactory.updatePlatformFee m n (fac w) ;;
      Ok (with_fac f w)
  | CampaignFactory.UpdateFeeCollector a =>
      f <- CampaignFactory.updateFeeCollector m a (fac w) ;;
      Ok (with_fac f w)
  | CampaignFactory.Receive value =>
      f <- CampaignFactory.receive m value (fac w) ;;
      Ok (with_fac f w)
  | CampaignFactory.Pause => f <- pause m (fac w) ;; Ok (with_fac f w)
  | CampaignFactory.Unpause => f <- unpause m (fac w) ;; Ok (with_fac f w)
  | CampaignFactory.GrantRole r a =>
      f <- grantRole m r a (fac w) ;; Ok (with_fac f w)
  | CampaignFactory.RevokeRole r a =>
      f <- revokeRole m r a (fac w) ;; Ok (with_fac f w)
  end.

Definition exec (tx : Tx) (w : State) : result State :=
  match tx_call tx with
  | Governance c =>
      g <- NGOGovernance.exec (tx_msg tx) c (gov w) ;; Ok (with_gov g w)
  | Registry c =>
      r <- NGORegistry.exec (gov w) (tx_msg tx) c (reg w) ;; Ok (with_reg r w)
  | Token c =>
      t <- SoulboundToken.exec (onERC721Received (tx_ext tx)) (tx_msg tx) c
             (tok w) ;;
      Ok (with_tok t w)
  | Factory c => exec_factory (tx_ext tx) (tx_msg tx) c w
  end.

Definition step (w : State) (tx : Tx) : State := commit w (exec tx w).

Definition run (w : State) (txs : list Tx) : State := fold_left step txs w.

(** The system right after deployment: the factory lives at [factory] and
    pays its fees to [collector]. *)
Definition deploy (deployer factory collector : address) : State :=
  {| gov := NGOGovernance.constructor deployer;
     reg := NGORegistry.constructor deployer;
     tok := SoulboundToken.constructor deployer;
     fac := CampaignFactory.constructor factory deployer collector |}.

Definition reachable (w : State) : Prop :=
  exists deployer factory collector txs,
    w = run (deploy deployer factory collector) txs.

(** The tokens the factory issued against campaign [cid], as its
    [BeneficiaryTokenIssued] events record them. *)
Fixpoint issued_in (cid : uint256) (evs : list CampaignFactory.Event)
  : list uint256 :=
  match evs with
  | [] => []
  | CampaignFactory.BeneficiaryTokenIssued c _ tid :: rest =>
      if c =? cid then tid :: issued_in cid rest else issued_in cid rest
  | _ :: rest => issued_in cid rest
  end.


Definition sum (l : list Z) : Z := fold_right Z.add 0 l.







(** A factory call that touches neither the escrow, nor the amounts
    raised, nor the list of issued tokens. *)
Definition ledger_frame (s s' : CampaignFactory.State) : Prop :=
  CampaignFactory.campaignFunds s' = CampaignFactory.campaignFunds s /\
  (forall cid, CampaignFactory.raisedAmount (CampaignFactory.campaigns s' cid) =
               CampaignFactory.raisedAmount (CampaignFactory.campaigns s cid)) /\
  (forall cid, CampaignFactory.campaignId (CampaignFactory.campaigns s' cid) =
               CampaignFactory.campaignId (CampaignFactory.campaigns s cid)) /\
  CampaignFactory._campaignIdCounter s' = CampaignFactory._campaignIdCounter s /\
  (forall cid, issued_in cid (CampaignFactory.events s') =
               issued_in cid (CampaignFactory.events s)).


End World.


(** ** ServiceProviderRegistry.sol *)

Module ServiceProviderRegistry.

Inductive ProviderStatus := Pending | Verified | Rejected | Suspended.

Definition ProviderStatus_eqb (a b : ProviderStatus) : bool :=
  match a, b with
  | Pending, Pending | Verified, Verified | Rejected, Rejected
  | Suspended, Suspended => true
  | _, _ => false
  end.

Record ServiceProvider := {
  providerId : uint256;
  providerAddress : address;
  name : string;
  registrationNumber : string;
  serviceType : string;
  location : string;
  verificationDocHash : string;
  registeredAt : uint256;
  verifiedAt : uint256;
  status : ProviderStatus;
  totalRedemptions : uint256;
  totalAmountRedeemed : uint256;
  isActive : bool
}.

Inductive Event :=
| ProviderRegistered (providerId : uint256) (providerAddress : address)
    (name : string)
| ProviderVerified (providerId : uint256)
| ProviderStatusChanged (providerId : uint256) (oldStatus newStatus : ProviderStatus)
| RedemptionRecorded (providerId amount : uint256).

Record State := {
  _providerIdCounter : uint256;
  addressToProviderId : address -> uint256;
  providers : uint256 -> ServiceProvider;
  roles : Role -> address -> bool;
  paused : bool;
  events : list Event
}.

Definition default_ServiceProvider : ServiceProvider :=
  {| providerId := 0; providerAddress := zero_address; name := EmptyString;
     registrationNumber := EmptyString; serviceType := EmptyString;
     location := EmptyString; verificationDocHash := EmptyString;
     registeredAt := 0; verifiedAt := 0; status := Pending;
     totalRedemptions := 0; totalAmountRedeemed := 0; isActive := false |}.

Definition constructor (deployer : address) : State :=
  {| _providerIdCounter := 0;
     addressToProviderId := fun _ => 0;
     providers := fun _ => default_ServiceProvider;
     roles := fun r a =>
       (Role_eqb r DEFAULT_ADMIN_ROLE || Role_eqb r ADMIN_ROLE
        || Role_eqb r VERIFIER_ROLE) && (a =? deployer);
     paused := false;
     events := [] |}.

Definition with_providerIdCounter (n : uint256) (s : State) : State :=
  {| _providerIdCounter := n; addressToProviderId := addressToProviderId s;
     providers := providers s; roles := roles s; paused := paused s;
     events := events s |}.

Definition with_addressToProviderId (f : address -> uint256) (s : State) : State :=
  {| _providerIdCounter := _providerIdCounter s; addressToProviderId := f;
     providers := providers s; roles := roles s; paused := paused s;
     events := events s |}.

Definition with_providers (f : uint256 -> ServiceProvider) (s : State) : State :=
  {| _providerIdCounter := _providerIdCounter s;
     addressToProviderId := addressToProviderId s;
     providers := f; roles := roles s; paused := paused s;
     events := events s |}.

Definition with_roles (f : Role -> address -> bool) (s : State) : State :=
  {| _providerIdCounter := _providerIdCounter s;
     addressToProviderId := addressToProviderId s;
     providers := providers s; roles := f; paused := paused s;
     events := events s |}.

Definition with_paused (b : bool) (s : State) : State :=
  {| _providerIdCounter := _providerIdCounter s;
     addressToProviderId := addressToProviderId s;
     providers := providers s; roles := roles s; paused := b;
     events := events s |}.

Definition emit (e : Event) (s : State) : State :=
  {| _providerIdCounter := _providerIdCounter s;
     addressToProviderId := addressToProviderId s;
     providers := providers s; roles := roles s; paused := paused s;
     events := events s ++ [e] |}.

#[global] Instance State_AccessControl : AccessControl State :=
  {| _roles := roles; set_roles := with_roles |}.

#[global] Instance State_Pausable : Pausable State :=
  {| _paused := paused; set_paused := with_paused |}.

Definition registerProvider (m : Msg) (providerAddress_ : address)
    (name_ registrationNumber_ serviceType_ location_ verificationDocHash_
     : string) (s : State) : result (uint256 * State) :=
  whenNotPaused s ;;
  require (negb (providerAddress_ =? zero_address)) "Invalid address" ;;
  require (addressToProviderId s providerAddress_ =? 0)
    "Provider already registered" ;;
  pid <- checked_add (_providerIdCounter s) 1 ;;
  let s := with_providerIdCounter pid s in
  let s := with_providers
             (upd (providers s) pid
                {| providerId := pid; providerAddress := providerAddress_;
                   name := name_; registrationNumber := registrationNumber_;
                   serviceType := serviceType_; location := location_;
                   verificationDocHash := verificationDocHash_;
                   registeredAt := timestamp m; verifiedAt := 0;
                   status := Pending; totalRedemptions := 0;
                   totalAmountRedeemed := 0; isActive := true |}) s in
  let s := with_addressToProviderId
             (upd (addressToProviderId s) providerAddress_ pid) s in
  Ok (pid, emit (ProviderRegistered pid providerAddress_ name_) s).

(** [provider.status = Verified; provider.verifiedAt = t] *)
Definition verified_at (t : uint256) (p : ServiceProvider) : ServiceProvider :=
  {| providerId := providerId p; providerAddress := providerAddress p;
     name := name p; registrationNumber := registrationNumber p;
     serviceType := serviceType p; location := location p;
     verificationDocHash := verificationDocHash p;
     registeredAt := registeredAt p; verifiedAt := t; status := Verified;
     totalRedemptions := totalRedemptions p;
     totalAmountRedeemed := totalAmountRedeemed p; isActive := isActive p |}.

Definition verifyProvider (m : Msg) (pid : uint256) (s : State) : result State :=
  onlyRole VERIFIER_ROLE m s ;;
  let provider := providers s pid in
  require (negb (providerId provider =? 0)) "Provider does not exist" ;;
  require (ProviderStatus_eqb (status provider) Pending)
    "Provider is not pending" ;;
  let oldStatus := status provider in
  let s := with_providers
             (upd (providers s) pid (verified_at (timestamp m) provider)) s in
  let s := emit (ProviderVerified pid) s in
  Ok (emit (ProviderStatusChanged pid oldStatus Verified) s).

(** [provider.totalRedemptions = n; provider.totalAmountRedeemed = a] *)
Definition with_redemptions (n a : uint256) (p : ServiceProvider)
  : ServiceProvider :=
  {| providerId := providerId p; providerAddress := providerAddress p;
     name := name p; registrationNumber := registrationNumber p;
     serviceType := serviceType p; location := location p;
     verificationDocHash := verificationDocHash p;
     registeredAt := registeredAt p; verifiedAt := verifiedAt p;
     status := status p; totalRedemptions := n;
     totalAmountRedeemed := a; isActive := isActive p |}.

Definition recordRedemption (m : Msg) (pid amount : uint256) (s : State)
  : result State :=
  onlyRole ADMIN_ROLE m s ;;
  let provider := providers s pid in
  require (negb (providerId provider =? 0)) "Provider does not exist" ;;
  n <- checked_add (totalRedemptions provider) 1 ;;
  a <- checked_add (totalAmountRedeemed provider) amount ;;
  let s := with_providers
             (upd (providers s) pid (with_redemptions n a provider)) s in
  Ok (emit (RedemptionRecorded pid amount) s).

Definition isProviderVerified (s : State) (a : address) : bool :=
  let pid := addressToProviderId s a in
  if pid =? 0 then false
  else ProviderStatus_eqb (status (providers s pid)) Verified
       && isActive (providers s pid).

Definition getProviderByAddress (s : State) (a : address)
  : result ServiceProvider :=
  let pid := addressToProviderId s a in
  require (negb (pid =? 0)) "Provider not found" ;;
  Ok (providers s pid).

Inductive Call :=
| RegisterProvider (providerAddress : address)
    (name registrationNumber serviceType location verificationDocHash : string)
| VerifyProvider (providerId : uint256)
| RecordRedemption (providerId amount : uint256)
| Pause
| Unpause
| GrantRole (role : Role) (account : address)
| RevokeRole (role : Role) (account : address).

Definition exec (m : Msg) (c : Call) (s : State) : result State :=
  match c with
  | RegisterProvider a n r st l d =>
      '(_, s') <- registerProvider m a n r st l d s ;; Ok s'
  | VerifyProvider pid => verifyProvider m pid s
  | RecordRedemption pid amount => recordRedemption m pid amount s
  | Pause => pause m s
  | Unpause => unpause m s
  | GrantRole r a => grantRole m r a s
  | RevokeRole r a => revokeRole m r a s
  end.

Definition step (s : State) (tx : Msg * Call) : State :=
  commit s (exec (fst tx) (snd tx) s).

Definition run (s : State) (txs : list (Msg * Call)) : State :=
  fold_left step txs s.

Definition reachable (s : State) : Prop :=
  exists deployer txs, s = run (constructor deployer) txs.

End ServiceProviderRegistry.

(** ** Predicates on the token contract's storage *)

Module TokenShape.
Import SoulboundToken.

End TokenShape.

(** ** Predicates on the governance contract's storage *)

Module GovernanceShape.
Import NGOGovernance.

(** Proposal ids, the per-NGO verification pointer and the vote totals:
    the pointer of an NGO is a proposal id handed out so far (0 when
    there is none), and on every proposal the total voting power is the
    sum of the upvote and downvote weights, none of them negative. *)
Definition tally_inv (s : State) : Prop :=
  0 <= _proposalIdCounter s /\
  (forall nid, 0 <= ngoVerificationProposals s nid <= _proposalIdCounter s) /\
  (forall u, 0 <= score (userReputations s u)) /\
  (forall q, 0 <= upvotes (proposals s q) /\ 0 <= downvotes (proposals s q) /\
             totalVotingPower (proposals s q) =
             upvotes (proposals s q) + downvotes (proposals s q)).

End GovernanceShape.

(** ** Predicates on the service provider registry's storage *)

Module ProviderShape.
Import ServiceProviderRegistry.

Definition registered (s : State) (pid : uint256) : Prop :=
  1 <= pid <= _providerIdCounter s.

(** Provider ids run from 1 to the counter; a registered provider is
    active and Pending or Verified; the address index and the provider
    table point at each other. *)
Definition provider_inv (s : State) : Prop :=
  0 <= _providerIdCounter s /\
  (forall pid, registered s pid ->
     providerId (providers s pid) = pid /\
     isActive (providers s pid) = true /\
     (status (providers s pid) = Pending \/ status (providers s pid) = Verified) /\
     addressToProviderId s (providerAddress (providers s pid)) = pid) /\
  (forall pid, ~ registered s pid -> providers s pid = default_ServiceProvider) /\
  (forall a, addressToProviderId s a <> 0 ->
     registered s (addressToProviderId s a) /\
     providerAddress (providers s (addressToProviderId s a)) = a).

(** What an entry point other than [registerProvider] may change. *)
Definition same_directory (s s' : State) : Prop :=
  _providerIdCounter s' = _providerIdCounter s /\
  addressToProviderId s' = addressToProviderId s /\
  (forall pid, providerId (providers s pid) = 0 ->
     providers s' pid = providers s pid) /\
  (forall pid,
     providerId (providers s' pid) = providerId (providers s pid) /\
     providerAddress (providers s' pid) = providerAddress (providers s pid) /\
     isActive (providers s' pid) = isActive (providers s pid) /\
     (status (providers s' pid) = status (providers s pid) \/
      status (providers s pid) = Pending /\
      status (providers s' pid) = Verified)).

End ProviderShape.

(** ** Predicates on the NGO registry's storage *)

Module RegistryShape.
Import NGORegistry.

Definition registered (s : State) (nid : uint256) : Prop :=
  1 <= nid <= _ngoIdCounter s.

Definition struck_off (st : NGOStatus) : bool :=
  match st with
  | Rejected | Suspended | Blacklisted => true
  | Pending | Verified => false
  end.

Definition deactivated (st : NGOStatus) : bool :=
  match st with
  | Suspended | Blacklisted => true
  | Pending | Verified | Rejected => false
  end.

(** NGO ids run from 1 to the counter; a registered NGO has a score of at
    most 1000 and is inactive exactly when it is Suspended or
    Blacklisted; the address index and the NGO table point at each
    other. *)
Definition registry_inv (s : State) : Prop :=
  0 <= _ngoIdCounter s /\
  (forall nid, registered s nid ->
     ngoId (ngos s nid) = nid /\
     reputationScore (ngos s nid) <= 1000 /\
     isActive (ngos s nid) = negb (deactivated (status (ngos s nid))) /\
     addressToNgoId s (ngoAddress (ngos s nid)) = nid) /\
  (forall nid, ~ registered s nid -> ngos s nid = default_NGO) /\
  (forall a, addressToNgoId s a <> 0 ->
     registered s (addressToNgoId s a) /\
     ngoAddress (ngos s (addressToNgoId s a)) = a).

(** What the entry points do to the record of an NGO: the id and the
    address stay; a new score is at most 1000; the status stays, or goes
    from Pending to Verified or Rejected, or the NGO is deactivated as
    Blacklisted, or as Suspended from Verified. *)
Definition ngo_move (n n' : NGO) : Prop :=
  ngoId n' = ngoId n /\ ngoAddress n' = ngoAddress n /\
  (reputationScore n' = reputationScore n \/ reputationScore n' <= 1000) /\
  ((status n' = status n /\ isActive n' = isActive n) \/
   (status n = Pending /\ (status n' = Verified \/ status n' = Rejected) /\
    isActive n' = isActive n) \/
   (isActive n' = false /\
    (status n' = Blacklisted \/
     status n = Verified /\ status n' = Suspended))).

(** What an entry point other than [registerNGO] may change. *)
Definition same_index (s s' : State) : Prop :=
  _ngoIdCounter s' = _ngoIdCounter s /\
  addressToNgoId s' = addressToNgoId s /\
  (adminVerificationFrozen s = true -> adminVerificationFrozen s' = true) /\
  (forall nid, ngoId (ngos s nid) = 0 -> ngos s' nid = ngos s nid) /\
  (forall nid, ngo_move (ngos s nid) (ngos s' nid)).

(** An NGO that is rejected, suspended or blacklisted, at its address. *)
Definition out_at (nid : uint256) (a : address) (s : State) : Prop :=
  registry_inv s /\ struck_off (status (ngos s nid)) = true /\
  ngoAddress (ngos s nid) = a.

End RegistryShape.

(** ** Predicates on the campaign factory's storage *)

Module FactoryShape.
Import CampaignFactory.

Definition created (s : State) (cid : uint256) : Prop :=
  1 <= cid <= _campaignIdCounter s.

Definition has_some {A} (l : list A) : bool :=
  match l with
  | [] => false
  | _ :: _ => true
  end.

(** Campaign ids run from 1 to the counter; a campaign is Active or
    Paused below its target and Completed from the target on, never Draft
    or Cancelled; [hasMilestones] tells whether the milestone list is
    non-empty; the platform fee is at most 1000 basis points. *)
Definition campaign_inv (s : State) : Prop :=
  0 <= _campaignIdCounter s /\
  platformFeePercentage s <= 1000 /\
  (forall cid, created s cid ->
     campaignId (campaigns s cid) = cid /\
     0 < targetAmount (campaigns s cid) /\
     match status (campaigns s cid) with
     | Active | Paused =>
         raisedAmount (campaigns s cid) < targetAmount (campaigns s cid)
     | Completed =>
         targetAmount (campaigns s cid) <= raisedAmount (campaigns s cid)
     | Draft | Cancelled => False
     end) /\
  (forall cid, ~ created s cid -> campaigns s cid = default_Campaign) /\
  (forall cid, hasMilestones (campaigns s cid) =
               has_some (campaignMilestones s cid)).

(** The donor list of a campaign names each donor once, [totalDonors]
    counts them, a donor is listed exactly when their recorded donation
    is positive, and the recorded donations add up to the amount
    raised. *)
Definition donor_inv (s : State) : Prop :=
  forall cid,
    NoDup (campaignDonors s cid) /\
    totalDonors (campaigns s cid) = Z.of_nat (List.length (campaignDonors s cid)) /\
    (forall a, 0 <= campaignDonations s cid a) /\
    (forall a, In a (campaignDonors s cid) <-> 0 < campaignDonations s cid a) /\
    raisedAmount (campaigns s cid) =
      World.sum (map (campaignDonations s cid) (campaignDonors s cid)).

(** What the entry points other than [createCampaign] and [donate] do to
    a campaign record: id, creator, target, amount raised and donor
    count stay, and the status stays or switches between Active and
    Paused. *)
Definition campaign_move (c c' : Campaign) : Prop :=
  campaignId c' = campaignId c /\ ngoAddress c' = ngoAddress c /\
  targetAmount c' = targetAmount c /\ raisedAmount c' = raisedAmount c /\
  totalDonors c' = totalDonors c /\
  (status c' = status c \/
   (status c = Active /\ status c' = Paused) \/
   (status c = Paused /\ status c' = Active)).

Definition same_books (s s' : State) : Prop :=
  _campaignIdCounter s' = _campaignIdCounter s /\
  campaignDonors s' = campaignDonors s /\
  campaignDonations s' = campaignDonations s /\
  (platformFeePercentage s' = platformFeePercentage s \/
   platformFeePercentage s' <= 1000) /\
  (forall cid, campaignId (campaigns s cid) = 0 ->
     campaigns s' cid = campaigns s cid) /\
  (forall cid, campaign_move (campaigns s cid) (campaigns s' cid)) /\
  (forall cid,
     (hasMilestones (campaigns s' cid) = hasMilestones (campaigns s cid) /\
      has_some (campaignMilestones s' cid) = has_some (campaignMilestones s cid))
     \/ (hasMilestones (campaigns s' cid) = true /\
         has_some (campaignMilestones s' cid) = true)).

Definition books_inv (s : State) : Prop := campaign_inv s /\ donor_inv s.


End FactoryShape.

(** ** Callees that call back

    [SoulboundToken._safeMint] and [CampaignFactory.call] describe a callee
    by its answer alone. That is exact for an account without code and for
    a contract that does nothing but answer. In general the receiver hook
    of [_safeMint] and the two value transfers of [releaseFunds] hand
    control to the callee, which may call any entry point of the four
    contracts before it answers; [mintToken] carries no [nonReentrant],
    and of the factory's entry points only [donate],
    [issueBeneficiaryToken] and [releaseFunds] do.

    This module gives the three entry points that reach a callee with that
    control flow. A transaction names, for each callee it reaches, the
    calls the callee makes while it has control and the answer it gives
    in the end. These calls are transactions of the same kind: they run
    at the same block time, from whatever sender the callee arranges, and
    may reach callees of their own. A call of the callee that reverts is
    caught by it; a callee that refuses reverts the whole transaction. *)

Module Reentrant.
Import World.

(** [calls1] and [answer1] belong to the receiver hook of a mint, or to
    the fee collector of [releaseFunds]; [calls2] and [answer2] to the
    recipient of [releaseFunds]. Other entry points reach no callee. *)
Unset Elimination Schemes.
Inductive Tx :=
| Do (who : address) (c : Call)
     (calls1 : list Tx) (answer1 : bool)
     (calls2 : list Tx) (answer2 : bool).
Set Elimination Schemes.

(** The entry points that hand control to a callee. *)
Definition reaches_callee (c : Call) : bool :=
  match c with
  | Token (SoulboundToken.MintToken _ _ _ _ _)
  | Factory (CampaignFactory.IssueBeneficiaryToken _ _ _ _ _)
  | Factory (CampaignFactory.ReleaseFunds _ _ _) => true
  | _ => false
  end.

(** [mintToken] up to the call of the receiver hook inside [_safeMint]:
    the checks, the counter, the expiry date and [_mint]. It returns the
    token id, the expiry date and the storage the hook finds. *)
Definition mintToken_to_hook (m : Msg) (beneficiary_ : address)
    (amount validityPeriod : uint256) (s : SoulboundToken.State)
  : result (uint256 * uint256 * SoulboundToken.State) :=
  onlyRole MINTER_ROLE m s ;;
  whenNotPaused s ;;
  require (negb (beneficiary_ =? zero_address)) "Invalid beneficiary address" ;;
  require (0 <? amount) "Entitled amount must be greater than 0" ;;
  require (0 <? validityPeriod) "Validity period must be greater than 0" ;;
  let tid := SoulboundToken._tokenIdCounter s in
  next <- checked_add (SoulboundToken._tokenIdCounter s) 1 ;;
  let s := SoulboundToken.with_tokenIdCounter next s in
  expiry <- checked_add (timestamp m) validityPeriod ;;
  if beneficiary_ =? zero_address then Err (ERC721InvalidReceiver zero_address)
  else if negb (SoulboundToken._ownerOf s tid =? zero_address) then
    Err (ERC721InvalidSender zero_address)
  else
    let s := SoulboundToken.with_balances
               (upd (SoulboundToken._balances s) beneficiary_
                  ((SoulboundToken._balances s beneficiary_ + 1) mod 2 ^ 256)) s in
    let s := SoulboundToken.with_owners
               (upd (SoulboundToken._owners s) tid beneficiary_) s in
    let s := SoulboundToken.emit
               (SoulboundToken.Transfer zero_address beneficiary_ tid) s in
    Ok (tid, expiry, s).

(** [mintToken] after [_safeMint] has returned: the record, the two
    indexes and the event, written to the storage as the hook left it. *)
Definition mintToken_from_hook (m : Msg) (beneficiary_ : address)
    (cid amount : uint256) (service : string) (tid expiry : uint256)
    (s : SoulboundToken.State) : SoulboundToken.State :=
  let s := SoulboundToken.with_tokenMetadata
             (upd (SoulboundToken.tokenMetadata s) tid
                {| SoulboundToken.tokenId := tid;
                   SoulboundToken.beneficiary := beneficiary_;
                   SoulboundToken.campaignId := cid;
                   SoulboundToken.entitledAmount := amount;
                   SoulboundToken.serviceType := service;
                   SoulboundToken.issuedAt := timestamp m;
                   SoulboundToken.expiryDate := expiry;
                   SoulboundToken.isRedeemed := false;
                   SoulboundToken.redeemedBy := zero_address;
                   SoulboundToken.redeemedAt := 0;
                   SoulboundToken.proofOfServiceHash := EmptyString;
                   SoulboundToken.status := SoulboundToken.Active |}) s in
  let s := SoulboundToken.with_beneficiaryTokens
             (upd (SoulboundToken.beneficiaryTokens s) beneficiary_
                (SoulboundToken.beneficiaryTokens s beneficiary_ ++ [tid])) s in
  let s := SoulboundToken.with_campaignTokens
             (upd (SoulboundToken.campaignTokens s) cid
                (SoulboundToken.campaignTokens s cid ++ [tid])) s in
  SoulboundToken.emit
    (SoulboundToken.TokenMinted tid beneficiary_ cid amount service expiry) s.

(** [mintToken] in the system: [hook] is what the receiver does to the
    system while it has control, [answer] whether it accepts the token. *)
Definition mintToken (hook : State -> State) (answer : bool) (m : Msg)
    (beneficiary_ : address) (cid amount : uint256) (service : string)
    (validityPeriod : uint256) (w : State) : result (uint256 * State) :=
  ' (tid, expiry, t) <- mintToken_to_hook m beneficiary_ amount validityPeriod
                          (tok w) ;;
  if answer then
    let w := hook (with_tok t w) in
    Ok (tid, with_tok (mintToken_from_hook m beneficiary_ cid amount service
                         tid expiry (tok w)) w)
  else Err (ERC721InvalidReceiver beneficiary_).

(** [issueBeneficiaryToken] in the system: the factory takes its lock and
    checks, calls [mintToken] of the token contract as itself, and then
    counts the beneficiary and reserves the amount in the storage as the
    mint left it. *)
Definition issueBeneficiaryToken (hook : State -> State) (answer : bool)
    (m : Msg) (cid : uint256) (beneficiary_ : address) (entitledAmount : uint256)
    (serviceType : string) (validityPeriod : uint256) (w : State)
  : result (uint256 * State) :=
  if CampaignFactory.guard (fac w) then Err ReentrancyGuardReentrantCall
  else
    let f := CampaignFactory.with_guard true (fac w) in
    let campaign := CampaignFactory.campaigns f cid in
    require (negb (CampaignFactory.campaignId campaign =? 0))
      "Campaign does not exist" ;;
    require (CampaignFactory.ngoAddress campaign =? sender m)
      "Only campaign creator can issue tokens" ;;
    require (CampaignFactory.CampaignStatus_eqb
               (CampaignFactory.status campaign) CampaignFactory.Active)
      "Campaign must be active" ;;
    require (entitledAmount <=? CampaignFactory.campaignFunds f cid)
      "Insufficient campaign funds" ;;
    require (0 <? entitledAmount) "Entitled amount must be greater than 0" ;;
    require (0 <? validityPeriod) "Validity period must be greater than 0" ;;
    ' (tid, w) <- mintToken hook answer
                    {| sender := CampaignFactory.this f;
                       timestamp := timestamp m |}
                    beneficiary_ cid entitledAmount serviceType validityPeriod
                    (with_fac f w) ;;
    let f := fac w in
    n <- checked_add
           (CampaignFactory.totalBeneficiaries (CampaignFactory.campaigns f cid))
           1 ;;
    let f := CampaignFactory.with_campaigns
               (upd (CampaignFactory.campaigns f) cid
                  (CampaignFactory.with_totalBeneficiaries n
                     (CampaignFactory.campaigns f cid))) f in
    left <- checked_sub (CampaignFactory.campaignFunds f cid) entitledAmount ;;
    let f := CampaignFactory.with_campaignFunds
               (upd (CampaignFactory.campaignFunds f) cid left) f in
    let f := CampaignFactory.emit
               (CampaignFactory.BeneficiaryTokenIssued cid beneficiary_ tid) f in
    Ok (tid, with_fac (CampaignFactory.with_guard false f) w).

(** [to.call{value: v}("")] made by the factory. It fails when the
    balance does not cover [v]. When [to] is the factory itself, its own
    empty [receive] takes the value back and the balance stays. Otherwise
    the value leaves the balance and the callee gets control: it fails
    when the callee refuses, and else returns the system as the callee
    left it. The record logs the factory's storage at the moment the
    callee is called. *)
Definition transfer (callee_does : State -> State) (answer : bool)
    (to : address) (v : uint256) (w : State)
  : option (CampaignFactory.ExternalCall * State) :=
  let f := fac w in
  if v <=? CampaignFactory.balance f then
    if to =? CampaignFactory.this f then
      Some ({| CampaignFactory.callee := to; CampaignFactory.callvalue := v;
               CampaignFactory.storage_seen := f |}, w)
    else
      let f' := CampaignFactory.with_balance (CampaignFactory.balance f - v) f in
      if answer then
        Some ({| CampaignFactory.callee := to; CampaignFactory.callvalue := v;
                 CampaignFactory.storage_seen := f' |},
              callee_does (with_fac f' w))
      else None
  else None.

(** [releaseFunds] in the system, with what the fee collector and the
    recipient do while they have control. *)
Definition releaseFunds (collector_does : State -> State) (answer1 : bool)
    (recipient_does : State -> State) (answer2 : bool) (m : Msg)
    (cid : uint256) (recipient : address) (amount : uint256) (w : State)
  : result (list CampaignFactory.ExternalCall * State) :=
  onlyRole ADMIN_ROLE m (fac w) ;;
  if CampaignFactory.guard (fac w) then Err ReentrancyGuardReentrantCall
  else
    let f := CampaignFactory.with_guard true (fac w) in
    let campaign := CampaignFactory.campaigns f cid in
    require (negb (CampaignFactory.campaignId campaign =? 0))
      "Campaign does not exist" ;;
    require (negb (recipient =? zero_address)) "Invalid recipient" ;;
    require (0 <? amount) "Amount must be greater than 0" ;;
    x <- checked_mul amount (CampaignFactory.platformFeePercentage f) ;;
    let fee := x / 10000 in
    netAmount <- checked_sub amount fee ;;
    match transfer collector_does answer1 (CampaignFactory.feeCollector f) fee
            (with_fac f w) with
    | None => Err (Revert "Fee transfer failed")
    | Some (c1, w) =>
        match transfer recipient_does answer2 recipient netAmount w with
        | None => Err (Revert "Fund transfer failed")
        | Some (c2, w) =>
            let f := CampaignFactory.emit
                       (CampaignFactory.FundsReleased cid netAmount recipient)
                       (fac w) in
            Ok ([c1; c2], with_fac (CampaignFactory.with_guard false f) w)
        end
    end.

(** An entry point that reaches no callee does not look at these. *)
Definition no_callee : Externals :=
  {| onERC721Received := fun _ => true; acceptsValue := fun _ _ => true |}.

(** One transaction at block time [now], with everything its callees
    do. *)
Fixpoint exec (now : uint256) (tx : Tx) (w : State) {struct tx} : result State :=
  match tx with
  | Do who c calls1 answer1 calls2 answer2 =>
      let m := {| sender := who; timestamp := now |} in
      let callee1 := fold_left (fun w t => commit w (exec now t w)) calls1 in
      let callee2 := fold_left (fun w t => commit w (exec now t w)) calls2 in
      match c with
      | Token (SoulboundToken.MintToken b cid amount service validity) =>
          ' (_, w') <- mintToken callee1 answer1 m b cid amount service
                         validity w ;;
          Ok w'
      | Factory (CampaignFactory.IssueBeneficiaryToken cid b amount service
                   validity) =>
          ' (_, w') <- issueBeneficiaryToken callee1 answer1 m cid b amount
                         service validity w ;;
          Ok w'
      | Factory (CampaignFactory.ReleaseFunds cid recipient amount) =>
          ' (_, w') <- releaseFunds callee1 answer1 callee2 answer2 m cid
                         recipient amount w ;;
          Ok w'
      | _ => World.exec {| tx_msg := m; tx_ext := no_callee; tx_call := c |} w
      end
  end.

(** What a callee does with the calls it makes: each in turn, a failed
    one leaving the system as it was. *)
Definition during (now : uint256) (calls : list Tx) (w : State) : State :=
  fold_left (fun w t => commit w (exec now t w)) calls w.

(** A history of transactions, each at its own block time. *)
Definition step (w : State) (t : uint256 * Tx) : State :=
  commit w (exec (fst t) (snd t) w).

Definition run (w : State) (txs : list (uint256 * Tx)) : State :=
  fold_left step txs w.

(** A callee that makes no call, and a transaction that reaches only
    such callees. *)
Definition plain (who : address) (c : Call) : Tx := Do who c [] true [] true.

(** What stays of a token across calls: its holder and the terms it was
    issued with; its record once it has left the Active status; and the
    fact of having left it. Token ids are never given back. *)
Definition kept (q : uint256) (s s' : SoulboundToken.State) : Prop :=
  let t := SoulboundToken.tokenMetadata s q in
  let t' := SoulboundToken.tokenMetadata s' q in
  SoulboundToken._ownerOf s' q = SoulboundToken._ownerOf s q /\
  SoulboundToken.beneficiary t' = SoulboundToken.beneficiary t /\
  SoulboundToken.campaignId t' = SoulboundToken.campaignId t /\
  SoulboundToken.entitledAmount t' = SoulboundToken.entitledAmount t /\
  SoulboundToken.expiryDate t' = SoulboundToken.expiryDate t /\
  SoulboundToken.issuedAt t' = SoulboundToken.issuedAt t /\
  SoulboundToken.serviceType t' = SoulboundToken.serviceType t /\
  (SoulboundToken.status t <> SoulboundToken.Active -> t' = t) /\
  (SoulboundToken.status t' = SoulboundToken.Active ->
   SoulboundToken.status t = SoulboundToken.Active).


End Reentrant.

(** ** Scenarios

    Concrete runs of the contracts, used to exhibit behaviours. *)

Module GovernanceScenarios.
Import NGOGovernance.

Definition at_time (who : address) (t : uint256) : Msg :=
  {| sender := who; timestamp := t |}.

(** Account 1 deploys and makes itself admin; accounts 2 and 3 get their
    starting reputation. *)
Definition boot : list (Msg * Call) :=
  [ (at_time 1 100, GrantRole ADMIN_ROLE 1);
    (at_time 1 100, InitializeReputation 2);
    (at_time 1 100, InitializeReputation 3) ].

Definition verifications (n : nat) : list (Msg * Call) :=
  map (fun i => (at_time 2 1000,
                 CreateVerificationProposal (Z.of_nat i) "ngo" "evidence"))
      (seq 1 n).

Definition challenges (n : nat) : list (Msg * Call) :=
  map (fun i => (at_time 2 1000, ChallengeNGO 7 "fraud" "evidence")) (seq 1 n).

Definition executions (n : nat) : list (Msg * Call) :=
  map (fun i => (at_time 9 700000, ExecuteProposal (Z.of_nat i))) (seq 1 n).

(** Twenty-six verification proposals of account 2, all passed. *)
Definition after_26_passes : State :=
  run (constructor 1) (boot ++ verifications 26 ++ executions 26).

(** Fifty challenges of account 2, forty-nine of them executed (and
    rejected: only the challenger voted). *)
Definition after_49_failures : State :=
  run (constructor 1) (boot ++ challenges 50 ++ executions 49).

(** One verification proposal of account 2, opened at time 1000. *)
Definition one_open_proposal : State :=
  run (constructor 1) (boot ++ verifications 1).

End GovernanceScenarios.


Module TokenScenarios.
Import SoulboundToken.

Definition everyone_accepts : address -> bool := fun _ => true.

(** Account 1 deploys the token and makes account 5 a redeemer; a token
    for 1000 units is minted to account 4 at time 100 with a validity of
    50, so that it expires at 150. *)
Definition one_token : State :=
  run everyone_accepts (constructor 1)
    [ ({| sender := 1; timestamp := 100 |}, GrantRole REDEEMER_ROLE 5);
      ({| sender := 1; timestamp := 100 |},
       MintToken 4 1 1000 "Eye Surgery" 50) ].

End TokenScenarios.

Module WorldScenarios.
Import World.

Definition benign : Externals :=
  {| onERC721Received := fun _ => true; acceptsValue := fun _ _ => true |}.

Definition tx (who : address) (t : uint256) (c : Call) : Tx :=
  {| tx_msg := {| sender := who; timestamp := t |}; tx_ext := benign;
     tx_call := c |}.

(** Account 1 deploys everything, with the factory at address 100 and
    account 9 as fee collector, lets the factory mint, and gives itself a
    governance reputation. Account 2 is registered as an NGO and verified;
    it opens campaign 1 (target 10000, until time 1100), to which account
    3 donates 500. *)
Definition setup : list Tx :=
  [ tx 1 100 (Token (SoulboundToken.GrantRole MINTER_ROLE 100));
    tx 1 100 (Governance (NGOGovernance.GrantRole ADMIN_ROLE 1));
    tx 1 100 (Governance (NGOGovernance.InitializeReputation 1));
    tx 1 100 (Registry (NGORegistry.RegisterNGO 2 "Test NGO" "REG123" "USA"
                          "Health" "QmTestHash"));
    tx 1 100 (Registry (NGORegistry.VerifyNGO 1));
    tx 2 100 (Factory (CampaignFactory.CreateCampaign "Save Children"
                         "Help save children" "Health" 10000 1000 "QmDocHash"));
    tx 3 100 (Factory (CampaignFactory.Donate 500 1)) ].

Definition funded : State := run (deploy 1 100 9) setup.

(** The NGO then issues a token of 200 to account 4, ... *)
Definition issue_200 : Tx :=
  tx 2 100 (Factory (CampaignFactory.IssueBeneficiaryToken 1 4 200
                       "Eye Surgery" 50)).

Definition issued : State := step funded issue_200.

(** ... which the token admin revokes. *)
Definition revoke_0 : Tx :=
  tx 1 100 (Token (SoulboundToken.RevokeToken 0 "emergency")).

Definition revoked_after_issue : State := step issued revoke_0.

End WorldScenarios.


Module ProviderScenarios.
Import ServiceProviderRegistry.

(** Account 1 deploys the registry, registers the clinic at address 7 and
    verifies it. *)
Definition clinic_verified : State :=
  run (constructor 1)
    [ ({| sender := 5; timestamp := 10 |},
       RegisterProvider 7 "Clinic" "REG7" "Healthcare" "Pune" "QmDoc");
      ({| sender := 1; timestamp := 20 |}, VerifyProvider 1) ].
End ProviderScenarios.


Module RegistryScenarios.
Import World WorldScenarios.

(** After the setup, the admin freezes verification by role. *)
Definition frozen : State :=
  step funded (tx 1 150 (Registry NGORegistry.FreezeAdminVerification)).

(** After the setup, the admin suspends the NGO. *)
Definition suspended : State :=
  step funded (tx 1 150 (Registry (NGORegistry.SuspendNGO 1 "audit"))).
End RegistryScenarios.

Module FactoryScenarios.
Import World WorldScenarios.

(** After the setup, account 3 donates what is missing to the target. *)
Definition completed : State :=
  step funded (tx 3 200 (Factory (CampaignFactory.Donate 9500 1))).

(** After the setup, the NGO adds a milestone to its campaign. *)
Definition with_milestone : State :=
  step funded
    (tx 2 200 (Factory (CampaignFactory.AddMilestone 1 "First 100 surgeries"
                          5000 900))).
End FactoryScenarios.

Module ReentrantScenarios.
Import World WorldScenarios Reentrant.

(** A recipient that pauses campaign 1, as its creator (account 2), when
    the money arrives. *)
Definition pausing_recipient : list Tx :=
  [plain 2 (Factory (CampaignFactory.PauseCampaign 1))].

(** A receiver that, from inside its hook, marks token 0 as expired. *)
Definition expiring_receiver : list Tx :=
  [plain 4 (Token (SoulboundToken.MarkExpired 0))].

(** Account 1, which holds the Minter role, as a callee: from inside the
    hook, or on receiving money, it mints a token for account 6. *)
Definition minting_receiver : list Tx :=
  [plain 1 (Token (SoulboundToken.MintToken 6 1 300 "Glasses" 50))].

(** Two transactions at time 300, both by account 1: a mint to itself
    in whose hook it tries to mark token 0 expired and to revoke it, then
    a release to itself during which it mints another token. *)
Definition meddling : list (uint256 * Tx) :=
  [ (300, Do 1 (Token (SoulboundToken.MintToken 1 1 1000 "Eye Surgery" 50))
            [ plain 1 (Token (SoulboundToken.MarkExpired 0));
              plain 1 (Token (SoulboundToken.RevokeToken 0 "again")) ] true
            [] true);
    (300, Do 1 (Factory (CampaignFactory.ReleaseFunds 1 1 100))
            [] true minting_receiver true) ].

End ReentrantScenarios.
(** * Properties *)

(** ** The error monad and checked arithmetic *)

Section Monad.

Context {A B : Type}.

Lemma bind_Ok (c : result A) (k : A -> result B) (b : B) :
  bind c k = Ok b -> exists a, c = Ok a /\ k a = Ok b.
Proof.
  destruct c as [a|e]; simpl; intros H; [eauto | discriminate].
Qed.

Lemma bind_Err (c : result A) (k : A -> result B) (e : error) :
  c = Err e -> bind c k = Err e.
Proof. intros ->; reflexivity. Qed.

End Monad.

Lemma require_Ok (cond : bool) (reason : string) (u : unit) :
  require cond reason = Ok u -> cond = true.
Proof. destruct cond; simpl; [reflexivity | discriminate]. Qed.

Lemma checked_add_Ok (a b x : uint256) :
  checked_add a b = Ok x -> x = a + b /\ a + b <= MAX_UINT256.
Proof.
  unfold checked_add. destruct (a + b <=? MAX_UINT256) eqn:E; [|discriminate].
  intros H; inversion H. apply Z.leb_le in E. auto.
Qed.

Lemma checked_sub_Ok (a b x : uint256) :
  checked_sub a b = Ok x -> x = a - b /\ b <= a.
Proof.
  unfold checked_sub. destruct (b <=? a) eqn:E; [|discriminate].
  intros H; inversion H. apply Z.leb_le in E. auto.
Qed.

Lemma checked_mul_Ok (a b x : uint256) :
  checked_mul a b = Ok x -> x = a * b /\ a * b <= MAX_UINT256.
Proof.
  unfold checked_mul. destruct (a * b <=? MAX_UINT256) eqn:E; [|discriminate].
  intros H; inversion H. apply Z.leb_le in E. auto.
Qed.

Lemma checked_add_fits (a b : uint256) :
  a + b <= MAX_UINT256 -> checked_add a b = Ok (a + b).
Proof.
  intros H. unfold checked_add. apply Z.leb_le in H. rewrite H. reflexivity.
Qed.

Lemma checked_sub_fits (a b : uint256) :
  b <= a -> checked_sub a b = Ok (a - b).
Proof.
  intros H. unfold checked_sub. apply Z.leb_le in H. rewrite H. reflexivity.
Qed.

Lemma checked_mul_fits (a b : uint256) :
  a * b <= MAX_UINT256 -> checked_mul a b = Ok (a * b).
Proof.
  intros H. unfold checked_mul. apply Z.leb_le in H. rewrite H. reflexivity.
Qed.

Lemma nonReentrant_Ok {S A} `{ReentrancyGuard S} (body : S -> result (A * S))
    (s s' : S) (a : A) :
  nonReentrant body s = Ok (a, s') ->
  _status s = false /\
  exists s1, body (set_status true s) = Ok (a, s1) /\ s' = set_status false s1.
Proof.
  unfold nonReentrant. destruct (_status s); [discriminate|].
  destruct (body (set_status true s)) as [[a1 s1]|e]; [|discriminate].
  intros E; inversion E; subst. eauto.
Qed.

Lemma upd_same {V} (f : Z -> V) (k : Z) (v : V) : upd f k v k = v.
Proof. unfold upd. rewrite Z.eqb_refl. reflexivity. Qed.

Lemma upd_other {V} (f : Z -> V) (k k' : Z) (v : V) :
  k' <> k -> upd f k v k' = f k'.
Proof. intros N. unfold upd. apply Z.eqb_neq in N. rewrite N. reflexivity. Qed.

(** Peel the successful run of a monadic body into its steps. *)
Ltac inv_ok :=
  repeat (cbv beta in *;
    match goal with
    | H : bind _ _ = Ok _ |- _ =>
        let a := fresh "x" in let E := fresh "E" in
        apply bind_Ok in H; destruct H as (a & E & H)
    | H : require _ _ = Ok _ |- _ => apply require_Ok in H
    | H : checked_add _ _ = Ok _ |- _ =>
        let F := fresh "F" in apply checked_add_Ok in H; destruct H as [H F]
    | H : checked_sub _ _ = Ok _ |- _ =>
        let F := fresh "F" in apply checked_sub_Ok in H; destruct H as [H F]
    | H : checked_mul _ _ = Ok _ |- _ =>
        let F := fresh "F" in apply checked_mul_Ok in H; destruct H as [H F]
    | H : Ok _ = Ok _ |- _ => inversion H; clear H
    | H : Err _ = Ok _ |- _ => discriminate H
    | H : match ?x with (_, _) => _ end = Ok _ |- _ =>
        let Q := fresh "Q" in destruct x eqn:Q
    | H : nonReentrant _ _ = Ok (_, _) |- _ =>
        let G := fresh "G" in let s1 := fresh "s" in let E := fresh "E" in
        apply nonReentrant_Ok in H; destruct H as (G & s1 & H & E)
    end).

(** Turn the boolean tests of the code into propositions. *)
Ltac to_prop :=
  repeat match goal with
  | H : (_ <=? _) = true |- _ => apply Z.leb_le in H
  | H : (_ <? _) = true |- _ => apply Z.ltb_lt in H
  | H : (_ =? _) = true |- _ => apply Z.eqb_eq in H
  | H : (_ <=? _) = false |- _ => apply Z.leb_gt in H
  | H : (_ <? _) = false |- _ => apply Z.ltb_ge in H
  | H : (_ =? _) = false |- _ => apply Z.eqb_neq in H
  | H : negb _ = true |- _ => apply negb_true_iff in H
  | H : negb _ = false |- _ => apply negb_false_iff in H
  | H : _ && _ = true |- _ => apply andb_true_iff in H; destruct H
  end.

Module GovernanceFacts.
Import NGOGovernance.

Lemma update_voters_loop_id (n : uint256) (s : State) : update_voters_loop n s = s.
Proof.
  unfold update_voters_loop. destruct n as [|p|p]; simpl; try reflexivity.
  apply Pos.iter_invariant; auto.
Qed.

(** What a successful [_updateReputationForFailure] leaves behind. *)
Lemma updateReputationForFailure_Ok (pid : uint256) (s s' : State) :
  _updateReputationForFailure pid s = Ok s' ->
  let p := proposer (proposals s pid) in
  proposals s' = proposals s /\ status s' = status s /\ events s' = events s /\
  _proposalIdCounter s' = _proposalIdCounter s /\ roles s' = roles s /\
  score (userReputations s' p) =
    (if REPUTATION_CHANGE_PER_VOTE <? score (userReputations s p)
     then score (userReputations s p) - REPUTATION_CHANGE_PER_VOTE
     else score (userReputations s p)) /\
  successfulVerifications (userReputations s' p) = successfulVerifications (userReputations s p) /\
  successfulChallenges (userReputations s' p) = successfulChallenges (userReputations s p) /\
  totalProposals (userReputations s' p) = totalProposals (userReputations s p) /\
  (forall u, u <> p -> userReputations s' u = userReputations s u).
Proof.
  intros H p. unfold _updateReputationForFailure in H. fold p in H.
  destruct (REPUTATION_CHANGE_PER_VOTE <? score (userReputations s p)) eqn:E.
  - inv_ok. subst. simpl. rewrite upd_same. simpl. repeat split; auto.
    intros u N. apply upd_other; auto.
  - inv_ok. subst. repeat split; auto.
Qed.

Lemma updateReputationForFailure_total (pid : uint256) (s : State) :
  exists s', _updateReputationForFailure pid s = Ok s'.
Proof.
  unfold _updateReputationForFailure.
  destruct (REPUTATION_CHANGE_PER_VOTE <? score _) eqn:E; [|eauto].
  apply Z.ltb_lt in E. rewrite checked_sub_fits by lia. simpl. eauto.
Qed.

Lemma updateReputationForSuccess_Ok (pid : uint256) (b : bool) (s s' : State) :
  _updateReputationForSuccess pid b s = Ok s' ->
  let p := proposer (proposals s pid) in
  proposals s' = proposals s /\ status s' = status s /\ events s' = events s /\
  _proposalIdCounter s' = _proposalIdCounter s /\ roles s' = roles s /\
  score (userReputations s' p) = score (userReputations s p) + 2 * REPUTATION_CHANGE_PER_VOTE /\
  score (userReputations s p) + 2 * REPUTATION_CHANGE_PER_VOTE <= MAX_UINT256 /\
  successfulVerifications (userReputations s' p) =
    successfulVerifications (userReputations s p) + (if b then 1 else 0) /\
  successfulChallenges (userReputations s' p) =
    successfulChallenges (userReputations s p) + (if b then 0 else 1) /\
  totalProposals (userReputations s' p) = totalProposals (userReputations s p) /\
  (forall u, u <> p -> userReputations s' u = userReputations s u).
Proof.
  intros H p. unfold _updateReputationForSuccess in H. fold p in H.
  inv_ok. rewrite update_voters_loop_id in *. subst. simpl in *.
  rewrite !upd_same in *. simpl in *.
  repeat split; auto; try lia.
  intros u N. rewrite !upd_other by auto. reflexivity.
Qed.

Lemma executeProposal_Ok (m : Msg) (pid : uint256) (s s' : State) :
  executeProposal m pid s = Ok s' ->
  let p := proposals s pid in
  let passed := downvotes p <? upvotes p in
  status s = false /\ endTime p < timestamp m /\ executed p = false /\
  status s' = false /\
  proposals s' = upd (proposals s) pid (with_executed true p) /\
  _proposalIdCounter s' = _proposalIdCounter s /\
  roles s' = roles s /\
  events s' = events s ++
    [ProposalExecuted pid passed
       (if passed then "Proposal passed" else "Proposal rejected")] /\
  exists s1,
    (if passed then
       _updateReputationForSuccess pid
         (match proposalType p with Verification => true | Challenge => false end)
     else _updateReputationForFailure pid)
      (with_proposals (upd (proposals s) pid (with_executed true p))
         (with_status true s)) = Ok s1 /\
    userReputations s' = userReputations s1.
Proof.
  intros H p passed. unfold executeProposal in H. inv_ok. subst.
  simpl in *. rewrite !upd_same in *. simpl in *.
  match goal with
  | K : (if _ then _ else _) = Ok ?x |- _ => rename K into KE; rename x into sx
  end.
  to_prop.
  repeat match goal with K : context [proposals s pid] |- _ =>
    progress fold p in K end.
  fold passed in KE. fold p. fold passed.
  assert (K :
    (if passed then
       _updateReputationForSuccess pid
         (match proposalType p with Verification => true | Challenge => false end)
     else _updateReputationForFailure pid)
      (with_proposals (upd (proposals s) pid (with_executed true p))
         (with_status true s)) = Ok sx).
  { destruct passed; [destruct (proposalType p)|]; exact KE. }
  clear KE.
  assert (P : proposals sx = upd (proposals s) pid (with_executed true p) /\
              status sx = true /\ events sx = events s /\
              _proposalIdCounter sx = _proposalIdCounter s /\ roles sx = roles s).
  { destruct passed.
    - apply updateReputationForSuccess_Ok in K. simpl in K. intuition.
    - apply updateReputationForFailure_Ok in K. simpl in K. intuition. }
  destruct P as (P1 & P2 & P3 & P4 & P5).
  repeat split; auto.
  - rewrite P3. reflexivity.
  - exists sx. auto.
Qed.

Lemma executeProposal_accepts (m : Msg) (pid : uint256) (s : State) :
  let p := proposals s pid in
  let rep := userReputations s (proposer p) in
  status s = false -> endTime p < timestamp m -> executed p = false ->
  (downvotes p < upvotes p ->
   score rep + 2 * REPUTATION_CHANGE_PER_VOTE <= MAX_UINT256 /\
   successfulVerifications rep + 1 <= MAX_UINT256 /\
   successfulChallenges rep + 1 <= MAX_UINT256) ->
  exists s', executeProposal m pid s = Ok s'.
Proof.
  intros p rep Hs Ht He F.
  unfold executeProposal, nonReentrant. simpl. rewrite Hs.
  fold p. apply Z.ltb_lt in Ht. rewrite Ht, He. simpl.
  rewrite !upd_same. simpl.
  destruct (downvotes p <? upvotes p) eqn:Pass.
  - apply Z.ltb_lt in Pass. destruct (F Pass) as (F1 & F2 & F3).
    assert (R : forall b, exists s1,
        _updateReputationForSuccess pid b
          (with_proposals (upd (proposals s) pid (with_executed true p))
             (with_status true s)) = Ok s1).
    { intros b. unfold _updateReputationForSuccess. simpl.
      rewrite !upd_same. simpl. fold rep.
      change (REPUTATION_CHANGE_PER_VOTE * 2) with (2 * REPUTATION_CHANGE_PER_VOTE).
      rewrite checked_add_fits by exact F1. simpl. rewrite !upd_same. simpl.
      rewrite checked_add_fits by (destruct b; lia). simpl.
      rewrite !upd_same. simpl.
      rewrite checked_add_fits by (destruct b; lia). simpl. eauto. }
    destruct (proposalType p); [destruct (R true) as [s1 ->]
                               | destruct (R false) as [s1 ->]]; simpl; eauto.
  - destruct (updateReputationForFailure_total pid
        (with_proposals (upd (proposals s) pid (with_executed true p))
           (with_status true s))) as [s1 ->].
    simpl. eauto.
Qed.

Lemma castVote_accepts (m : Msg) (pid : uint256) (vt : VoteType) (s : State) :
  let p := proposals s pid in
  let rep := score (userReputations s (sender m)) in
  let power := rep * VOTE_WEIGHT_BASE / 1000 in
  status s = false -> MIN_REPUTATION_TO_VOTE <= rep ->
  timestamp m <= endTime p -> hasVoted (votes p (sender m)) = false ->
  rep * VOTE_WEIGHT_BASE <= MAX_UINT256 ->
  upvotes p + power <= MAX_UINT256 -> downvotes p + power <= MAX_UINT256 ->
  totalVotingPower p + power <= MAX_UINT256 ->
  exists s', castVote m pid vt s = Ok s'.
Proof.
  intros p rep power Hs Hr Ht Hv F1 F2 F3 F4.
  unfold castVote, nonReentrant. simpl. rewrite Hs.
  apply Z.leb_le in Hr. fold rep. rewrite Hr. simpl.
  unfold _castVote, _calculateVotingPower. simpl. fold p.
  apply Z.leb_le in Ht. rewrite Ht, Hv. simpl. fold rep.
  rewrite checked_mul_fits by exact F1. simpl. fold power.
  destruct vt; rewrite !checked_add_fits by assumption; simpl; eauto.
Qed.

Lemma castVote_internal_Ok (m : Msg) (pid : uint256) (vt : VoteType)
    (voter : address) (s s' : State) :
  _castVote m pid vt voter s = Ok s' ->
  let p := proposals s pid in
  let p' := proposals s' pid in
  let power := score (userReputations s voter) * VOTE_WEIGHT_BASE / 1000 in
  timestamp m <= endTime p /\ hasVoted (votes p voter) = false /\
  score (userReputations s voter) * VOTE_WEIGHT_BASE <= MAX_UINT256 /\
  userReputations s' = userReputations s /\ status s' = status s /\
  roles s' = roles s /\ _proposalIdCounter s' = _proposalIdCounter s /\
  ngoVerificationProposals s' = ngoVerificationProposals s /\
  events s' = events s ++ [VoteCast pid voter vt power] /\
  (forall q, q <> pid -> proposals s' q = proposals s q) /\
  executed p' = executed p /\ endTime p' = endTime p /\
  proposer p' = proposer p /\ proposalType p' = proposalType p /\
  upvotes p' = upvotes p + (match vt with Upvote => power | Downvote => 0 end) /\
  downvotes p' = downvotes p + (match vt with Upvote => 0 | Downvote => power end) /\
  totalVotingPower p' = totalVotingPower p + power /\
  votes p' voter = {| hasVoted := true; voteType := vt; votingPower := power;
                      reputationStake := REPUTATION_CHANGE_PER_VOTE |} /\
  (forall u, u <> voter -> votes p' u = votes p u).
Proof.
  intros H p p' power. unfold _castVote, _calculateVotingPower in H.
  fold p in H. inv_ok. subst. subst p'. simpl. rewrite !upd_same. simpl.
  to_prop. fold power.
  repeat split; auto.
  - intros q N. apply upd_other; auto.
  - destruct vt; inv_ok; subst; lia.
  - destruct vt; inv_ok; subst; lia.
  - apply upd_same.
  - intros u N. apply upd_other; auto.
Qed.

Lemma castVote_Ok (m : Msg) (pid : uint256) (vt : VoteType) (s s' : State) :
  castVote m pid vt s = Ok s' ->
  status s = false /\
  MIN_REPUTATION_TO_VOTE <= score (userReputations s (sender m)) /\
  exists s1, _castVote m pid vt (sender m) (with_status true s) = Ok s1 /\
             s' = with_status false s1.
Proof.
  intros H. unfold castVote in H. inv_ok. subst. simpl in *.
  to_prop. repeat split; auto. eauto.
Qed.

Lemma castVote_quiet (m : Msg) (pid : uint256) (vt : VoteType) (s s' : State) :
  castVote m pid vt s = Ok s' -> quiet s s'.
Proof.
  intros H. apply castVote_Ok in H. destruct H as (Hs & _ & s1 & H & ->).
  apply castVote_internal_Ok in H. simpl in H.
  destruct H as (_ & Hv & _ & Hr & _ & _ & _ & _ & _ & Hq & He & _ & _ & _ & _
                 & _ & _ & _ & Ho).
  unfold quiet. simpl. repeat split; auto; try congruence.
  - intros q. destruct (Z.eq_dec q pid) as [->|N]; [exact He|].
    rewrite Hq by exact N. reflexivity.
  - intros q u V. destruct (Z.eq_dec q pid) as [->|N].
    + apply Ho. intros ->. congruence.
    + rewrite Hq by exact N. reflexivity.
Qed.

Lemma createVerificationProposal_quiet (m : Msg) (nid : uint256)
    (d e : string) (s s' : State) (pid : uint256) :
  createVerificationProposal m nid d e s = Ok (pid, s') -> quiet s s'.
Proof.
  intros H. unfold createVerificationProposal in H. inv_ok. subst.
  match goal with
  | K : _castVote _ _ _ _ _ = Ok _ |- _ =>
      apply castVote_internal_Ok in K; simpl in K; rewrite !upd_same in K;
      simpl in K;
      destruct K as (_ & Hv & _ & Hr & _ & _ & _ & _ & _ & Hq & He & _ & _ & _
                     & _ & _ & _ & _ & Ho)
  end.
  unfold quiet. simpl in *. repeat split; auto; try congruence.
  - intros q.
    destruct (Z.eq_dec q (_proposalIdCounter s + 1)) as [->|N]; [exact He|].
    rewrite Hq by exact N. rewrite upd_other by exact N. reflexivity.
  - intros q u V.
    destruct (Z.eq_dec q (_proposalIdCounter s + 1)) as [->|N].
    + apply Ho. intros ->. congruence.
    + rewrite Hq by exact N. rewrite upd_other by exact N. reflexivity.
Qed.

Lemma challengeNGO_quiet (m : Msg) (nid : uint256) (d e : string)
    (s s' : State) (pid : uint256) :
  challengeNGO m nid d e s = Ok (pid, s') -> quiet s s'.
Proof.
  intros H. unfold challengeNGO in H. inv_ok. subst.
  match goal with
  | K : _castVote _ _ _ _ _ = Ok _ |- _ =>
      apply castVote_internal_Ok in K; simpl in K; rewrite !upd_same in K;
      simpl in K;
      destruct K as (_ & Hv & _ & Hr & _ & _ & _ & _ & _ & Hq & He & _ & _ & _
                     & _ & _ & _ & _ & Ho)
  end.
  unfold quiet. simpl in *. repeat split; auto; try congruence.
  - intros q.
    destruct (Z.eq_dec q (_proposalIdCounter s + 1)) as [->|N]; [exact He|].
    rewrite Hq by exact N. rewrite upd_other by exact N. reflexivity.
  - intros q u V.
    destruct (Z.eq_dec q (_proposalIdCounter s + 1)) as [->|N].
    + apply Ho. intros ->. congruence.
    + rewrite Hq by exact N. rewrite upd_other by exact N. reflexivity.
Qed.

Lemma initializeReputation_Ok (m : Msg) (user : address) (s s' : State) :
  initializeReputation m user s = Ok s' ->
  hasRole s ADMIN_ROLE (sender m) = true /\
  score (userReputations s user) = 0 /\
  s' = with_userReputations
         (upd (userReputations s) user
            {| score := 500; totalProposals := 0; successfulVerifications := 0;
               successfulChallenges := 0; lastActivity := timestamp m |}) s.
Proof.
  intros H. unfold initializeReputation, onlyRole in H.
  destruct (hasRole s ADMIN_ROLE (sender m)); simpl in H; [|discriminate].
  inv_ok. to_prop. subst. auto.
Qed.

Lemma roles_quiet (s : State) (f : Role -> address -> bool) :
  quiet s (with_roles f s).
Proof. unfold quiet. simpl. auto. Qed.

Lemma quiet_refl (s : State) : quiet s s.
Proof. unfold quiet. auto. Qed.

(** The calls that are not [ExecuteProposal] or [InitializeReputation]. *)
Lemma exec_quiet (m : Msg) (c : Call) (s s' : State) :
  exec m c s = Ok s' ->
  match c with
  | ExecuteProposal _ | InitializeReputation _ => True
  | _ => quiet s s'
  end.
Proof.
  intros H. destruct c; simpl in H; auto.
  - inv_ok. subst. eapply createVerificationProposal_quiet; eauto.
  - inv_ok. subst. eapply challengeNGO_quiet; eauto.
  - eapply castVote_quiet; eauto.
  - unfold updateNgoRegistry in H. inv_ok. subst. apply quiet_refl.
  - unfold grantRole in H. inv_ok. subst. apply roles_quiet.
  - unfold revokeRole in H. inv_ok. subst. apply roles_quiet.
Qed.

Lemma exec_status (m : Msg) (c : Call) (s s' : State) :
  exec m c s = Ok s' -> status s' = status s.
Proof.
  intros H. pose proof (exec_quiet _ _ _ _ H) as Q.
  destruct c; try (destruct Q as (Q & _); exact Q).
  - simpl in H. apply executeProposal_Ok in H. simpl in H.
    destruct H as (H1 & _ & _ & H2 & _). congruence.
  - simpl in H. apply initializeReputation_Ok in H.
    destruct H as (_ & _ & ->). reflexivity.
Qed.

Lemma step_status (s : State) (tx : Msg * Call) : status (step s tx) = status s.
Proof.
  unfold step, commit. destruct (exec (fst tx) (snd tx) s) eqn:E; [|reflexivity].
  eapply exec_status; eauto.
Qed.

Lemma run_status (txs : list (Msg * Call)) (s : State) :
  status (run s txs) = status s.
Proof.
  revert s. induction txs as [|tx txs IH]; intros s; [reflexivity|].
  change (run s (tx :: txs)) with (run (step s tx) txs).
  rewrite IH. apply step_status.
Qed.

(** Between transactions the reentrancy lock is free. *)
Lemma reachable_unlocked (s : State) : reachable s -> status s = false.
Proof.
  intros (d & txs & ->). rewrite run_status. reflexivity.
Qed.

Lemma exec_executed (m : Msg) (c : Call) (s s' : State) (q : uint256) :
  exec m c s = Ok s' ->
  (executed (proposals s q) = true -> executed (proposals s' q) = true) /\
  (executed (proposals s q) = false -> executed (proposals s' q) = true ->
   c = ExecuteProposal q /\ endTime (proposals s q) < timestamp m).
Proof.
  intros H. pose proof (exec_quiet _ _ _ _ H) as Q.
  destruct c as [nid d e|nid d e|pid vt|pid|user|a|r a|r a];
    try (destruct Q as (_ & _ & Q & _); rewrite Q; split; [auto|congruence]).
  - simpl in H. apply executeProposal_Ok in H. simpl in H.
    destruct H as (_ & Ht & He & _ & Hp & _). rewrite Hp.
    destruct (Z.eq_dec q pid) as [->|N].
    + rewrite upd_same. simpl. auto.
    + rewrite upd_other by exact N. split; [auto|congruence].
  - simpl in H. apply initializeReputation_Ok in H.
    destruct H as (_ & _ & ->). simpl. split; [auto|congruence].
Qed.

Lemma exec_vote_kept (m : Msg) (c : Call) (s s' : State) (q : uint256)
    (u : address) :
  exec m c s = Ok s' ->
  hasVoted (votes (proposals s q) u) = true ->
  votes (proposals s' q) u = votes (proposals s q) u.
Proof.
  intros H V. pose proof (exec_quiet _ _ _ _ H) as Q.
  destruct c as [nid d e|nid d e|pid vt|pid|user|a|r a|r a];
    try (destruct Q as (_ & _ & _ & Q); apply Q; exact V).
  - simpl in H. apply executeProposal_Ok in H. simpl in H.
    destruct H as (_ & _ & _ & _ & Hp & _). rewrite Hp.
    destruct (Z.eq_dec q pid) as [->|N].
    + rewrite upd_same. reflexivity.
    + rewrite upd_other by exact N. reflexivity.
  - simpl in H. apply initializeReputation_Ok in H.
    destruct H as (_ & _ & ->). reflexivity.
Qed.
End GovernanceFacts.

Module GovernanceTheorems.
Import NGOGovernance GovernanceScenarios GovernanceFacts.

(** How one successful call moves the score of a user. *)
Lemma exec_score (m : Msg) (c : Call) (s s' : State) (u : address) :
  exec m c s = Ok s' ->
  let before := score (userReputations s u) in
  let after := score (userReputations s' u) in
  match c with
  | InitializeReputation user =>
      score (userReputations s user) = 0 /\
      after = (if u =? user then 500 else before)
  | ExecuteProposal pid =>
      let p := proposals s pid in
      after =
        (if u =? proposer p then
           if downvotes p <? upvotes p
           then before + 2 * REPUTATION_CHANGE_PER_VOTE
           else if REPUTATION_CHANGE_PER_VOTE <? before
                then before - REPUTATION_CHANGE_PER_VOTE
                else before
         else before) /\
      after <= Z.max before MAX_UINT256
  | _ => after = before
  end.
Proof.
  intros H before after. pose proof (exec_quiet _ _ _ _ H) as Q.
  destruct c as [nid d e|nid d e|pid vt|pid|user|a|r a|r a];
    try (destruct Q as (_ & Q & _); subst before after; rewrite Q; reflexivity).
  - simpl in H. apply executeProposal_Ok in H. simpl in H.
    destruct H as (_ & _ & _ & _ & _ & _ & _ & _ & s1 & K & Hu).
    subst before after. cbv zeta. rewrite Hu. clear Hu.
    unfold REPUTATION_CHANGE_PER_VOTE.
    destruct (downvotes (proposals s pid) <? upvotes (proposals s pid)).
    + apply updateReputationForSuccess_Ok in K. simpl in K.
      rewrite upd_same in K. simpl in K.
      destruct K as (_ & _ & _ & _ & _ & Ks & Kb & _ & _ & _ & Ko).
      destruct (Z.eqb_spec u (proposer (proposals s pid))) as [->|N].
      * rewrite Ks. lia.
      * rewrite Ko by exact N. lia.
    + apply updateReputationForFailure_Ok in K. simpl in K.
      rewrite upd_same in K. simpl in K.
      destruct K as (_ & _ & _ & _ & _ & Ks & _ & _ & _ & Ko).
      destruct (Z.eqb_spec u (proposer (proposals s pid))) as [->|N].
      * rewrite Ks. unfold REPUTATION_CHANGE_PER_VOTE.
        destruct (10 <? score (userReputations s (proposer (proposals s pid))))
          eqn:E; [apply Z.ltb_lt in E|]; lia.
      * rewrite Ko by exact N. lia.
  - simpl in H. apply initializeReputation_Ok in H.
    destruct H as (_ & Hz & ->). subst before after. simpl.
    split; [exact Hz|]. unfold upd. destruct (u =? user); reflexivity.
Qed.

Lemma run_invariant (P : State -> Prop) :
  (forall s tx, P s -> P (step s tx)) ->
  forall txs s, P s -> P (run s txs).
Proof.
  intros Hstep txs. induction txs as [|tx txs IH]; intros s Hs; [exact Hs|].
  change (run s (tx :: txs)) with (run (step s tx) txs). auto.
Qed.

Lemma step_score_range (s : State) (tx : Msg * Call) :
  (forall u, 0 <= score (userReputations s u) <= MAX_UINT256) ->
  forall u, 0 <= score (userReputations (step s tx) u) <= MAX_UINT256.
Proof.
  intros Inv u. unfold step, commit.
  destruct (exec (fst tx) (snd tx) s) as [s'|e] eqn:E; [|apply Inv].
  pose proof (exec_score _ _ _ _ u E) as K. simpl in K.
  specialize (Inv u).
  assert (M : 0 <= MAX_UINT256) by (unfold MAX_UINT256; lia).
  destruct (snd tx) as [nid d e|nid d e|pid vt|pid|user|a|r a|r a];
    try (rewrite K; exact Inv).
  - destruct K as (K & B). split; [|lia]. rewrite K.
    unfold REPUTATION_CHANGE_PER_VOTE.
    destruct (u =? _); [|lia].
    destruct (_ <? upvotes _); [lia|].
    destruct (10 <? _) eqn:L; [apply Z.ltb_lt in L|]; lia.
  - destruct K as (_ & K). rewrite K.
    destruct (u =? user); [|exact Inv]. unfold MAX_UINT256. lia.
Qed.

Lemma reachable_score_range (s : State) (u : address) :
  reachable s -> 0 <= score (userReputations s u) <= MAX_UINT256.
Proof.
  intros (d & txs & ->). revert u.
  apply run_invariant with (P := fun s => forall u,
    0 <= score (userReputations s u) <= MAX_UINT256).
  - apply step_score_range.
  - intros u. simpl. unfold MAX_UINT256. lia.
Qed.

(** C10. Executing a proposal id that was never created: the slot holds
    the default record, so at any time after zero the call goes through
    for any caller. It marks the slot executed, reports the proposal as
    rejected and applies the failure penalty to the zero address (the
    default proposer), leaving every other reputation alone; a second call
    on the same id then fails as already executed. *)
Theorem executeProposal_on_missing_proposal (m : Msg) (pid : uint256) (s : State) :
  proposals s pid = default_Proposal ->
  status s = false ->
  0 < timestamp m ->
  exists s',
    executeProposal m pid s = Ok s' /\
    proposals s' pid = with_executed true default_Proposal /\
    events s' = events s ++ [ProposalExecuted pid false "Proposal rejected"] /\
    score (userReputations s' zero_address) =
      (if REPUTATION_CHANGE_PER_VOTE <? score (userReputations s zero_address)
       then score (userReputations s zero_address) - REPUTATION_CHANGE_PER_VOTE
       else score (userReputations s zero_address)) /\
    (forall u, u <> zero_address -> userReputations s' u = userReputations s u) /\
    (forall m', 0 < timestamp m' ->
       executeProposal m' pid s' = Err (Revert "Already executed")).
Proof.
  intros Hd Hs Ht.
  destruct (executeProposal_accepts m pid s) as [s' E]; auto.
  - rewrite Hd. exact Ht.
  - rewrite Hd. reflexivity.
  - rewrite Hd. simpl. lia.
  - exists s'. split; [exact E|].
    apply executeProposal_Ok in E. rewrite Hd in E. simpl in E.
    destruct E as (_ & _ & _ & Hs' & Hp & _ & _ & He & s1 & K & Hu).
    apply updateReputationForFailure_Ok in K. simpl in K.
    rewrite upd_same in K. simpl in K.
    destruct K as (_ & _ & _ & _ & _ & Ks & _ & _ & _ & Ko).
    repeat split.
    + rewrite Hp. apply upd_same.
    + exact He.
    + rewrite Hu. exact Ks.
    + intros u N. rewrite Hu. apply Ko. exact N.
    + intros m' Ht'. unfold executeProposal, nonReentrant. simpl.
      rewrite Hs', Hp. rewrite !upd_same. simpl.
      apply Z.ltb_lt in Ht'. rewrite Ht'. reflexivity.
Qed.

Lemma executeProposal_on_missing_proposal_witness :
  exists s',
    executeProposal (at_time 9 5) 77 (constructor 1) = Ok s' /\
    proposals s' 77 = with_executed true default_Proposal /\
    events s' = events (constructor 1) ++
                [ProposalExecuted 77 false "Proposal rejected"] /\
    score (userReputations s' zero_address) =
      (if REPUTATION_CHANGE_PER_VOTE <?
          score (userReputations (constructor 1) zero_address)
       then score (userReputations (constructor 1) zero_address)
            - REPUTATION_CHANGE_PER_VOTE
       else score (userReputations (constructor 1) zero_address)) /\
    (forall u, u <> zero_address ->
       userReputations s' u = userReputations (constructor 1) u) /\
    (forall m', 0 < timestamp m' ->
       executeProposal m' 77 s' = Err (Revert "Already executed")).
Proof.
  apply (executeProposal_on_missing_proposal (at_time 9 5) 77 (constructor 1)).
  - reflexivity.
  - reflexivity.
  - simpl. lia.
Defined.

(** C6, as the claim states it, fails on the penalty: a proposer whose
    score is 10 keeps it when the proposal is rejected, where a decrease
    by 10 floored at 0 would give 0. The state is reached by fifty
    challenges of one account, forty-nine of them already executed. *)
Lemma executeProposal_penalty_not_floored :
  ~ (forall (m : Msg) (pid : uint256) (s s' : State),
       executeProposal m pid s = Ok s' ->
       upvotes (proposals s pid) <= downvotes (proposals s pid) ->
       score (userReputations s' (proposer (proposals s pid))) =
       Z.max 0 (score (userReputations s (proposer (proposals s pid)))
                - REPUTATION_CHANGE_PER_VOTE)).
Proof.
  intros Claim.
  pose (m := at_time 9 700000).
  destruct (executeProposal m 50 after_49_failures) as [s'|e] eqn:E.
  - specialize (Claim m 50 after_49_failures s' E).
    assert (S' : s' = step after_49_failures (m, ExecuteProposal 50)).
    { change (step after_49_failures (m, ExecuteProposal 50))
        with (commit after_49_failures (executeProposal m 50 after_49_failures)).
      rewrite E. reflexivity. }
    rewrite S' in Claim.
    assert (V : upvotes (proposals after_49_failures 50)
                <= downvotes (proposals after_49_failures 50))
      by (vm_compute; discriminate).
    specialize (Claim V). vm_compute in Claim. discriminate Claim.
  - assert (K : is_ok (executeProposal m 50 after_49_failures) = true)
      by (vm_compute; reflexivity).
    rewrite E in K. discriminate K.
Qed.

(** C6 (amended). For any caller, [executeProposal] is accepted exactly
    when the voting window has closed ([now > endTime]) and the proposal
    is not yet executed. An accepted call marks the proposal executed,
    and no later call on it is accepted. The proposal passes exactly when
    the upvote weight exceeds the downvote weight. On a pass the
    proposer's score grows by 2 * 10 and the success counter of the
    proposal's kind by one. On a rejection the proposer's score drops by
    10 when it is above 10 and is left as it is otherwise. No other
    account's reputation changes. Across all calls of the contract the
    executed flag never goes back to false, and it is only raised by
    [executeProposal] called after [endTime]. *)
Theorem executeProposal_outcome (m : Msg) (pid : uint256) (s : State) :
  let p := proposals s pid in
  let who := proposer p in
  let rep := userReputations s who in
  let passed := downvotes p <? upvotes p in
  status s = false ->
  score rep + 2 * REPUTATION_CHANGE_PER_VOTE <= MAX_UINT256 ->
  successfulVerifications rep + 1 <= MAX_UINT256 ->
  successfulChallenges rep + 1 <= MAX_UINT256 ->
  ((exists s', executeProposal m pid s = Ok s') <->
   (endTime p < timestamp m /\ executed p = false)) /\
  (forall s', executeProposal m pid s = Ok s' ->
     let rep' := userReputations s' who in
     executed (proposals s' pid) = true /\
     (forall m', exists e, executeProposal m' pid s' = Err e) /\
     events s' = events s ++
       [ProposalExecuted pid passed
          (if passed then "Proposal passed" else "Proposal rejected")] /\
     (if passed then
        score rep' = score rep + 2 * REPUTATION_CHANGE_PER_VOTE /\
        successfulVerifications rep' =
          successfulVerifications rep +
          (match proposalType p with Verification => 1 | Challenge => 0 end) /\
        successfulChallenges rep' =
          successfulChallenges rep +
          (match proposalType p with Verification => 0 | Challenge => 1 end)
      else
        score rep' =
          (if REPUTATION_CHANGE_PER_VOTE <? score rep
           then score rep - REPUTATION_CHANGE_PER_VOTE else score rep) /\
        successfulVerifications rep' = successfulVerifications rep /\
        successfulChallenges rep' = successfulChallenges rep) /\
     (forall u, u <> who -> userReputations s' u = userReputations s u)) /\
  (forall m0 c s0 s1 q, exec m0 c s0 = Ok s1 ->
     (executed (proposals s0 q) = true -> executed (proposals s1 q) = true) /\
     (executed (proposals s0 q) = false -> executed (proposals s1 q) = true ->
      c = ExecuteProposal q /\ endTime (proposals s0 q) < timestamp m0)).
Proof.
  intros p who rep passed Hs F1 F2 F3. split; [split|split].
  - intros [s' E]. apply executeProposal_Ok in E. simpl in E.
    destruct E as (_ & Ht & He & _). auto.
  - intros [Ht He]. apply executeProposal_accepts; auto.
  - intros s' E rep'. pose proof E as E'.
    apply executeProposal_Ok in E. simpl in E. fold p in E. fold passed in E.
    destruct E as (_ & Ht & He & Hs' & Hp & _ & _ & Hev & s1 & K & Hu).
    assert (X : executed (proposals s' pid) = true).
    { rewrite Hp, upd_same. reflexivity. }
    split; [exact X|]. split; [|split; [exact Hev|]].
    + intros m'. destruct (executeProposal m' pid s') as [s2|e] eqn:E2; [|eauto].
      apply executeProposal_Ok in E2. simpl in E2.
      destruct E2 as (_ & _ & N & _). congruence.
    + subst rep'. rewrite Hu. destruct passed.
      * apply updateReputationForSuccess_Ok in K. simpl in K.
        rewrite upd_same in K. simpl in K. fold p who rep in K.
        destruct K as (_ & _ & _ & _ & _ & Ks & _ & Kv & Kc & _ & Ko).
        split; [|exact Ko]. split; [exact Ks|].
        destruct (proposalType p); split; assumption.
      * apply updateReputationForFailure_Ok in K. simpl in K.
        rewrite upd_same in K. simpl in K. fold p who rep in K.
        destruct K as (_ & _ & _ & _ & _ & Ks & Kv & Kc & _ & Ko).
        split; [|exact Ko]. auto.
  - intros m0 c s0 s1 q E. apply exec_executed. exact E.
Qed.

Lemma executeProposal_outcome_witness :
  (exists s', executeProposal (at_time 9 700000) 1 one_open_proposal = Ok s') <->
  (endTime (proposals one_open_proposal 1) < timestamp (at_time 9 700000) /\
   executed (proposals one_open_proposal 1) = false).
Proof.
  refine (proj1 (executeProposal_outcome (at_time 9 700000) 1 one_open_proposal
                   _ _ _ _)).
  - vm_compute. reflexivity.
  - vm_compute. intros K. discriminate K.
  - vm_compute. intros K. discriminate K.
  - vm_compute. intros K. discriminate K.
Defined.

(** C7, as the claim states it, fails on the upper bound: twenty-six
    passed proposals take a proposer from 500 to 1020. *)
Lemma score_exceeds_1000 :
  ~ (forall s, reachable s ->
     forall u, 0 <= score (userReputations s u) <= 1000).
Proof.
  intros Claim.
  assert (R : reachable after_26_passes).
  { exists 1, (boot ++ verifications 26 ++ executions 26). reflexivity. }
  specialize (Claim _ R 2). destruct Claim as [_ C].
  vm_compute in C. apply C. reflexivity.
Qed.

(** C7 (amended). In every reachable state every score lies between 0 and
    the largest [uint256]; there is no cap at 1000. A score is set to 500
    by [initializeReputation], which requires it to be 0 before. Creating
    a proposal, challenging and voting leave every score as it is.
    Executing a proposal changes the proposer's score only: plus 20 when
    the proposal passes, minus 10 when it is rejected and the score is
    above 10, nothing otherwise. *)
Theorem reputation_score_range :
  (forall s, reachable s ->
   forall u, 0 <= score (userReputations s u) <= MAX_UINT256) /\
  (forall m c s s' u, exec m c s = Ok s' ->
     let before := score (userReputations s u) in
     let after := score (userReputations s' u) in
     match c with
     | InitializeReputation user =>
         score (userReputations s user) = 0 /\
         after = (if u =? user then 500 else before)
     | ExecuteProposal pid =>
         let p := proposals s pid in
         after =
           (if u =? proposer p then
              if downvotes p <? upvotes p
              then before + 2 * REPUTATION_CHANGE_PER_VOTE
              else if REPUTATION_CHANGE_PER_VOTE <? before
                   then before - REPUTATION_CHANGE_PER_VOTE
                   else before
            else before)
     | _ => after = before
     end).
Proof.
  split.
  - intros s R u. apply reachable_score_range. exact R.
  - intros m c s s' u E. pose proof (exec_score m c s s' u E) as K.
    destruct c; try exact K. cbv zeta in *. destruct K as [K _]. exact K.
Qed.

(** C8, as the claim states it, fails at the end of the window: with the
    window read as [start, end), a vote cast at exactly [endTime] should
    be rejected, and the contract accepts it. *)
Lemma castVote_accepted_at_endTime :
  ~ (forall (m : Msg) (pid : uint256) (vt : VoteType) (s : State),
       status s = false ->
       ((exists e, castVote m pid vt s = Err e) <->
        (score (userReputations s (sender m)) < MIN_REPUTATION_TO_VOTE \/
         endTime (proposals s pid) <= timestamp m \/
         hasVoted (votes (proposals s pid) (sender m)) = true))).
Proof.
  intros Claim.
  specialize (Claim (at_time 3 605800) 1 Downvote one_open_proposal).
  destruct Claim as [_ C]; [vm_compute; reflexivity|].
  destruct C as [e E].
  - right. left. vm_compute. intros K. discriminate K.
  - assert (K : is_ok (castVote (at_time 3 605800) 1 Downvote one_open_proposal)
                = true) by (vm_compute; reflexivity).
    rewrite E in K. discriminate K.
Qed.

(** C8 (amended). [castVote] is rejected exactly when the voter's score
    is below 100, the time is past [endTime] (a vote at exactly [endTime]
    is accepted), or the voter has already voted on the proposal. An
    accepted vote is recorded with power [score * 100 / 1000] and added to
    the upvote or the downvote total and to the total voting power; the
    same voter cannot vote on the proposal again, and no call of the
    contract rewrites a recorded vote. *)
Theorem castVote_outcome (m : Msg) (pid : uint256) (vt : VoteType) (s : State) :
  let p := proposals s pid in
  let voter := sender m in
  let rep := score (userReputations s voter) in
  let power := rep * VOTE_WEIGHT_BASE / 1000 in
  status s = false ->
  rep * VOTE_WEIGHT_BASE <= MAX_UINT256 ->
  upvotes p + power <= MAX_UINT256 ->
  downvotes p + power <= MAX_UINT256 ->
  totalVotingPower p + power <= MAX_UINT256 ->
  ((exists e, castVote m pid vt s = Err e) <->
   (rep < MIN_REPUTATION_TO_VOTE \/ endTime p < timestamp m \/
    hasVoted (votes p voter) = true)) /\
  (forall s', castVote m pid vt s = Ok s' ->
     let p' := proposals s' pid in
     votes p' voter =
       {| hasVoted := true; voteType := vt; votingPower := power;
          reputationStake := REPUTATION_CHANGE_PER_VOTE |} /\
     (forall u, u <> voter -> votes p' u = votes p u) /\
     upvotes p' = upvotes p + (match vt with Upvote => power | Downvote => 0 end) /\
     downvotes p' =
       downvotes p + (match vt with Upvote => 0 | Downvote => power end) /\
     totalVotingPower p' = totalVotingPower p + power /\
     (forall m' vt', sender m' = voter ->
        exists e, castVote m' pid vt' s' = Err e)) /\
  (forall m0 c s0 s1 q u, exec m0 c s0 = Ok s1 ->
     hasVoted (votes (proposals s0 q) u) = true ->
     votes (proposals s1 q) u = votes (proposals s0 q) u).
Proof.
  intros p voter rep power Hs F1 F2 F3 F4. split; [split|split].
  - intros [e E].
    destruct (Z_lt_dec rep MIN_REPUTATION_TO_VOTE) as [L|L]; [auto|].
    destruct (Z_lt_dec (endTime p) (timestamp m)) as [T|T]; [auto|].
    destruct (hasVoted (votes p voter)) eqn:V; [auto|].
    assert (A : exists s', castVote m pid vt s = Ok s').
    { apply castVote_accepts; fold p voter rep power; auto; lia. }
    destruct A as [s' E']. rewrite E in E'. discriminate E'.
  - intros D. destruct (castVote m pid vt s) as [s'|e] eqn:E; [|eauto].
    exfalso. apply castVote_Ok in E. destruct E as (_ & Hr & s1 & E & _).
    apply castVote_internal_Ok in E. simpl in E.
    destruct E as (Ht & Hv & _). fold p voter in Ht, Hv. fold voter rep in Hr.
    destruct D as [D|[D|D]]; [lia|lia|congruence].
  - intros s' E p'. apply castVote_Ok in E.
    destruct E as (_ & _ & s1 & E & ->).
    apply castVote_internal_Ok in E. simpl in E.
    fold p voter rep power in E. subst p'. simpl.
    destruct E as (_ & _ & _ & _ & _ & _ & _ & _ & _ & _ & _ & _ & _ & _ & Eu
                   & Ed & Et & Ev & Eo).
    repeat split; auto.
    intros m' vt' Hm.
    destruct (castVote m' pid vt' (with_status false s1)) as [s2|e] eqn:E2;
      [|eauto].
    exfalso. apply castVote_Ok in E2. destruct E2 as (_ & _ & s3 & E2 & _).
    apply castVote_internal_Ok in E2. simpl in E2.
    destruct E2 as (_ & Hv & _). rewrite Hm in Hv. fold voter in Ev.
    rewrite Ev in Hv. discriminate Hv.
  - intros m0 c s0 s1 q u E V. eapply exec_vote_kept; eauto.
Qed.

Lemma castVote_outcome_witness :
  (exists e, castVote (at_time 3 2000) 1 Downvote one_open_proposal = Err e) <->
  (score (userReputations one_open_proposal 3) < MIN_REPUTATION_TO_VOTE \/
   endTime (proposals one_open_proposal 1) < 2000 \/
   hasVoted (votes (proposals one_open_proposal 1) 3) = true).
Proof.
  refine (proj1 (castVote_outcome (at_time 3 2000) 1 Downvote one_open_proposal
                   _ _ _ _ _)).
  - vm_compute. reflexivity.
  - vm_compute. intros K. discriminate K.
  - vm_compute. intros K. discriminate K.
  - vm_compute. intros K. discriminate K.
  - vm_compute. intros K. discriminate K.
Defined.
End GovernanceTheorems.

Module TokenFacts.
Import SoulboundToken.

Lemma nonempty_spec (x : string) : nonempty x = true <-> x <> EmptyString.
Proof.
  destruct x; simpl; split; intros H; auto; try congruence; discriminate.
Qed.

Lemma TokenStatus_eqb_spec (a b : TokenStatus) :
  TokenStatus_eqb a b = true <-> a = b.
Proof. destruct a, b; simpl; split; intros H; congruence. Qed.

Lemma onlyRole_Ok {S} `{AccessControl S} (r : Role) (m : Msg) (s : S) (u : unit) :
  onlyRole r m s = Ok u -> hasRole s r (sender m) = true.
Proof.
  unfold onlyRole. destruct (hasRole s r (sender m)); [reflexivity|discriminate].
Qed.

Lemma whenNotPaused_Ok {S} `{Pausable S} (s : S) (u : unit) :
  whenNotPaused s = Ok u -> _paused s = false.
Proof.
  unfold whenNotPaused. destruct (_paused s); [discriminate|reflexivity].
Qed.

Lemma redeemToken_Ok (m : Msg) (tid : uint256) (proof : string) (s s' : State) :
  redeemToken m tid proof s = Ok s' ->
  let t := tokenMetadata s tid in
  hasRole s REDEEMER_ROLE (sender m) = true /\ guard s = false /\
  paused s = false /\
  _ownerOf s tid <> zero_address /\ status t = Active /\
  isRedeemed t = false /\ timestamp m <= expiryDate t /\
  proof <> EmptyString /\
  s' = emit (TokenRedeemed tid (sender m) (beneficiary t) proof (timestamp m))
         (with_tokenMetadata
            (upd (tokenMetadata s) tid
               (redeemed_by (sender m) (timestamp m) proof t)) s).
Proof.
  intros H t. unfold redeemToken in H. inv_ok.
  match goal with K : onlyRole _ _ _ = Ok _ |- _ => apply onlyRole_Ok in K end.
  match goal with K : whenNotPaused _ = Ok _ |- _ =>
    apply whenNotPaused_Ok in K; simpl in K end.
  subst. simpl in *. to_prop.
  match goal with K : TokenStatus_eqb _ _ = true |- _ =>
    apply TokenStatus_eqb_spec in K end.
  match goal with K : nonempty _ = true |- _ => apply nonempty_spec in K end.
  repeat split; auto.
  destruct s; simpl in *; subst; reflexivity.
Qed.

Lemma redeemToken_accepts (m : Msg) (tid : uint256) (proof : string) (s : State) :
  let t := tokenMetadata s tid in
  hasRole s REDEEMER_ROLE (sender m) = true -> guard s = false ->
  paused s = false ->
  _ownerOf s tid <> zero_address -> status t = Active ->
  isRedeemed t = false -> timestamp m <= expiryDate t ->
  proof <> EmptyString ->
  exists s', redeemToken m tid proof s = Ok s'.
Proof.
  intros t Hr Hg Hp Ho Hs Hi Ht Hn.
  unfold redeemToken, onlyRole, nonReentrant, whenNotPaused. rewrite Hr. simpl.
  rewrite Hg. simpl. rewrite Hp. simpl. fold t.
  apply Z.eqb_neq in Ho. unfold _ownerOf in *. simpl. rewrite Ho. simpl.
  rewrite Hs, Hi. simpl. apply Z.leb_le in Ht. rewrite Ht. simpl.
  apply nonempty_spec in Hn. rewrite Hn. simpl. eauto.
Qed.

Lemma safeMint_Ok (o : address -> bool) (to : address) (tid : uint256)
    (s s' : State) :
  _safeMint o to tid s = Ok s' ->
  to <> zero_address /\ _ownerOf s tid = zero_address /\ o to = true /\
  s' = emit (Transfer zero_address to tid)
         (with_owners (upd (_owners s) tid to)
            (with_balances
               (upd (_balances s) to ((_balances s to + 1) mod 2 ^ 256)) s)).
Proof.
  unfold _safeMint. intros H.
  destruct (to =? zero_address) eqn:E1; [discriminate|].
  destruct (_ownerOf s tid =? zero_address) eqn:E2; simpl in H; [|discriminate].
  destruct (o to) eqn:E3; [|discriminate].
  to_prop. inversion H. auto.
Qed.

Lemma mintToken_Ok (o : address -> bool) (m : Msg) (b : address)
    (cid amount : uint256) (service : string) (validity : uint256)
    (s s' : State) (tid : uint256) :
  mintToken o m b cid amount service validity s = Ok (tid, s') ->
  hasRole s MINTER_ROLE (sender m) = true /\ paused s = false /\
  b <> zero_address /\ 0 < amount /\ 0 < validity /\
  tid = _tokenIdCounter s /\ _tokenIdCounter s + 1 <= MAX_UINT256 /\
  timestamp m + validity <= MAX_UINT256 /\
  _ownerOf s tid = zero_address /\ o b = true /\
  _tokenIdCounter s' = _tokenIdCounter s + 1 /\
  _owners s' = upd (_owners s) tid b /\
  tokenMetadata s' =
    upd (tokenMetadata s) tid
      {| tokenId := tid; beneficiary := b; campaignId := cid;
         entitledAmount := amount; serviceType := service;
         issuedAt := timestamp m; expiryDate := timestamp m + validity;
         isRedeemed := false; redeemedBy := zero_address; redeemedAt := 0;
         proofOfServiceHash := EmptyString; status := Active |} /\
  beneficiaryTokens s' =
    upd (beneficiaryTokens s) b (beneficiaryTokens s b ++ [tid]) /\
  campaignTokens s' = upd (campaignTokens s) cid (campaignTokens s cid ++ [tid]) /\
  roles s' = roles s /\ paused s' = paused s /\ guard s' = guard s /\
  events s' = events s ++ [Transfer zero_address b tid;
                           TokenMinted tid b cid amount service
                             (timestamp m + validity)].
Proof.
  intros H. unfold mintToken in H. inv_ok.
  match goal with K : onlyRole _ _ _ = Ok _ |- _ => apply onlyRole_Ok in K end.
  match goal with K : whenNotPaused _ = Ok _ |- _ =>
    apply whenNotPaused_Ok in K; simpl in K end.
  match goal with K : _safeMint _ _ _ _ = Ok _ |- _ =>
    apply safeMint_Ok in K; simpl in K; destruct K as (K1 & K2 & K3 & K4) end.
  subst. simpl in *. to_prop. unfold _ownerOf in *. simpl in *.
  rewrite <- app_assoc. simpl.
  repeat split; auto.
Qed.

Lemma revokeToken_Ok (m : Msg) (tid : uint256) (reason : string) (s s' : State) :
  revokeToken m tid reason s = Ok s' ->
  hasRole s ADMIN_ROLE (sender m) = true /\
  _ownerOf s tid <> zero_address /\ status (tokenMetadata s tid) = Active /\
  s' = emit (TokenRevoked tid reason)
         (with_tokenMetadata
            (upd (tokenMetadata s) tid
               (with_token_status Revoked (tokenMetadata s tid))) s).
Proof.
  intros H. unfold revokeToken in H. inv_ok.
  match goal with K : onlyRole _ _ _ = Ok _ |- _ => apply onlyRole_Ok in K end.
  to_prop.
  match goal with K : TokenStatus_eqb _ _ = true |- _ =>
    apply TokenStatus_eqb_spec in K end.
  subst. auto.
Qed.

Lemma markExpired_Ok (m : Msg) (tid : uint256) (s s' : State) :
  markExpired m tid s = Ok s' ->
  _ownerOf s tid <> zero_address /\ status (tokenMetadata s tid) = Active /\
  expiryDate (tokenMetadata s tid) < timestamp m /\
  s' = emit (TokenExpired tid)
         (with_tokenMetadata
            (upd (tokenMetadata s) tid
               (with_token_status Expired (tokenMetadata s tid))) s).
Proof.
  intros H. unfold markExpired in H. inv_ok. to_prop.
  match goal with K : TokenStatus_eqb _ _ = true |- _ =>
    apply TokenStatus_eqb_spec in K end.
  subst. auto.
Qed.

(** What a successful call does to a token [q] that exists: nothing but
    its redemption fields and status can change, and those only while the
    token is [Active]. *)
Lemma exec_token_kept (o : address -> bool) (m : Msg) (c : Call) (s s' : State)
    (q : uint256) :
  exec o m c s = Ok s' ->
  _ownerOf s q <> zero_address ->
  let t := tokenMetadata s q in
  let t' := tokenMetadata s' q in
  _ownerOf s' q = _ownerOf s q /\
  beneficiary t' = beneficiary t /\ campaignId t' = campaignId t /\
  entitledAmount t' = entitledAmount t /\ expiryDate t' = expiryDate t /\
  issuedAt t' = issuedAt t /\ serviceType t' = serviceType t /\
  (status t <> Active -> t' = t) /\
  (status t' = status t \/ status t = Active /\ status t' <> Active).
Proof.
  intros H Ho t t'. subst t t'.
  assert (Same : forall s0, _owners s0 = _owners s ->
                 tokenMetadata s0 = tokenMetadata s ->
    _ownerOf s0 q = _ownerOf s q /\
    beneficiary (tokenMetadata s0 q) = beneficiary (tokenMetadata s q) /\
    campaignId (tokenMetadata s0 q) = campaignId (tokenMetadata s q) /\
    entitledAmount (tokenMetadata s0 q) = entitledAmount (tokenMetadata s q) /\
    expiryDate (tokenMetadata s0 q) = expiryDate (tokenMetadata s q) /\
    issuedAt (tokenMetadata s0 q) = issuedAt (tokenMetadata s q) /\
    serviceType (tokenMetadata s0 q) = serviceType (tokenMetadata s q) /\
    (status (tokenMetadata s q) <> Active ->
     tokenMetadata s0 q = tokenMetadata s q) /\
    (status (tokenMetadata s0 q) = status (tokenMetadata s q) \/
     status (tokenMetadata s q) = Active /\
     status (tokenMetadata s0 q) <> Active)).
  { intros s0 E1 E2. unfold _ownerOf. rewrite E1, E2. repeat split; auto. }
  assert (Upd : forall tid t1 ev,
    status (tokenMetadata s tid) = Active ->
    beneficiary t1 = beneficiary (tokenMetadata s tid) ->
    campaignId t1 = campaignId (tokenMetadata s tid) ->
    entitledAmount t1 = entitledAmount (tokenMetadata s tid) ->
    expiryDate t1 = expiryDate (tokenMetadata s tid) ->
    issuedAt t1 = issuedAt (tokenMetadata s tid) ->
    serviceType t1 = serviceType (tokenMetadata s tid) ->
    status t1 <> Active ->
    let s0 := emit ev (with_tokenMetadata (upd (tokenMetadata s) tid t1) s) in
    _ownerOf s0 q = _ownerOf s q /\
    beneficiary (tokenMetadata s0 q) = beneficiary (tokenMetadata s q) /\
    campaignId (tokenMetadata s0 q) = campaignId (tokenMetadata s q) /\
    entitledAmount (tokenMetadata s0 q) = entitledAmount (tokenMetadata s q) /\
    expiryDate (tokenMetadata s0 q) = expiryDate (tokenMetadata s q) /\
    issuedAt (tokenMetadata s0 q) = issuedAt (tokenMetadata s q) /\
    serviceType (tokenMetadata s0 q) = serviceType (tokenMetadata s q) /\
    (status (tokenMetadata s q) <> Active ->
     tokenMetadata s0 q = tokenMetadata s q) /\
    (status (tokenMetadata s0 q) = status (tokenMetadata s q) \/
     status (tokenMetadata s q) = Active /\
     status (tokenMetadata s0 q) <> Active)).
  { intros tid t1 ev A B1 B2 B3 B4 B5 B6 B7 s0. subst s0. simpl.
    destruct (Z.eq_dec q tid) as [->|N].
    - rewrite upd_same. repeat split; auto. congruence.
    - rewrite upd_other by exact N. repeat split; auto. }
  destruct c as [b cid amount service validity|tid proof|tid reason|tid
                 |from to tid|from to tid data|to tid|op ap| | |r a|r a];
    simpl in H; try discriminate H.
  - inv_ok. subst.
    match goal with K : mintToken _ _ _ _ _ _ _ _ = Ok _ |- _ =>
      apply mintToken_Ok in K;
      destruct K as (_ & _ & _ & _ & _ & -> & _ & _ & K0 & _ & _ & K1 & K2 & _)
    end.
    assert (N : q <> _tokenIdCounter s) by (intros ->; contradiction).
    unfold _ownerOf. rewrite K1, K2. rewrite !upd_other by exact N.
    repeat split; auto.
  - apply redeemToken_Ok in H. simpl in H.
    destruct H as (_ & _ & _ & _ & A & _ & _ & _ & ->).
    apply Upd; auto. simpl. discriminate.
  - apply revokeToken_Ok in H. destruct H as (_ & _ & A & ->).
    apply Upd; auto. simpl. discriminate.
  - apply markExpired_Ok in H. destruct H as (_ & A & _ & ->).
    apply Upd; auto. simpl. discriminate.
  - unfold pause in H. inv_ok. subst. apply Same; reflexivity.
  - unfold unpause in H. inv_ok. subst. apply Same; reflexivity.
  - unfold grantRole in H. inv_ok. subst. apply Same; reflexivity.
  - unfold revokeRole in H. inv_ok. subst. apply Same; reflexivity.
Qed.
End TokenFacts.

Module TokenTheorems.
Import SoulboundToken TokenScenarios TokenFacts.

(** C1. For a caller that holds the Redeemer role, with the contract not
    paused (and no guarded call in progress), [redeemToken] succeeds
    exactly when the token exists, its status is Active, it is not yet
    redeemed, the time is at most the expiry date (a redemption at exactly
    the expiry instant is accepted) and the proof reference is not empty.
    On success the token is Redeemed and carries the redeemer, the time
    and the proof; nothing else of it changes and no other token is
    touched. Any second [redeemToken] call on the token fails, whoever
    calls; for a holder of the Redeemer role the failure is the status
    check, "Token is not active". *)
Theorem redeemToken_exactly_once (m : Msg) (tid : uint256) (proof : string)
    (s : State) :
  let t := tokenMetadata s tid in
  hasRole s REDEEMER_ROLE (sender m) = true ->
  paused s = false ->
  guard s = false ->
  ((exists s', redeemToken m tid proof s = Ok s') <->
   (_ownerOf s tid <> zero_address /\ status t = Active /\
    isRedeemed t = false /\ timestamp m <= expiryDate t /\
    proof <> EmptyString)) /\
  (forall s', redeemToken m tid proof s = Ok s' ->
     let t' := tokenMetadata s' tid in
     status t' = Redeemed /\ isRedeemed t' = true /\
     redeemedBy t' = sender m /\ redeemedAt t' = timestamp m /\
     proofOfServiceHash t' = proof /\
     beneficiary t' = beneficiary t /\ campaignId t' = campaignId t /\
     entitledAmount t' = entitledAmount t /\ expiryDate t' = expiryDate t /\
     (forall q, q <> tid -> tokenMetadata s' q = tokenMetadata s q) /\
     (forall m' proof',
        (exists e, redeemToken m' tid proof' s' = Err e) /\
        (hasRole s' REDEEMER_ROLE (sender m') = true ->
         redeemToken m' tid proof' s' = Err (Revert "Token is not active")))).
Proof.
  intros t Hr Hp Hg. split; [split|].
  - intros [s' E]. apply redeemToken_Ok in E. simpl in E. fold t in E.
    destruct E as (_ & _ & _ & E). intuition.
  - intros (A & B & C & D & E). apply redeemToken_accepts; auto.
  - intros s' E t'. apply redeemToken_Ok in E. simpl in E. fold t in E.
    destruct E as (_ & _ & _ & Ho & _ & _ & _ & _ & ->). subst t'. simpl.
    rewrite upd_same. simpl. repeat split; auto.
    + intros q N. apply upd_other. exact N.
    + destruct (redeemToken m' tid proof' _) as [s2|e] eqn:E2; [|eauto].
      apply redeemToken_Ok in E2. simpl in E2. rewrite upd_same in E2.
      simpl in E2. destruct E2 as (_ & _ & _ & _ & X & _). discriminate X.
    + intros Hr'. unfold hasRole in Hr'. simpl in Hr'.
      unfold redeemToken, onlyRole, hasRole, nonReentrant, whenNotPaused.
      simpl. rewrite Hr'. simpl. rewrite Hg, Hp. simpl.
      unfold _ownerOf in *. simpl.
      apply Z.eqb_neq in Ho. rewrite Ho. simpl. rewrite upd_same. reflexivity.
Qed.

Lemma redeemToken_exactly_once_witness :
  (exists s', redeemToken {| sender := 5; timestamp := 150 |} 0 "QmProof"
                one_token = Ok s') <->
  (_ownerOf one_token 0 <> zero_address /\
   status (tokenMetadata one_token 0) = Active /\
   isRedeemed (tokenMetadata one_token 0) = false /\
   150 <= expiryDate (tokenMetadata one_token 0) /\
   "QmProof" <> EmptyString).
Proof.
  refine (proj1 (redeemToken_exactly_once {| sender := 5; timestamp := 150 |} 0
                   "QmProof" one_token _ _ _)).
  - vm_compute. reflexivity.
  - vm_compute. reflexivity.
  - vm_compute. reflexivity.
Defined.

Lemma run_token_kept (o : address -> bool) (txs : list (Msg * Call)) (s : State)
    (q : uint256) :
  _ownerOf s q <> zero_address ->
  _ownerOf (run o s txs) q = _ownerOf s q /\
  beneficiary (tokenMetadata (run o s txs) q) = beneficiary (tokenMetadata s q).
Proof.
  revert s. induction txs as [|tx txs IH]; intros s Ho; [auto|].
  change (run o s (tx :: txs)) with (run o (step o s tx) txs).
  assert (K : _ownerOf (step o s tx) q = _ownerOf s q /\
              beneficiary (tokenMetadata (step o s tx) q) =
              beneficiary (tokenMetadata s q)).
  { unfold step, commit. destruct (exec o (fst tx) (snd tx) s) eqn:E; [|auto].
    pose proof (exec_token_kept _ _ _ _ _ q E Ho) as K. simpl in K.
    destruct K as (K1 & K2 & _). auto. }
  destruct K as (K1 & K2).
  destruct (IH (step o s tx)) as (I1 & I2); [congruence|].
  split; congruence.
Qed.

(** C9. [transferFrom], [safeTransferFrom], [approve] and
    [setApprovalForAll] fail for every caller, token and argument, in
    every state. No sequence of calls to the contract changes the owner
    of an existing token or the beneficiary recorded for it at mint. *)
Theorem soulbound_holder_is_permanent :
  (forall m from to tid data operator approved s,
     transferFrom m from to tid s =
       Err (Revert "Soulbound tokens cannot be transferred") /\
     safeTransferFrom m from to tid data s =
       Err (Revert "Soulbound tokens cannot be transferred") /\
     approve m to tid s = Err (Revert "Soulbound tokens cannot be approved") /\
     setApprovalForAll m operator approved s =
       Err (Revert "Soulbound tokens cannot be approved")) /\
  (forall o m c s,
     match c with
     | TransferFrom _ _ _ | SafeTransferFrom _ _ _ _ | Approve _ _
     | SetApprovalForAll _ _ => exists e, exec o m c s = Err e
     | _ => True
     end) /\
  (forall o txs s q, _ownerOf s q <> zero_address ->
     _ownerOf (run o s txs) q = _ownerOf s q /\
     beneficiary (tokenMetadata (run o s txs) q) =
     beneficiary (tokenMetadata s q)) /\
  (forall o m b cid amount service validity s s' tid,
     mintToken o m b cid amount service validity s = Ok (tid, s') ->
     _ownerOf s tid = zero_address /\ _ownerOf s' tid = b /\
     beneficiary (tokenMetadata s' tid) = b /\ b <> zero_address).
Proof.
  split; [|split; [|split]].
  - intros. repeat split; reflexivity.
  - intros o m c s. destruct c; simpl; try exact I; eexists; reflexivity.
  - intros o txs s q Ho. apply run_token_kept. exact Ho.
  - intros o m b cid amount service validity s s' tid E.
    apply mintToken_Ok in E.
    destruct E as (_ & _ & Hb & _ & _ & _ & _ & _ & K0 & _ & _ & K1 & K2 & _).
    unfold _ownerOf in *. rewrite K1, K2, !upd_same. auto.
Qed.

Lemma soulbound_holder_is_permanent_witness :
  _ownerOf (run everyone_accepts one_token
              [({| sender := 4; timestamp := 120 |}, TransferFrom 4 6 0);
               ({| sender := 1; timestamp := 120 |}, Approve 6 0)]) 0 = 4.
Proof.
  refine (eq_trans
    (proj1 (proj1 (proj2 (proj2 soulbound_holder_is_permanent))
       everyone_accepts
       [({| sender := 4; timestamp := 120 |}, TransferFrom 4 6 0);
        ({| sender := 1; timestamp := 120 |}, Approve 6 0)] one_token 0 _)) _).
  - vm_compute. intros K. discriminate K.
  - vm_compute. reflexivity.
Defined.
End TokenTheorems.

Module RegistryFacts.
Import NGOGovernance GovernanceFacts.

Lemma step_reachable (s : State) (tx : Msg * Call) :
  reachable s -> reachable (step s tx).
Proof.
  intros (d & txs & ->). exists d, (txs ++ [tx]).
  unfold run. rewrite fold_left_app. reflexivity.
Qed.

(** No entry point of the governance contract ever writes
    [totalProposals] to anything but 0. *)
Lemma exec_totalProposals (m : Msg) (c : Call) (s s' : State) :
  exec m c s = Ok s' ->
  (forall u, totalProposals (userReputations s u) = 0) ->
  forall u, totalProposals (userReputations s' u) = 0.
Proof.
  intros H Inv u. pose proof (exec_quiet _ _ _ _ H) as Q.
  destruct c as [nid d e|nid d e|pid vt|pid|user|a|r a|r a];
    try (destruct Q as (_ & Q & _); rewrite Q; apply Inv).
  - simpl in H. apply executeProposal_Ok in H. simpl in H.
    destruct H as (_ & _ & _ & _ & _ & _ & _ & _ & s1 & K & ->).
    destruct (downvotes (proposals s pid) <? upvotes (proposals s pid)).
    + apply updateReputationForSuccess_Ok in K. simpl in K.
      rewrite upd_same in K. simpl in K.
      destruct K as (_ & _ & _ & _ & _ & _ & _ & _ & _ & Kt & Ko).
      destruct (Z.eq_dec u (proposer (proposals s pid))) as [->|N].
      * rewrite Kt. apply Inv.
      * rewrite Ko by exact N. apply Inv.
    + apply updateReputationForFailure_Ok in K. simpl in K.
      rewrite upd_same in K. simpl in K.
      destruct K as (_ & _ & _ & _ & _ & _ & _ & _ & Kt & Ko).
      destruct (Z.eq_dec u (proposer (proposals s pid))) as [->|N].
      * rewrite Kt. apply Inv.
      * rewrite Ko by exact N. apply Inv.
  - simpl in H. apply initializeReputation_Ok in H.
    destruct H as (_ & _ & ->). simpl. unfold upd.
    destruct (u =? user); [reflexivity|apply Inv].
Qed.

Lemma reachable_totalProposals (s : State) (u : address) :
  reachable s -> totalProposals (userReputations s u) = 0.
Proof.
  intros (d & txs & ->). revert u.
  assert (G : forall txs s0,
            (forall u, totalProposals (userReputations s0 u) = 0) ->
            forall u, totalProposals (userReputations (run s0 txs) u) = 0).
  { clear txs. intros txs. induction txs as [|tx txs IH]; intros s0 Inv;
      [exact Inv|].
    change (run s0 (tx :: txs)) with (run (step s0 tx) txs). apply IH.
    unfold step, commit. destruct (exec (fst tx) (snd tx) s0) eqn:E; [|exact Inv].
    eapply exec_totalProposals; eauto. }
  apply G. intros u. reflexivity.
Qed.

Lemma NGOStatus_eqb_spec (a b : NGORegistry.NGOStatus) :
  NGORegistry.NGOStatus_eqb a b = true <-> a = b.
Proof. destruct a, b; simpl; split; intros H; congruence. Qed.

Lemma suspendNGOThroughGovernance_Ok (g : State) (m : Msg) (nid : uint256)
    (reason : string) (s s' : NGORegistry.State) :
  NGORegistry.suspendNGOThroughGovernance g m nid reason s = Ok s' ->
  NGORegistry.ngoId (NGORegistry.ngos s nid) <> 0 /\
  NGORegistry.status (NGORegistry.ngos s nid) = NGORegistry.Verified /\
  200 <= totalProposals (userReputations g (sender m)) /\
  NGORegistry.logActivity m nid
    (String.append "NGO suspended through governance: " reason)
    (NGORegistry.deactivate nid NGORegistry.Suspended s) = Ok s'.
Proof.
  intros H. unfold NGORegistry.suspendNGOThroughGovernance in H.
  unfold userReputations_getter in H. inv_ok. to_prop.
  match goal with K : NGORegistry.NGOStatus_eqb _ _ = true |- _ =>
    apply NGOStatus_eqb_spec in K end.
  auto.
Qed.
End RegistryFacts.

Module RegistryTheorems.
Import NGORegistry WorldScenarios RegistryFacts.

(** C5. The code departs from the claim. [suspendNGOThroughGovernance]
    compares with 200 the second field of the caller's governance record,
    [totalProposals], not the score: a successful call needs
    [totalProposals >= 200]. The governance contract never writes that
    field to anything but 0, so with any reachable governance state the
    call fails for every caller, organization and registry state. In
    particular a caller with score 500 who is also the registry's admin
    is turned down on a Verified organization with "Insufficient
    reputation". *)
Theorem suspendNGOThroughGovernance_never_succeeds :
  (forall g m nid reason s s',
     suspendNGOThroughGovernance g m nid reason s = Ok s' ->
     200 <= NGOGovernance.totalProposals
              (NGOGovernance.userReputations g (sender m))) /\
  (forall g m nid reason s,
     NGOGovernance.reachable g ->
     exists e, suspendNGOThroughGovernance g m nid reason s = Err e) /\
  (NGOGovernance.score (NGOGovernance.userReputations (World.gov funded) 1) = 500 /\
   status (ngos (World.reg funded) 1) = Verified /\
   hasRole (World.reg funded) ADMIN_ROLE 1 = true /\
   suspendNGOThroughGovernance (World.gov funded)
     {| sender := 1; timestamp := 200 |} 1 "fraud" (World.reg funded) =
   Err (Revert "Insufficient reputation")).
Proof.
  split; [|split].
  - intros g m nid reason s s' E.
    apply suspendNGOThroughGovernance_Ok in E. tauto.
  - intros g m nid reason s R.
    destruct (suspendNGOThroughGovernance g m nid reason s) as [s'|e] eqn:E;
      [|eauto].
    apply suspendNGOThroughGovernance_Ok in E. destruct E as (_ & _ & E & _).
    rewrite (reachable_totalProposals g (sender m) R) in E. lia.
  - vm_compute. repeat split; reflexivity.
Qed.

Lemma suspendNGOThroughGovernance_never_succeeds_witness :
  exists e,
    suspendNGOThroughGovernance GovernanceScenarios.one_open_proposal
      {| sender := 2; timestamp := 2000 |} 1 "fraud" (World.reg funded) = Err e.
Proof.
  refine (proj1 (proj2 suspendNGOThroughGovernance_never_succeeds)
            GovernanceScenarios.one_open_proposal
            {| sender := 2; timestamp := 2000 |} 1 "fraud" (World.reg funded) _).
  exists 1, (GovernanceScenarios.boot ++ GovernanceScenarios.verifications 1).
  reflexivity.
Defined.
End RegistryTheorems.

Module FactoryFacts.
Import CampaignFactory TokenFacts.

Lemma CampaignStatus_eqb_spec (a b : CampaignStatus) :
  CampaignStatus_eqb a b = true <-> a = b.
Proof. destruct a, b; simpl; split; intros H; congruence. Qed.

Ltac to_status :=
  repeat match goal with
  | K : CampaignStatus_eqb _ _ = true |- _ => apply CampaignStatus_eqb_spec in K
  | K : onlyRole _ _ _ = Ok _ |- _ => apply onlyRole_Ok in K
  | K : whenNotPaused _ = Ok _ |- _ => apply whenNotPaused_Ok in K; simpl in K
  end.

Lemma issueBeneficiaryToken_Ok (o : address -> bool) (m : Msg) (cid : uint256)
    (b : address) (amount : uint256) (service : string) (validity : uint256)
    (tok tok' : SoulboundToken.State) (s s' : State) (tid : uint256) :
  issueBeneficiaryToken o m cid b amount service validity tok s
    = Ok (tid, tok', s') ->
  let c := campaigns s cid in
  guard s = false /\ campaignId c <> 0 /\ ngoAddress c = sender m /\
  status c = Active /\ amount <= campaignFunds s cid /\ 0 < amount /\
  0 < validity /\
  SoulboundToken.mintToken o {| sender := this s; timestamp := timestamp m |}
    b cid amount service validity tok = Ok (tid, tok') /\
  totalBeneficiaries c + 1 <= MAX_UINT256 /\
  campaignFunds s' = upd (campaignFunds s) cid (campaignFunds s cid - amount) /\
  campaigns s' =
    upd (campaigns s) cid
      (with_totalBeneficiaries (totalBeneficiaries c + 1) c) /\
  events s' = events s ++ [BeneficiaryTokenIssued cid b tid] /\
  guard s' = false /\ balance s' = balance s /\
  _campaignIdCounter s' = _campaignIdCounter s /\ roles s' = roles s /\
  paused s' = paused s /\ this s' = this s.
Proof.
  intros H. cbv zeta. unfold issueBeneficiaryToken in H. inv_ok. subst.
  simpl in *. rewrite ?upd_same in *. simpl in *. to_prop. to_status.
  repeat split; auto; try lia.
Qed.


Lemma call_result (av : address -> uint256 -> bool) (to : address)
    (v : uint256) (s s1 : State) (log : list ExternalCall) :
  call av to v s = (true, s1, log) ->
  v <= balance s /\ av to v = true /\ s1 = with_balance (balance s - v) s /\
  log = [{| callee := to; callvalue := v; storage_seen := s1 |}].
Proof.
  unfold call. destruct ((v <=? balance s) && av to v) eqn:E; intros H;
    inversion H; subst. to_prop. auto.
Qed.

Lemma releaseFunds_Ok (av : address -> uint256 -> bool) (m : Msg)
    (cid : uint256) (recipient : address) (amount : uint256) (s s' : State)
    (calls : list ExternalCall) :
  releaseFunds av m cid recipient amount s = Ok (calls, s') ->
  let fee := amount * platformFeePercentage s / 10000 in
  let net := amount - fee in
  let s1 := with_balance (balance s - fee) (with_guard true s) in
  let s2 := with_balance (balance s - fee - net) (with_guard true s) in
  hasRole s ADMIN_ROLE (sender m) = true /\ guard s = false /\
  campaignId (campaigns s cid) <> 0 /\ recipient <> zero_address /\
  0 < amount /\ amount * platformFeePercentage s <= MAX_UINT256 /\
  fee <= amount /\ fee <= balance s /\ net <= balance s - fee /\
  av (feeCollector s) fee = true /\ av recipient net = true /\
  calls = [ {| callee := feeCollector s; callvalue := fee; storage_seen := s1 |};
            {| callee := recipient; callvalue := net; storage_seen := s2 |} ] /\
  s' = with_guard false (emit (FundsReleased cid net recipient) s2).
Proof.
  intros H. cbv zeta. unfold releaseFunds in H. inv_ok. to_status.
  repeat match goal with
  | K : call _ _ _ _ = (_, _, _) |- _ =>
      subst; apply call_result in K; destruct K as (? & ? & ? & ?)
  end.
  subst. simpl in *. to_prop.
  repeat split; auto.
Qed.
End FactoryFacts.

Module FactoryTheorems.
Import CampaignFactory WorldScenarios FactoryFacts.





End FactoryTheorems.

Module WorldFacts.
Import World TokenFacts FactoryFacts.

Lemma issued_in_app (cid : uint256) (a b : list CampaignFactory.Event) :
  issued_in cid (a ++ b) = issued_in cid a ++ issued_in cid b.
Proof.
  induction a as [|e a IH]; simpl; [reflexivity|].
  destruct e; try exact IH.
  destruct (_ =? cid); simpl; rewrite IH; reflexivity.
Qed.

Lemma frame_refl (s : CampaignFactory.State) : ledger_frame s s.
Proof. unfold ledger_frame. auto. Qed.

Import CampaignFactory.








Lemma donate_Ok (m : Msg) (value cid : uint256) (s s' : CampaignFactory.State) :
  donate m value cid s = Ok s' ->
  0 < value /\ campaignId (campaigns s cid) <> 0 /\
  status (campaigns s cid) = Active /\
  timestamp m <= endDate (campaigns s cid) /\
  campaignFunds s' = upd (campaignFunds s) cid (campaignFunds s cid + value) /\
  raisedAmount (campaigns s' cid) = raisedAmount (campaigns s cid) + value /\
  campaignId (campaigns s' cid) = campaignId (campaigns s cid) /\
  (forall q, q <> cid -> campaigns s' q = campaigns s q) /\
  _campaignIdCounter s' = _campaignIdCounter s /\
  balance s' = balance s + value /\
  campaignDonations s' cid (sender m) = campaignDonations s cid (sender m) + value /\
  status (campaigns s' cid) =
    (if targetAmount (campaigns s cid) <=? raisedAmount (campaigns s cid) + value
     then Completed else Active) /\
  (forall q, issued_in q (events s') = issued_in q (events s)).
Proof.
  intros H. unfold donate in H. inv_ok. to_status. to_prop. subst. simpl in *.
  match goal with
  | K : (if ?b then _ else _) = Ok _ |- _ => destruct b eqn:First
  end; inv_ok; subst; simpl in *; rewrite ?upd_same in *; simpl in *;
  rewrite ?upd_same; simpl;
  match goal with
  | |- context [if ?b then _updateCampaignStatus _ _ _ else _] =>
      destruct b eqn:Done
  end; simpl; rewrite ?upd_same; simpl;
  (repeat split; auto; try lia;
   [ intros q N; rewrite ?upd_other by exact N; reflexivity
   | intros q; rewrite ?issued_in_app; simpl; rewrite ?app_nil_r; reflexivity ]).
Qed.


Import SoulboundToken.

(** Token ids only grow, and the amount of a token below the counter is
    never rewritten. *)
Lemma exec_entitled_kept (o : address -> bool) (m : Msg) (c : SoulboundToken.Call)
    (t t' : SoulboundToken.State) :
  SoulboundToken.exec o m c t = Ok t' ->
  _tokenIdCounter t <= _tokenIdCounter t' /\
  (forall q, q < _tokenIdCounter t ->
     entitledAmount (tokenMetadata t' q) = entitledAmount (tokenMetadata t q)).
Proof.
  intros H.
  assert (Upd : forall tid t1 ev,
    entitledAmount t1 = entitledAmount (tokenMetadata t tid) ->
    let t0 := SoulboundToken.emit ev
                (with_tokenMetadata (upd (tokenMetadata t) tid t1) t) in
    _tokenIdCounter t <= _tokenIdCounter t0 /\
    (forall q, q < _tokenIdCounter t ->
       entitledAmount (tokenMetadata t0 q) = entitledAmount (tokenMetadata t q))).
  { intros tid t1 ev A t0. subst t0. simpl. split; [lia|].
    intros q _. unfold upd. destruct (q =? tid) eqn:E; [|reflexivity].
    apply Z.eqb_eq in E. subst. exact A. }
  destruct c as [b cid amount service validity|tid proof|tid reason|tid
                 |from to tid|from to tid data|to tid|op ap| | |r a|r a];
    simpl in H; try discriminate H.
  - inv_ok. subst.
    match goal with K : mintToken _ _ _ _ _ _ _ _ = Ok _ |- _ =>
      apply mintToken_Ok in K;
      destruct K as (_ & _ & _ & _ & _ & -> & _ & _ & _ & _ & K0 & _ & K2 & _)
    end.
    rewrite K0, K2. split; [lia|]. intros q L. rewrite upd_other by lia.
    reflexivity.
  - apply redeemToken_Ok in H. simpl in H.
    destruct H as (_ & _ & _ & _ & _ & _ & _ & _ & ->). apply Upd. reflexivity.
  - apply revokeToken_Ok in H. destruct H as (_ & _ & _ & ->).
    apply Upd. reflexivity.
  - apply markExpired_Ok in H. destruct H as (_ & _ & _ & ->).
    apply Upd. reflexivity.
  - unfold pause in H. inv_ok. subst. simpl. split; [lia|auto].
  - unfold unpause in H. inv_ok. subst. simpl. split; [lia|auto].
  - unfold grantRole in H. inv_ok. subst. simpl. split; [lia|auto].
  - unfold revokeRole in H. inv_ok. subst. simpl. split; [lia|auto].
Qed.




Lemma sum_app (a b : list Z) : sum (a ++ b) = sum a + sum b.
Proof.
  unfold sum. induction a as [|x a IH]; simpl; [reflexivity|]. rewrite IH. lia.
Qed.








Lemma world_step_reachable (w : World.State) (tx : Tx) :
  World.reachable w -> World.reachable (World.step w tx).
Proof.
  intros (d & f & c & txs & ->). exists d, f, c, (txs ++ [tx]).
  unfold World.run. rewrite fold_left_app. reflexivity.
Qed.

Lemma world_run_reachable (d f c : address) (txs : list Tx) :
  World.reachable (World.run (deploy d f c) txs).
Proof. exists d, f, c, txs. reflexivity. Qed.
End WorldFacts.

Module WorldTheorems.
Import World WorldScenarios WorldFacts.



End WorldTheorems.

(** ** Callees that call back *)

Module ReentrantFacts.
Import World Reentrant TokenFacts FactoryFacts WorldFacts.

(** Induction on a transaction with the calls of its callees. *)
Lemma Tx_nested_ind (P : Tx -> Prop) :
  (forall who c calls1 answer1 calls2 answer2,
     Forall P calls1 -> Forall P calls2 ->
     P (Do who c calls1 answer1 calls2 answer2)) ->
  forall tx, P tx.
Proof.
  intros H. fix IH 1. intros [who c calls1 answer1 calls2 answer2].
  apply H.
  - induction calls1 as [|t l IHl]; constructor; [apply IH|exact IHl].
  - induction calls2 as [|t l IHl]; constructor; [apply IH|exact IHl].
Qed.

Lemma during_nil (now : uint256) (w : State) : during now [] w = w.
Proof. reflexivity. Qed.

Lemma during_cons (now : uint256) (t : Tx) (l : list Tx) (w : State) :
  during now (t :: l) w = during now l (commit w (exec now t w)).
Proof. reflexivity. Qed.

(** The entry points of [World] are these, with callees that only
    answer. *)
Lemma mintToken_plain (o : address -> bool) (m : Msg) (b : address)
    (cid amount : uint256) (service : string) (validity : uint256) (w : State) :
  mintToken (fun w => w) (o b) m b cid amount service validity w =
  (' (tid, t) <- SoulboundToken.mintToken o m b cid amount service validity
                   (tok w) ;;
   Ok (tid, with_tok t w)).
Proof.
  unfold mintToken, mintToken_to_hook, mintToken_from_hook,
    SoulboundToken.mintToken, SoulboundToken._safeMint.
  destruct (onlyRole MINTER_ROLE m (tok w)); [simpl|reflexivity].
  destruct (whenNotPaused (tok w)); [simpl|reflexivity].
  destruct (b =? zero_address) eqn:Eb; [reflexivity|simpl].
  destruct (0 <? amount); [simpl|reflexivity].
  destruct (0 <? validity); [simpl|reflexivity].
  destruct (checked_add (SoulboundToken._tokenIdCounter (tok w)) 1);
    [simpl|reflexivity].
  destruct (checked_add (timestamp m) validity); [simpl|reflexivity].
  destruct (SoulboundToken._owners _ _ =? zero_address); [simpl|reflexivity].
  destruct (o b); reflexivity.
Qed.

Lemma issueBeneficiaryToken_plain (o : address -> bool) (m : Msg)
    (cid : uint256) (b : address) (amount : uint256) (service : string)
    (validity : uint256) (w : State) :
  issueBeneficiaryToken (fun w => w) (o b) m cid b amount service validity w =
  (' (tid, t, f) <- CampaignFactory.issueBeneficiaryToken o m cid b amount
                      service validity (tok w) (fac w) ;;
   Ok (tid, with_fac f (with_tok t w))).
Proof.
  unfold issueBeneficiaryToken, CampaignFactory.issueBeneficiaryToken,
    nonReentrant. simpl.
  destruct (CampaignFactory.guard (fac w)); [reflexivity|].
  destruct (CampaignFactory.campaignId _ =? 0); [reflexivity|simpl].
  destruct (CampaignFactory.ngoAddress _ =? sender m); [simpl|reflexivity].
  destruct (CampaignFactory.CampaignStatus_eqb _ _); [simpl|reflexivity].
  destruct (amount <=? _); [simpl|reflexivity].
  destruct (0 <? amount); [simpl|reflexivity].
  destruct (0 <? validity); [simpl|reflexivity].
  rewrite mintToken_plain. simpl.
  destruct (SoulboundToken.mintToken _ _ _ _ _ _ _ _) as [[tid t]|e];
    [simpl|reflexivity].
  destruct (checked_add _ 1); [simpl|reflexivity].
  destruct (checked_sub _ amount); reflexivity.
Qed.

Lemma transfer_plain (av : address -> uint256 -> bool) (to : address)
    (v : uint256) (w : State) :
  to <> CampaignFactory.this (fac w) ->
  transfer (fun w => w) (av to v) to v w =
  match CampaignFactory.call av to v (fac w) with
  | (true, f, [c]) => Some (c, with_fac f w)
  | _ => None
  end.
Proof.
  intros N. unfold transfer, CampaignFactory.call.
  apply Z.eqb_neq in N. rewrite N.
  destruct (v <=? _); [simpl|reflexivity]. destruct (av to v); reflexivity.
Qed.

Lemma releaseFunds_plain (av : address -> uint256 -> bool) (m : Msg)
    (cid : uint256) (recipient : address) (amount : uint256) (w : State) :
  let f := fac w in
  let fee := amount * CampaignFactory.platformFeePercentage f / 10000 in
  CampaignFactory.feeCollector f <> CampaignFactory.this f ->
  recipient <> CampaignFactory.this f ->
  releaseFunds (fun w => w) (av (CampaignFactory.feeCollector f) fee)
    (fun w => w) (av recipient (amount - fee)) m cid recipient amount w =
  (' (log, f') <- CampaignFactory.releaseFunds av m cid recipient amount f ;;
   Ok (log, with_fac f' w)).
Proof.
  intros f fee N1 N2. subst f fee.
  unfold releaseFunds, CampaignFactory.releaseFunds, nonReentrant. simpl.
  destruct (onlyRole ADMIN_ROLE m (fac w)); [simpl|reflexivity].
  destruct (CampaignFactory.guard (fac w)); [reflexivity|].
  destruct (CampaignFactory.campaignId _ =? 0); [reflexivity|simpl].
  destruct (recipient =? zero_address); [reflexivity|simpl].
  destruct (0 <? amount); [simpl|reflexivity].
  unfold checked_mul.
  destruct (amount * _ <=? MAX_UINT256); [simpl|reflexivity].
  unfold checked_sub.
  destruct (_ / 10000 <=? amount); [simpl|reflexivity].
  rewrite transfer_plain by exact N1. unfold CampaignFactory.call. simpl.
  destruct (_ / 10000 <=? CampaignFactory.balance (fac w)); [simpl|reflexivity].
  destruct (av (CampaignFactory.feeCollector (fac w)) _); [simpl|reflexivity].
  rewrite transfer_plain by exact N2. unfold CampaignFactory.call. simpl.
  destruct (_ <=? _ - _ / 10000); [simpl|reflexivity].
  destruct (av recipient _); reflexivity.
Qed.

(** *** Relations that every call respects

    [Pre] is what a call needs to find, [R] what it then guarantees
    between the system before and after it. When this holds for the entry
    points that reach no callee, and for the three that do as soon as it
    holds for what their callees do, it holds for every transaction and
    for everything a callee does. *)
Section Relational.

Variable Pre : State -> Prop.
Variable R : State -> State -> Prop.

Hypothesis R_refl : forall w, Pre w -> R w w.
Hypothesis R_trans : forall a b c, R a b -> R b c -> R a c.
Hypothesis Pre_step : forall a b, Pre a -> R a b -> Pre b.

Hypothesis H_plain : forall m c w w',
  reaches_callee c = false -> Pre w ->
  World.exec {| tx_msg := m; tx_ext := no_callee; tx_call := c |} w = Ok w' ->
  R w w'.

Hypothesis H_mint : forall hook answer m b cid amount service validity w tid w',
  (forall w0, Pre w0 -> R w0 (hook w0)) -> Pre w ->
  mintToken hook answer m b cid amount service validity w = Ok (tid, w') ->
  R w w'.

Hypothesis H_issue : forall hook answer m cid b amount service validity w tid w',
  (forall w0, Pre w0 -> R w0 (hook w0)) -> Pre w ->
  issueBeneficiaryToken hook answer m cid b amount service validity w
  = Ok (tid, w') ->
  R w w'.

Hypothesis H_release : forall hook1 answer1 hook2 answer2 m cid recipient
    amount w log w',
  (forall w0, Pre w0 -> R w0 (hook1 w0)) ->
  (forall w0, Pre w0 -> R w0 (hook2 w0)) -> Pre w ->
  releaseFunds hook1 answer1 hook2 answer2 m cid recipient amount w
  = Ok (log, w') ->
  R w w'.

Lemma during_respects (now : uint256) (calls : list Tx) :
  Forall (fun t => forall w w', Pre w -> exec now t w = Ok w' -> R w w') calls ->
  forall w, Pre w -> R w (during now calls w).
Proof.
  induction 1 as [|t l Ht Hl IH]; intros w Hw; [apply R_refl; exact Hw|].
  rewrite during_cons.
  assert (K : R w (commit w (exec now t w))).
  { unfold commit. destruct (exec now t w) eqn:E; [eauto|apply R_refl; exact Hw]. }
  eapply R_trans; [exact K|]. apply IH. eapply Pre_step; eauto.
Qed.

Lemma exec_respects (now : uint256) (tx : Tx) :
  forall w w', Pre w -> exec now tx w = Ok w' -> R w w'.
Proof.
  induction tx as [who c calls1 answer1 calls2 answer2 IH1 IH2]
    using Tx_nested_ind.
  intros w w' Hw E.
  pose proof (during_respects now calls1 IH1) as D1.
  pose proof (during_respects now calls2 IH2) as D2.
  destruct (reaches_callee c) eqn:RC.
  - destruct c as [c|c|c|c]; try discriminate RC;
      destruct c; try discriminate RC; simpl in E; inv_ok; subst.
    + eapply H_mint; [exact D1|exact Hw|eassumption].
    + eapply H_issue; [exact D1|exact Hw|eassumption].
    + eapply H_release; [exact D1|exact D2|exact Hw|eassumption].
  - eapply (H_plain {| sender := who; timestamp := now |} c); eauto.
    destruct c as [c|c|c|c]; try exact E; destruct c;
      try exact E; discriminate RC.
Qed.

Lemma all_calls_respect (now : uint256) (calls : list Tx) (w : State) :
  Pre w -> R w (during now calls w).
Proof.
  intros Hw. apply during_respects; [|exact Hw].
  apply Forall_forall. intros t _. apply exec_respects.
Qed.

Lemma run_respects (txs : list (uint256 * Tx)) (w : State) :
  Pre w -> R w (run w txs).
Proof.
  revert w. induction txs as [|t l IH]; intros w Hw; [apply R_refl; exact Hw|].
  change (run w (t :: l)) with (run (step w t) l).
  assert (K : R w (step w t)).
  { unfold step, commit. destruct (exec (fst t) (snd t) w) eqn:E;
      [eapply exec_respects; eauto|apply R_refl; exact Hw]. }
  eapply R_trans; [exact K|]. apply IH. eapply Pre_step; eauto.
Qed.

End Relational.

(** *** Under the factory's lock *)






(** *** Tokens across calls *)

Lemma kept_refl (q : uint256) (s : SoulboundToken.State) : kept q s s.
Proof. unfold kept. cbv zeta. auto 10. Qed.

Lemma kept_trans (q : uint256) (a b c : SoulboundToken.State) :
  kept q a b -> kept q b c -> kept q a c.
Proof.
  unfold kept. cbv zeta.
  intros (A1 & A2 & A3 & A4 & A5 & A6 & A7 & A8 & A9)
         (B1 & B2 & B3 & B4 & B5 & B6 & B7 & B8 & B9).
  repeat split; try congruence.
  - intros N. rewrite B8; [apply A8; exact N|]. rewrite A8 by exact N. exact N.
  - intros K. apply A9. apply B9. exact K.
Qed.

Lemma mintToken_to_hook_Ok (m : Msg) (b : address) (amount validity : uint256)
    (s t : SoulboundToken.State) (tid expiry : uint256) :
  mintToken_to_hook m b amount validity s = Ok (tid, expiry, t) ->
  hasRole s MINTER_ROLE (sender m) = true /\
  SoulboundToken.paused s = false /\ b <> zero_address /\
  0 < amount /\ 0 < validity /\
  tid = SoulboundToken._tokenIdCounter s /\
  SoulboundToken._tokenIdCounter s + 1 <= MAX_UINT256 /\
  expiry = timestamp m + validity /\
  SoulboundToken._ownerOf s tid = zero_address /\
  t = SoulboundToken.emit (SoulboundToken.Transfer zero_address b tid)
        (SoulboundToken.with_owners (upd (SoulboundToken._owners s) tid b)
           (SoulboundToken.with_balances
              (upd (SoulboundToken._balances s) b
                 ((SoulboundToken._balances s b + 1) mod 2 ^ 256))
              (SoulboundToken.with_tokenIdCounter (tid + 1) s))).
Proof.
  intros H. unfold mintToken_to_hook in H. inv_ok.
  match goal with K : onlyRole _ _ _ = Ok _ |- _ => apply onlyRole_Ok in K end.
  match goal with K : whenNotPaused _ = Ok _ |- _ =>
    apply whenNotPaused_Ok in K; simpl in K end.
  destruct (b =? zero_address) eqn:Eb; [discriminate H|].
  destruct (SoulboundToken._ownerOf _ _ =? zero_address) eqn:Eo;
    simpl in H; [|discriminate H].
  inversion H. subst. to_prop. unfold SoulboundToken._ownerOf in *.
  simpl in *. repeat split; auto.
Qed.

(** A mint, with a receiver hook that keeps the tokens it finds, keeps
    every token that existed before it. *)
Lemma mintToken_kept (q : uint256) (hook : State -> State) (answer : bool)
    (m : Msg) (b : address) (cid amount : uint256) (service : string)
    (validity : uint256) (w w' : State) (tid : uint256) :
  (forall w0, SoulboundToken._ownerOf (tok w0) q <> zero_address ->
              kept q (tok w0) (tok (hook w0))) ->
  SoulboundToken._ownerOf (tok w) q <> zero_address ->
  mintToken hook answer m b cid amount service validity w = Ok (tid, w') ->
  kept q (tok w) (tok w').
Proof.
  intros Hh Hq H. unfold mintToken in H. inv_ok.
  destruct answer; inv_ok. subst.
  match goal with K : mintToken_to_hook _ _ _ _ _ = Ok _ |- _ =>
    apply mintToken_to_hook_Ok in K;
    destruct K as (_ & _ & _ & _ & _ & Ht & _ & _ & Hfree & Hs) end.
  assert (N : q <> tid) by (intros ->; contradiction).
  match goal with |- kept q _ (tok (with_tok ?s1 ?w1)) =>
    change (tok (with_tok s1 w1)) with s1 end.
  match goal with
  | Hs : ?t = SoulboundToken.emit _ _ |- _ =>
      assert (K1 : kept q (tok w) t)
  end.
  { rewrite Hs. unfold kept, SoulboundToken._ownerOf. cbv zeta. simpl.
    rewrite upd_other by exact N. auto 10. }
  match goal with
  | Hs : ?t = SoulboundToken.emit _ _ |- _ =>
      assert (K2 : kept q t (tok (hook (with_tok t w))))
  end.
  { match goal with
    | Hs : ?t = SoulboundToken.emit _ _ |- _ =>
        apply (Hh (with_tok t w)); simpl;
        destruct K1 as (K1 & _); rewrite K1; exact Hq
    end. }
  eapply kept_trans; [exact K1|]. eapply kept_trans; [exact K2|].
  unfold kept, mintToken_from_hook, SoulboundToken._ownerOf. cbv zeta. simpl.
  rewrite upd_other by exact N. auto 10.
Qed.

Lemma transfer_tok (hook : State -> State) (answer : bool) (to : address)
    (v : uint256) (w w' : State) (c : CampaignFactory.ExternalCall) :
  transfer hook answer to v w = Some (c, w') ->
  tok w' = tok w \/ exists w0, tok w0 = tok w /\ w' = hook w0.
Proof.
  unfold transfer. destruct (v <=? _); [|discriminate].
  destruct (to =? _); [intros H; inversion H; auto|].
  destruct answer; [|discriminate]. intros H; inversion H.
  right. eexists. split; [|reflexivity]. reflexivity.
Qed.

(** Whatever is called, by anyone and at any depth, an existing token
    keeps its holder and its terms, and once it has left the Active
    status its record. *)
Lemma exec_kept_respects (q : uint256) :
  (forall now tx w w',
     SoulboundToken._ownerOf (tok w) q <> zero_address ->
     exec now tx w = Ok w' -> kept q (tok w) (tok w')) /\
  (forall now calls w,
     SoulboundToken._ownerOf (tok w) q <> zero_address ->
     kept q (tok w) (tok (during now calls w))) /\
  (forall txs w,
     SoulboundToken._ownerOf (tok w) q <> zero_address ->
     kept q (tok w) (tok (run w txs))).
Proof.
  assert (Refl : forall w : State,
            SoulboundToken._ownerOf (tok w) q <> zero_address ->
            kept q (tok w) (tok w)) by (intros; apply kept_refl).
  assert (Trans : forall a b c : State,
            kept q (tok a) (tok b) -> kept q (tok b) (tok c) ->
            kept q (tok a) (tok c)) by (intros a b c; apply kept_trans).
  assert (Step : forall a b : State,
            SoulboundToken._ownerOf (tok a) q <> zero_address ->
            kept q (tok a) (tok b) ->
            SoulboundToken._ownerOf (tok b) q <> zero_address).
  { intros a b Ha (K & _). rewrite K. exact Ha. }
  assert (Plain : forall m c w w',
            reaches_callee c = false ->
            SoulboundToken._ownerOf (tok w) q <> zero_address ->
            World.exec {| tx_msg := m; tx_ext := no_callee; tx_call := c |} w
            = Ok w' -> kept q (tok w) (tok w')).
  { intros m c w w' RC Hq E. unfold World.exec in E. simpl in E.
    destruct c as [c|c|c|c]; inv_ok; subst; simpl; try apply kept_refl.
    - match goal with K : SoulboundToken.exec _ _ _ _ = Ok _ |- _ =>
        pose proof (exec_token_kept _ _ _ _ _ q K Hq) as T end.
      cbv zeta in T.
      destruct T as (T1 & T2 & T3 & T4 & T5 & T6 & T7 & T8 & T9).
      unfold kept. cbv zeta. repeat split; auto.
      intros A. destruct T9 as [T9|(T9 & T10)]; [congruence|contradiction].
    - destruct c; try discriminate RC; simpl in E; inv_ok; subst; simpl;
        apply kept_refl. }
  assert (Mint : forall hook answer m b cid amount service validity w tid w',
            (forall w0, SoulboundToken._ownerOf (tok w0) q <> zero_address ->
                        kept q (tok w0) (tok (hook w0))) ->
            SoulboundToken._ownerOf (tok w) q <> zero_address ->
            mintToken hook answer m b cid amount service validity w
            = Ok (tid, w') -> kept q (tok w) (tok w')).
  { intros. eapply mintToken_kept; eauto. }
  assert (Issue : forall hook answer m cid b amount service validity w tid w',
            (forall w0, SoulboundToken._ownerOf (tok w0) q <> zero_address ->
                        kept q (tok w0) (tok (hook w0))) ->
            SoulboundToken._ownerOf (tok w) q <> zero_address ->
            issueBeneficiaryToken hook answer m cid b amount service validity w
            = Ok (tid, w') -> kept q (tok w) (tok w')).
  { intros hook answer m cid b amount service validity w tid w' Hh Hq E.
    unfold issueBeneficiaryToken in E.
    destruct (CampaignFactory.guard (fac w)); [discriminate E|].
    inv_ok. subst. simpl.
    match goal with K : mintToken _ _ _ _ _ _ _ _ _ = Ok _ |- _ =>
      apply (mintToken_kept q) in K; [exact K|exact Hh|exact Hq] end. }
  assert (Release : forall hook1 answer1 hook2 answer2 m cid recipient amount
                      w log w',
            (forall w0, SoulboundToken._ownerOf (tok w0) q <> zero_address ->
                        kept q (tok w0) (tok (hook1 w0))) ->
            (forall w0, SoulboundToken._ownerOf (tok w0) q <> zero_address ->
                        kept q (tok w0) (tok (hook2 w0))) ->
            SoulboundToken._ownerOf (tok w) q <> zero_address ->
            releaseFunds hook1 answer1 hook2 answer2 m cid recipient amount w
            = Ok (log, w') -> kept q (tok w) (tok w')).
  { intros hook1 answer1 hook2 answer2 m cid recipient amount w log w'
      H1 H2 Hq E.
    unfold releaseFunds in E. inv_ok.
    destruct (CampaignFactory.guard (fac w)); [discriminate E|]. inv_ok.
    destruct (transfer hook1 _ _ _ _) as [[c1 w1]|] eqn:T1; [|discriminate E].
    destruct (transfer hook2 _ _ _ _) as [[c2 w2]|] eqn:T2; [|discriminate E].
    inversion E. subst. simpl.
    assert (K1 : kept q (tok w) (tok w1)).
    { apply transfer_tok in T1. simpl in T1.
      destruct T1 as [T1|(w0 & T1 & ->)];
        [rewrite T1; apply kept_refl|].
      rewrite <- T1. apply H1. rewrite T1. exact Hq. }
    assert (K2 : kept q (tok w1) (tok w2)).
    { assert (Hq1 : SoulboundToken._ownerOf (tok w1) q <> zero_address)
        by (destruct K1 as (K1 & _); rewrite K1; exact Hq).
      apply transfer_tok in T2.
      destruct T2 as [T2|(w0 & T2 & ->)];
        [rewrite T2; apply kept_refl|].
      rewrite <- T2. apply H2. rewrite T2. exact Hq1. }
    eapply kept_trans; eauto. }
  split; [|split].
  - intros now tx.
    exact (exec_respects _ _ Refl Trans Step Plain Mint Issue Release now tx).
  - intros now calls w.
    exact (all_calls_respect _ _ Refl Trans Step Plain Mint Issue Release
             now calls w).
  - intros txs w.
    exact (run_respects _ _ Refl Trans Step Plain Mint Issue Release txs w).
Qed.
End ReentrantFacts.


Module ReentrantTheorems.
Import World Reentrant ReentrantScenarios WorldScenarios TokenFacts FactoryFacts
  WorldFacts ReentrantFacts.
Import CampaignFactory.




(** The recipient of that release has paused the campaign from inside
    the transfer: the call succeeds and leaves the campaign Paused. *)
Lemma recipient_pauses_during_release :
  exists log w',
    Reentrant.releaseFunds (during 200 []) true (during 200 pausing_recipient)
      true {| sender := 1; timestamp := 200 |} 1 2 100 funded = Ok (log, w') /\
    status (campaigns (fac funded) 1) = Active /\
    status (campaigns (fac w') 1) = Paused.
Proof.
  eexists. eexists. split; [vm_compute; reflexivity|].
  split; vm_compute; reflexivity.
Qed.

(** A release whose recipient is the factory itself (address 100) leaves
    the balance short of the fee only: the net amount comes back. *)
Lemma release_to_the_factory_itself :
  exists log w',
    Reentrant.releaseFunds (during 200 []) true (during 200 []) true
      {| sender := 1; timestamp := 200 |} 1 100 400 funded = Ok (log, w') /\
    balance (fac funded) = 500 /\ balance (fac w') = 490.
Proof.
  eexists. eexists. split; [vm_compute; reflexivity|].
  split; vm_compute; reflexivity.
Qed.
End ReentrantTheorems.


(** ** More on the entitlement token *)

Module TokenLifecycle.
Import SoulboundToken TokenFacts.

(** For a redeemer with a non-empty proof, the contract not paused and no
    guarded call in progress, [isTokenRedeemable] is true exactly when
    [redeemToken] goes through. *)
Theorem isTokenRedeemable_predicts_redeemToken (m : Msg) (tid : uint256)
    (proof : string) (s : State) :
  hasRole s REDEEMER_ROLE (sender m) = true ->
  paused s = false -> guard s = false -> proof <> EmptyString ->
  (isTokenRedeemable m tid s = true <->
   exists s', redeemToken m tid proof s = Ok s').
Proof.
  intros Hr Hp Hg Hn. unfold isTokenRedeemable. split.
  - intros H. to_prop. apply TokenStatus_eqb_spec in H2.
    apply redeemToken_accepts; auto.
  - intros [s' E]. apply redeemToken_Ok in E. simpl in E.
    destruct E as (_ & _ & _ & A & B & C & D & _).
    apply Z.eqb_neq in A. apply Z.leb_le in D. rewrite A, B, C, D. reflexivity.
Qed.

Lemma isTokenRedeemable_predicts_redeemToken_witness :
  isTokenRedeemable {| sender := 5; timestamp := 120 |} 0
    TokenScenarios.one_token = true <->
  exists s', redeemToken {| sender := 5; timestamp := 120 |} 0 "QmProof"
               TokenScenarios.one_token = Ok s'.
Proof.
  apply (isTokenRedeemable_predicts_redeemToken
           {| sender := 5; timestamp := 120 |} 0 "QmProof"
           TokenScenarios.one_token).
  - vm_compute. reflexivity.
  - vm_compute. reflexivity.
  - vm_compute. reflexivity.
  - intros K. discriminate K.
Defined.

Lemma markExpired_accepts (m : Msg) (tid : uint256) (s : State) :
  _ownerOf s tid <> zero_address -> status (tokenMetadata s tid) = Active ->
  expiryDate (tokenMetadata s tid) < timestamp m ->
  exists s', markExpired m tid s = Ok s'.
Proof.
  intros Ho Hs Ht. unfold markExpired.
  apply Z.eqb_neq in Ho. rewrite Ho. simpl. rewrite Hs. simpl.
  apply Z.ltb_lt in Ht. rewrite Ht. simpl. eauto.
Qed.

(** Anyone can mark a token expired, exactly when it exists, is Active
    and the time is past its expiry date. The token is then Expired for
    good: marking it again fails with "Token is not active", redeeming it
    fails, and [isTokenRedeemable] is false. At no instant can the same
    token be both redeemed and marked expired. *)
Theorem markExpired_outcome (m : Msg) (tid : uint256) (s : State) :
  ((exists s', markExpired m tid s = Ok s') <->
   (_ownerOf s tid <> zero_address /\ status (tokenMetadata s tid) = Active /\
    expiryDate (tokenMetadata s tid) < timestamp m)) /\
  (forall s', markExpired m tid s = Ok s' ->
     status (tokenMetadata s' tid) = Expired /\
     (forall q, q <> tid -> tokenMetadata s' q = tokenMetadata s q) /\
     (forall m', markExpired m' tid s' = Err (Revert "Token is not active")) /\
     (forall m' proof, exists e, redeemToken m' tid proof s' = Err e) /\
     (forall m', isTokenRedeemable m' tid s' = false)) /\
  (forall proof s1 s2,
     markExpired m tid s = Ok s1 -> redeemToken m tid proof s = Ok s2 -> False).
Proof.
  split; [split|split].
  - intros [s' E]. apply markExpired_Ok in E. tauto.
  - intros (A & B & C). apply markExpired_accepts; auto.
  - intros s' E. apply markExpired_Ok in E. destruct E as (A & B & C & ->).
    simpl. rewrite upd_same. simpl. repeat split.
    + intros q N. apply upd_other. exact N.
    + intros m'. unfold markExpired, _ownerOf in *. simpl.
      apply Z.eqb_neq in A. rewrite A. simpl. rewrite upd_same. reflexivity.
    + intros m' proof.
      destruct (redeemToken m' tid proof _) as [s2|e] eqn:E2; [|eauto].
      apply redeemToken_Ok in E2. simpl in E2. rewrite upd_same in E2.
      simpl in E2. destruct E2 as (_ & _ & _ & _ & X & _). discriminate X.
    + intros m'. unfold isTokenRedeemable. simpl. rewrite upd_same. simpl.
      rewrite andb_false_r. reflexivity.
  - intros proof s1 s2 E1 E2. apply markExpired_Ok in E1.
    apply redeemToken_Ok in E2. simpl in E2.
    destruct E1 as (_ & _ & L & _). destruct E2 as (_ & _ & _ & _ & _ & _ & G & _).
    lia.
Qed.

Lemma markExpired_outcome_witness :
  exists s',
    markExpired {| sender := 7; timestamp := 200 |} 0 TokenScenarios.one_token
    = Ok s'.
Proof.
  apply (proj2 (proj1 (markExpired_outcome {| sender := 7; timestamp := 200 |}
                         0 TokenScenarios.one_token))).
  vm_compute. repeat split; first [reflexivity | intros K; discriminate K].
Defined.

Lemma revokeToken_accepts (m : Msg) (tid : uint256) (reason : string) (s : State) :
  hasRole s ADMIN_ROLE (sender m) = true ->
  _ownerOf s tid <> zero_address -> status (tokenMetadata s tid) = Active ->
  exists s', revokeToken m tid reason s = Ok s'.
Proof.
  intros Hr Ho Hs. unfold revokeToken, onlyRole. rewrite Hr. simpl.
  apply Z.eqb_neq in Ho. rewrite Ho. simpl. rewrite Hs. simpl. eauto.
Qed.

(** Revocation is the admin's emergency path: it succeeds exactly when
    the caller is an admin and the token exists and is Active, whether or
    not the token has expired and whether or not the contract is paused.
    The token becomes Revoked and keeps its other fields; it can then be
    neither redeemed nor marked expired nor revoked again. *)
Theorem revokeToken_outcome (m : Msg) (tid : uint256) (reason : string)
    (s : State) :
  ((exists s', revokeToken m tid reason s = Ok s') <->
   (hasRole s ADMIN_ROLE (sender m) = true /\ _ownerOf s tid <> zero_address /\
    status (tokenMetadata s tid) = Active)) /\
  (forall s', revokeToken m tid reason s = Ok s' ->
     tokenMetadata s' tid = with_token_status Revoked (tokenMetadata s tid) /\
     (forall q, q <> tid -> tokenMetadata s' q = tokenMetadata s q) /\
     (forall m' proof, exists e, redeemToken m' tid proof s' = Err e) /\
     (forall m', exists e, markExpired m' tid s' = Err e) /\
     (forall m' reason', exists e, revokeToken m' tid reason' s' = Err e) /\
     (forall m', isTokenRedeemable m' tid s' = false)).
Proof.
  split; [split|].
  - intros [s' E]. apply revokeToken_Ok in E. tauto.
  - intros (A & B & C). apply revokeToken_accepts; auto.
  - intros s' E. apply revokeToken_Ok in E. destruct E as (A & B & C & ->).
    simpl. rewrite upd_same. repeat split.
    + intros q N. apply upd_other. exact N.
    + intros m' proof.
      destruct (redeemToken m' tid proof _) as [s2|e] eqn:E2; [|eauto].
      apply redeemToken_Ok in E2. simpl in E2. rewrite upd_same in E2.
      simpl in E2. destruct E2 as (_ & _ & _ & _ & X & _). discriminate X.
    + intros m'. destruct (markExpired m' tid _) as [s2|e] eqn:E2; [|eauto].
      apply markExpired_Ok in E2. simpl in E2. rewrite upd_same in E2.
      simpl in E2. destruct E2 as (_ & X & _). discriminate X.
    + intros m' reason'.
      destruct (revokeToken m' tid reason' _) as [s2|e] eqn:E2; [|eauto].
      apply revokeToken_Ok in E2. simpl in E2. rewrite upd_same in E2.
      simpl in E2. destruct E2 as (_ & _ & X & _). discriminate X.
    + intros m'. unfold isTokenRedeemable. simpl. rewrite upd_same. simpl.
      rewrite andb_false_r. reflexivity.
Qed.

Lemma revokeToken_outcome_witness :
  exists s',
    revokeToken {| sender := 1; timestamp := 200 |} 0 "emergency"
      TokenScenarios.one_token = Ok s'.
Proof.
  apply (proj2 (proj1 (revokeToken_outcome {| sender := 1; timestamp := 200 |}
                         0 "emergency" TokenScenarios.one_token))).
  vm_compute. repeat split; first [reflexivity | intros K; discriminate K].
Defined.

End TokenLifecycle.


Module TokenInvariants.
Import SoulboundToken TokenFacts.

(** While the contract is paused, minting and redeeming fail with
    [EnforcedPause] even for the holders of the Minter and Redeemer
    roles; revoking and marking expired do not look at the pause flag. *)
Theorem paused_token_blocks_mint_and_redeem (s : State) :
  paused s = true ->
  (forall o m b cid amount service validity,
     hasRole s MINTER_ROLE (sender m) = true ->
     mintToken o m b cid amount service validity s = Err EnforcedPause) /\
  (forall m tid proof,
     hasRole s REDEEMER_ROLE (sender m) = true -> guard s = false ->
     redeemToken m tid proof s = Err EnforcedPause) /\
  (forall m tid reason,
     is_ok (revokeToken m tid reason s)
     = is_ok (revokeToken m tid reason (with_paused false s))) /\
  (forall m tid,
     is_ok (markExpired m tid s) = is_ok (markExpired m tid (with_paused false s))).
Proof.
  intros Hp. repeat split.
  - intros o m b cid amount service validity Hr.
    unfold mintToken, onlyRole, whenNotPaused. rewrite Hr. simpl.
    rewrite Hp. reflexivity.
  - intros m tid proof Hr Hg.
    unfold redeemToken, onlyRole, nonReentrant, whenNotPaused. rewrite Hr.
    simpl. rewrite Hg. simpl. rewrite Hp. reflexivity.
  - intros m tid reason. unfold revokeToken, onlyRole, hasRole, _ownerOf.
    simpl. destruct (roles s ADMIN_ROLE (sender m)); simpl; [|reflexivity].
    destruct (_owners s tid =? zero_address); simpl; [reflexivity|].
    destruct (TokenStatus_eqb _ _); reflexivity.
  - intros m tid. unfold markExpired, _ownerOf. simpl.
    destruct (_owners s tid =? zero_address); simpl; [reflexivity|].
    destruct (TokenStatus_eqb _ _); simpl; [|reflexivity].
    destruct (_ <? _); reflexivity.
Qed.

Lemma paused_token_blocks_mint_and_redeem_witness :
  redeemToken {| sender := 5; timestamp := 120 |} 0 "QmProof"
    (with_paused true TokenScenarios.one_token) = Err EnforcedPause.
Proof.
  refine (proj1 (proj2 (paused_token_blocks_mint_and_redeem
                          (with_paused true TokenScenarios.one_token) _))
            {| sender := 5; timestamp := 120 |} 0 "QmProof" _ _).
  - reflexivity.
  - vm_compute. reflexivity.
  - vm_compute. reflexivity.
Defined.

(** An admin can pause an unpaused token contract and unpause it again,
    which gives back the storage it started from; pausing twice or
    unpausing a running contract fails. *)
Theorem token_pause_unpause_round_trip (m m' : Msg) (s : State) :
  hasRole s ADMIN_ROLE (sender m) = true ->
  hasRole s ADMIN_ROLE (sender m') = true ->
  paused s = false ->
  exists s1,
    pause m s = Ok s1 /\ paused s1 = true /\
    pause m' s1 = Err EnforcedPause /\
    unpause m' s1 = Ok s /\ unpause m' s = Err ExpectedPause.
Proof.
  intros Hr Hr' Hp. exists (with_paused true s).
  unfold pause, unpause, onlyRole, whenNotPaused, whenPaused.
  unfold hasRole in *. simpl in *. rewrite Hr, Hr'. simpl. rewrite Hp. simpl.
  repeat split. destruct s; simpl in *; subst; reflexivity.
Qed.

Lemma token_pause_unpause_round_trip_witness :
  exists s1,
    pause {| sender := 1; timestamp := 10 |} (constructor 1) = Ok s1 /\
    paused s1 = true /\
    pause {| sender := 1; timestamp := 20 |} s1 = Err EnforcedPause /\
    unpause {| sender := 1; timestamp := 20 |} s1 = Ok (constructor 1) /\
    unpause {| sender := 1; timestamp := 20 |} (constructor 1)
    = Err ExpectedPause.
Proof.
  apply (token_pause_unpause_round_trip {| sender := 1; timestamp := 10 |}
           {| sender := 1; timestamp := 20 |} (constructor 1));
    reflexivity.
Defined.

End TokenInvariants.


Module TokenIndexes.
Import SoulboundToken TokenFacts TokenShape.





End TokenIndexes.


(** ** More on governance *)

Module GovernanceLifecycle.
Import NGOGovernance GovernanceFacts.

Lemma castVote_internal_state (m : Msg) (pid : uint256) (vt : VoteType)
    (voter : address) (s s' : State) :
  _castVote m pid vt voter s = Ok s' ->
  let p := proposals s pid in
  let power := score (userReputations s voter) * VOTE_WEIGHT_BASE / 1000 in
  s' = emit (VoteCast pid voter vt power)
         (with_proposals
            (upd (proposals s) pid
               {| proposalId := proposalId p; ngoId := ngoId p;
                  proposalType := proposalType p; proposer := proposer p;
                  description := description p;
                  evidenceHash := evidenceHash p;
                  startTime := startTime p; endTime := endTime p;
                  upvotes := upvotes p +
                    (match vt with Upvote => power | Downvote => 0 end);
                  downvotes := downvotes p +
                    (match vt with Upvote => 0 | Downvote => power end);
                  totalVotingPower := totalVotingPower p + power;
                  executed := executed p;
                  votes := upd (votes p) voter
                    {| hasVoted := true; voteType := vt; votingPower := power;
                       reputationStake := REPUTATION_CHANGE_PER_VOTE |} |}) s).
Proof.
  intros H. cbv zeta. unfold _castVote, _calculateVotingPower in H.
  inv_ok. subst. destruct vt; inv_ok; subst; rewrite ?Z.add_0_r; reflexivity.
Qed.

(** A verification proposal gets the next id and a window of seven days
    starting now; the proposer is recorded and has already voted for it
    with the power of their score, so they cannot vote on it again. The
    NGO is now marked as having its verification proposal, and every
    further [createVerificationProposal] for it fails. *)
Theorem createVerificationProposal_is_single (m : Msg) (nid : uint256)
    (d e : string) (s s' : State) (pid : uint256) :
  0 <= _proposalIdCounter s ->
  createVerificationProposal m nid d e s = Ok (pid, s') ->
  let p := proposals s' pid in
  let power := score (userReputations s (sender m)) * VOTE_WEIGHT_BASE / 1000 in
  pid = _proposalIdCounter s + 1 /\ _proposalIdCounter s' = pid /\
  ngoVerificationProposals s nid = 0 /\
  MIN_REPUTATION_TO_VOTE <= score (userReputations s (sender m)) /\
  proposer p = sender m /\ ngoId p = nid /\ proposalType p = Verification /\
  startTime p = timestamp m /\ endTime p = timestamp m + VOTING_DURATION /\
  votes p (sender m) =
    {| hasVoted := true; voteType := Upvote; votingPower := power;
       reputationStake := REPUTATION_CHANGE_PER_VOTE |} /\
  upvotes p = upvotes (proposals s pid) + power /\
  ngoVerificationProposals s' nid = pid /\
  (forall m' vt, sender m' = sender m ->
     exists err, castVote m' pid vt s' = Err err) /\
  (forall m' d' e',
     createVerificationProposal m' nid d' e' s'
     = Err (Revert "Proposal already exists")).
Proof.
  intros Hc H. cbv zeta. unfold createVerificationProposal in H. inv_ok. subst.
  to_prop.
  match goal with
  | K : _castVote _ _ _ _ _ = Ok _ |- _ =>
      apply castVote_internal_state in K; simpl in K; rewrite !upd_same in K;
      simpl in K; subst
  end.
  simpl in *. rewrite !upd_same. simpl.
  repeat split; auto.
  - apply upd_same.
  - intros m' vt Hm.
    match goal with |- exists err, castVote m' ?q vt ?st = Err err =>
      destruct (castVote m' q vt st) as [s2|err] eqn:E2; [|eauto] end.
    exfalso. apply castVote_Ok in E2. destruct E2 as (_ & _ & s3 & E2 & _).
    apply castVote_internal_Ok in E2. simpl in E2. rewrite !upd_same in E2.
    simpl in E2. destruct E2 as (_ & Hv & _). rewrite Hm, upd_same in Hv.
    discriminate Hv.
  - intros m' d' e'. unfold createVerificationProposal, nonReentrant. simpl.
    rewrite upd_same.
    destruct (_proposalIdCounter s + 1 =? 0) eqn:Z0; [|reflexivity].
    apply Z.eqb_eq in Z0. lia.
Qed.

Lemma createVerificationProposal_is_single_witness :
  exists s',
    createVerificationProposal {| sender := 3; timestamp := 2000 |} 9
      "second ngo" "evidence" GovernanceScenarios.one_open_proposal
    = Ok (2, s') /\
    createVerificationProposal {| sender := 2; timestamp := 3000 |} 9
      "again" "evidence" s' = Err (Revert "Proposal already exists").
Proof.
  destruct (createVerificationProposal {| sender := 3; timestamp := 2000 |} 9
              "second ngo" "evidence" GovernanceScenarios.one_open_proposal)
    as [[pid s']|err] eqn:E.
  - assert (C : 0 <= _proposalIdCounter GovernanceScenarios.one_open_proposal)
      by (vm_compute; intros K; discriminate K).
    pose proof (createVerificationProposal_is_single _ _ _ _ _ _ _ C E) as K.
    cbv zeta in K.
    destruct K as (K1 & _ & _ & _ & _ & _ & _ & _ & _ & _ & _ & _ & _ & K).
    assert (P : pid = 2) by (rewrite K1; vm_compute; reflexivity).
    subst pid. exists s'. split; [reflexivity|apply K].
  - exfalso.
    assert (K : is_ok (createVerificationProposal
                         {| sender := 3; timestamp := 2000 |} 9 "second ngo"
                         "evidence" GovernanceScenarios.one_open_proposal)
                = true) by (vm_compute; reflexivity).
    rewrite E in K. discriminate K.
Defined.
End GovernanceLifecycle.


Module GovernanceInvariants.
Import NGOGovernance GovernanceFacts GovernanceShape GovernanceLifecycle.

Lemma power_nonneg (x : uint256) : 0 <= x -> 0 <= x * VOTE_WEIGHT_BASE / 1000.
Proof.
  intros H. apply Z.div_pos; [|lia]. unfold VOTE_WEIGHT_BASE. lia.
Qed.

(** A state that differs from [s] by one more vote of weight [power] on
    proposal [pid]. *)
Lemma tally_inv_vote (s s1 : State) (pid : uint256) (vt : VoteType)
    (power : uint256) :
  0 <= power -> tally_inv s ->
  _proposalIdCounter s <= _proposalIdCounter s1 ->
  (forall nid, 0 <= ngoVerificationProposals s1 nid <= _proposalIdCounter s1) ->
  userReputations s1 = userReputations s ->
  (forall q, q <> pid -> proposals s1 q = proposals s q) ->
  upvotes (proposals s1 pid) =
    upvotes (proposals s pid) + (match vt with Upvote => power | Downvote => 0 end) ->
  downvotes (proposals s1 pid) =
    downvotes (proposals s pid) + (match vt with Upvote => 0 | Downvote => power end) ->
  totalVotingPower (proposals s1 pid) = totalVotingPower (proposals s pid) + power ->
  tally_inv s1.
Proof.
  intros Hp (I1 & I2 & I3 & I4) Hn Hnvp Hr Ho U D T.
  unfold tally_inv. rewrite Hr. split; [lia|]. split; [exact Hnvp|].
  split; [exact I3|]. intros q. destruct (Z.eq_dec q pid) as [->|N].
  - specialize (I4 pid). rewrite U, D, T. destruct vt; lia.
  - rewrite Ho by exact N. apply I4.
Qed.

Lemma updateReputation_tables (pid : uint256) (s s' : State) :
  (forall b, _updateReputationForSuccess pid b s = Ok s' ->
     ngoVerificationProposals s' = ngoVerificationProposals s) /\
  (_updateReputationForFailure pid s = Ok s' ->
     ngoVerificationProposals s' = ngoVerificationProposals s).
Proof.
  split.
  - intros b H. unfold _updateReputationForSuccess in H. inv_ok.
    rewrite update_voters_loop_id in *. subst. reflexivity.
  - intros H. unfold _updateReputationForFailure in H.
    destruct (_ <? _); inv_ok; subst; reflexivity.
Qed.

Lemma executeProposal_tables (m : Msg) (pid : uint256) (s s' : State) :
  executeProposal m pid s = Ok s' ->
  ngoVerificationProposals s' = ngoVerificationProposals s.
Proof.
  intros H. unfold executeProposal in H. inv_ok. subst. simpl in *.
  match goal with
  | K : (if ?b then _ else _) = Ok ?x |- _ =>
      destruct b; [destruct (proposalType _)|]
  end;
  match goal with
  | K : _updateReputationForSuccess _ _ _ = Ok _ |- _ =>
      apply (proj1 (updateReputation_tables _ _ _)) in K; simpl in K; exact K
  | K : _updateReputationForFailure _ _ = Ok _ |- _ =>
      apply (proj2 (updateReputation_tables _ _ _)) in K; simpl in K; exact K
  end.
Qed.

Lemma exec_tally_inv (m : Msg) (c : Call) (s s' : State) :
  exec m c s = Ok s' -> tally_inv s -> tally_inv s'.
Proof.
  intros H I. pose proof I as (I1 & I2 & I3 & I4).
  destruct c as [nid d e|nid d e|pid vt|pid|user|a|r a|r a]; simpl in H.
  - inv_ok. subst.
    match goal with K : createVerificationProposal _ _ _ _ _ = Ok _ |- _ =>
      unfold createVerificationProposal in K; inv_ok; subst end.
    match goal with K : _castVote _ _ _ _ _ = Ok _ |- _ =>
      apply castVote_internal_state in K; simpl in K; rewrite !upd_same in K;
      simpl in K; subst end.
    simpl in *.
    apply (tally_inv_vote s _ (_proposalIdCounter s + 1) Upvote
             (score (userReputations s (sender m)) * VOTE_WEIGHT_BASE / 1000));
      simpl; rewrite ?upd_same; simpl; auto.
    + apply power_nonneg. apply I3.
    + lia.
    + intros q. unfold upd. destruct (q =? nid); [lia|].
      specialize (I2 q). lia.
    + intros q N. rewrite !upd_other by exact N. reflexivity.
  - inv_ok. subst.
    match goal with K : challengeNGO _ _ _ _ _ = Ok _ |- _ =>
      unfold challengeNGO in K; inv_ok; subst end.
    match goal with K : _castVote _ _ _ _ _ = Ok _ |- _ =>
      apply castVote_internal_state in K; simpl in K; rewrite !upd_same in K;
      simpl in K; subst end.
    simpl in *.
    apply (tally_inv_vote s _ (_proposalIdCounter s + 1) Downvote
             (score (userReputations s (sender m)) * VOTE_WEIGHT_BASE / 1000));
      simpl; rewrite ?upd_same; simpl; auto.
    + apply power_nonneg. apply I3.
    + lia.
    + intros q. specialize (I2 q). lia.
    + intros q N. rewrite !upd_other by exact N. reflexivity.
  - apply castVote_Ok in H. destruct H as (_ & _ & s1 & H & ->).
    apply castVote_internal_state in H. simpl in H. subst.
    apply (tally_inv_vote s _ pid vt
             (score (userReputations s (sender m)) * VOTE_WEIGHT_BASE / 1000));
      simpl; rewrite ?upd_same; simpl; auto.
    + apply power_nonneg. apply I3.
    + lia.
    + intros q N. rewrite !upd_other by exact N. reflexivity.
  - pose proof (executeProposal_tables _ _ _ _ H) as T.
    assert (Sc : forall u, 0 <= score (userReputations s' u)).
    { intros u. pose proof (GovernanceTheorems.exec_score m (ExecuteProposal pid)
                              s s' u H) as K.
      cbv zeta in K. destruct K as (K & _). rewrite K.
      specialize (I3 u). unfold REPUTATION_CHANGE_PER_VOTE.
      destruct (u =? _); [|lia]. destruct (_ <? upvotes _); [lia|].
      destruct (10 <? _) eqn:L; [apply Z.ltb_lt in L|]; lia. }
    apply executeProposal_Ok in H. simpl in H.
    destruct H as (_ & _ & _ & _ & Hp & Hn & _).
    unfold tally_inv. rewrite T, Hn, Hp. split; [lia|]. split; [exact I2|].
    split; [exact Sc|]. intros q. unfold upd.
    destruct (q =? pid) eqn:E; [simpl|]; apply I4.
  - apply initializeReputation_Ok in H. destruct H as (_ & _ & ->).
    unfold tally_inv. simpl. split; [lia|]. split; [exact I2|].
    split; [|exact I4]. intros u. unfold upd.
    destruct (u =? user); [simpl; lia|apply I3].
  - unfold updateNgoRegistry in H. inv_ok. subst. exact I.
  - unfold grantRole in H. inv_ok. subst. exact I.
  - unfold revokeRole in H. inv_ok. subst. exact I.
Qed.

Lemma run_tally_inv (txs : list (Msg * Call)) (s : State) :
  tally_inv s -> tally_inv (run s txs).
Proof.
  revert s. induction txs as [|tx txs IH]; intros s I; [exact I|].
  change (run s (tx :: txs)) with (run (step s tx) txs). apply IH.
  unfold step, commit. destruct (exec (fst tx) (snd tx) s) eqn:E; [|exact I].
  eapply exec_tally_inv; eauto.
Qed.

(** In every reachable state, on every proposal the upvote and downvote
    weights are not negative and add up to the total voting power; every
    score is non-negative; and the verification pointer of an NGO is 0 or
    an id the contract has handed out. *)
Theorem vote_tallies_add_up (s : State) :
  reachable s -> tally_inv s.
Proof.
  intros (d & txs & ->). apply run_tally_inv.
  unfold tally_inv. simpl. repeat split; lia.
Qed.

Lemma vote_tallies_add_up_witness :
  tally_inv GovernanceScenarios.after_49_failures.
Proof.
  apply vote_tallies_add_up.
  exists 1, (GovernanceScenarios.boot ++ GovernanceScenarios.challenges 50
             ++ GovernanceScenarios.executions 49).
  reflexivity.
Defined.

Lemma exec_pointer_kept (m : Msg) (c : Call) (s s' : State) (nid : uint256) :
  exec m c s = Ok s' -> ngoVerificationProposals s nid <> 0 ->
  ngoVerificationProposals s' nid = ngoVerificationProposals s nid.
Proof.
  intros H N.
  destruct c as [n d e|n d e|pid vt|pid|user|a|r a|r a]; simpl in H.
  - inv_ok. subst.
    match goal with K : createVerificationProposal _ _ _ _ _ = Ok _ |- _ =>
      unfold createVerificationProposal in K; inv_ok; subst end.
    match goal with K : _castVote _ _ _ _ _ = Ok _ |- _ =>
      apply castVote_internal_state in K; simpl in K; subst end.
    simpl in *. to_prop. apply upd_other. intros ->. contradiction.
  - inv_ok. subst.
    match goal with K : challengeNGO _ _ _ _ _ = Ok _ |- _ =>
      unfold challengeNGO in K; inv_ok; subst end.
    match goal with K : _castVote _ _ _ _ _ = Ok _ |- _ =>
      apply castVote_internal_state in K; simpl in K; subst end.
    reflexivity.
  - apply castVote_Ok in H. destruct H as (_ & _ & s1 & H & ->).
    apply castVote_internal_state in H. simpl in H. subst. reflexivity.
  - apply executeProposal_tables in H. rewrite H. reflexivity.
  - apply initializeReputation_Ok in H. destruct H as (_ & _ & ->). reflexivity.
  - unfold updateNgoRegistry in H. inv_ok. subst. reflexivity.
  - unfold grantRole in H. inv_ok. subst. reflexivity.
  - unfold revokeRole in H. inv_ok. subst. reflexivity.
Qed.

Lemma run_reachable (s : State) (txs : list (Msg * Call)) :
  reachable s -> reachable (run s txs).
Proof.
  intros (d & t0 & ->). exists d, (t0 ++ txs). unfold run.
  rewrite fold_left_app. reflexivity.
Qed.

(** Once an NGO has a verification proposal, it keeps that very proposal
    for ever: whatever is called afterwards, a new
    [createVerificationProposal] for the NGO is turned down with
    "Proposal already exists", also after the first proposal has been
    executed or rejected. *)
Theorem verification_proposal_is_never_replaced (s : State)
    (txs : list (Msg * Call)) (nid : uint256) :
  reachable s -> ngoVerificationProposals s nid <> 0 ->
  ngoVerificationProposals (run s txs) nid = ngoVerificationProposals s nid /\
  (forall m d e,
     createVerificationProposal m nid d e (run s txs)
     = Err (Revert "Proposal already exists")).
Proof.
  intros R N.
  assert (P : ngoVerificationProposals (run s txs) nid
              = ngoVerificationProposals s nid).
  { clear R. revert s N. induction txs as [|tx txs IH]; intros s N;
      [reflexivity|].
    change (run s (tx :: txs)) with (run (step s tx) txs).
    assert (K : ngoVerificationProposals (step s tx) nid
                = ngoVerificationProposals s nid).
    { unfold step, commit. destruct (exec (fst tx) (snd tx) s) eqn:E;
        [|reflexivity]. eapply exec_pointer_kept; eauto. }
    rewrite IH by congruence. exact K. }
  split; [exact P|]. intros m d e.
  pose proof (reachable_unlocked _ (run_reachable s txs R)) as U.
  unfold createVerificationProposal, nonReentrant. simpl. rewrite U. simpl.
  rewrite P. apply Z.eqb_neq in N. rewrite N. reflexivity.
Qed.

Lemma verification_proposal_is_never_replaced_witness :
  createVerificationProposal {| sender := 3; timestamp := 900000 |} 1
    "retry" "evidence"
    (run GovernanceScenarios.one_open_proposal
       [({| sender := 9; timestamp := 700000 |}, ExecuteProposal 1)])
  = Err (Revert "Proposal already exists").
Proof.
  refine (proj2 (verification_proposal_is_never_replaced
                   GovernanceScenarios.one_open_proposal
                   [({| sender := 9; timestamp := 700000 |}, ExecuteProposal 1)]
                   1 _ _) {| sender := 3; timestamp := 900000 |} "retry"
            "evidence").
  - exists 1, (GovernanceScenarios.boot ++ GovernanceScenarios.verifications 1).
    reflexivity.
  - vm_compute. intros K. discriminate K.
Defined.
End GovernanceInvariants.


Module GovernanceViews.
Import NGOGovernance GovernanceFacts.

(** [canVote] previews [castVote]: when it answers true for the caller
    (and the vote totals have room for the caller's power), the vote is
    accepted. The other way round [castVote] is more permissive than the
    view: it does not look at [executed], so an accepted vote means that
    [canVote] was true unless the proposal had already been executed.
    After the vote [canVote] is false for the voter. *)
Theorem canVote_predicts_castVote (m : Msg) (pid : uint256) (vt : VoteType)
    (s : State) :
  let p := proposals s pid in
  let rep := score (userReputations s (sender m)) in
  let power := rep * VOTE_WEIGHT_BASE / 1000 in
  status s = false ->
  rep * VOTE_WEIGHT_BASE <= MAX_UINT256 ->
  upvotes p + power <= MAX_UINT256 -> downvotes p + power <= MAX_UINT256 ->
  totalVotingPower p + power <= MAX_UINT256 ->
  (canVote m (sender m) pid s = true ->
   exists s', castVote m pid vt s = Ok s') /\
  (forall s', castVote m pid vt s = Ok s' ->
     canVote m (sender m) pid s = negb (executed p) /\
     canVote m (sender m) pid s' = false).
Proof.
  intros p rep power Hs F1 F2 F3 F4. split.
  - intros C. unfold canVote in C. fold rep p in C.
    destruct (rep <? MIN_REPUTATION_TO_VOTE) eqn:A; [discriminate|].
    destruct (executed p); [discriminate|].
    destruct (endTime p <? timestamp m) eqn:B; [discriminate|].
    destruct (hasVoted (votes p (sender m))) eqn:D; [discriminate|].
    to_prop. apply castVote_accepts; auto.
  - intros s' H. apply castVote_Ok in H.
    destruct H as (_ & Hr & s1 & H & ->).
    apply castVote_internal_Ok in H. simpl in H.
    destruct H as (Ht & Hv & _ & Hu & _ & _ & _ & _ & _ & _ & He & Hend & _
                   & _ & _ & _ & _ & Hvote & _).
    unfold canVote. simpl. rewrite Hu. fold rep p.
    assert (A : (rep <? MIN_REPUTATION_TO_VOTE) = false)
      by (apply Z.ltb_ge; exact Hr).
    assert (B : (endTime p <? timestamp m) = false)
      by (apply Z.ltb_ge; exact Ht).
    fold p in Hv. rewrite A, He, Hend. fold p. rewrite B, Hv, Hvote. simpl.
    split; destruct (executed p); reflexivity.
Qed.

Lemma canVote_predicts_castVote_witness :
  exists s',
    castVote (GovernanceScenarios.at_time 3 5000) 1 Downvote
      GovernanceScenarios.one_open_proposal = Ok s'.
Proof.
  refine (proj1 (canVote_predicts_castVote
                   (GovernanceScenarios.at_time 3 5000) 1 Downvote
                   GovernanceScenarios.one_open_proposal _ _ _ _ _) _);
    vm_compute; first [reflexivity | intros K; discriminate K].
Defined.

Lemma exec_score_positive (m : Msg) (c : Call) (s s' : State) (u : address) :
  exec m c s = Ok s' ->
  0 < score (userReputations s u) -> 0 < score (userReputations s' u).
Proof.
  intros H P. pose proof (GovernanceTheorems.exec_score m c s s' u H) as K.
  cbv zeta in K. unfold REPUTATION_CHANGE_PER_VOTE in K.
  destruct c as [nid d e|nid d e|pid vt|pid|user|a|r a|r a];
    try (rewrite K; exact P).
  - destruct K as (K & _). rewrite K.
    destruct (u =? _); [|exact P]. destruct (_ <? upvotes _); [lia|].
    destruct (10 <? _) eqn:L; [apply Z.ltb_lt in L; lia|exact P].
  - destruct K as (_ & K). rewrite K. destruct (u =? user); [lia|exact P].
Qed.

(** A reputation is initialised at most once. A score that is positive
    stays positive whatever is called afterwards (a failed proposal takes
    10 points only from a score above 10), so [initializeReputation]
    fails for that user from then on: a user whose score has dropped
    cannot be reset to 500. *)
Theorem reputation_is_initialized_once (s : State) (u : address)
    (txs : list (Msg * Call)) :
  0 < score (userReputations s u) ->
  0 < score (userReputations (run s txs) u) /\
  (forall m, exists e, initializeReputation m u (run s txs) = Err e) /\
  (forall m, hasRole (run s txs) ADMIN_ROLE (sender m) = true ->
     initializeReputation m u (run s txs)
     = Err (Revert "Reputation already initialized")).
Proof.
  intros P.
  assert (K : 0 < score (userReputations (run s txs) u)).
  { revert s P. induction txs as [|tx txs IH]; intros s P; [exact P|].
    change (run s (tx :: txs)) with (run (step s tx) txs). apply IH.
    unfold step, commit. destruct (exec (fst tx) (snd tx) s) eqn:E; [|exact P].
    eapply exec_score_positive; eauto. }
  split; [exact K|].
  assert (Z0 : (score (userReputations (run s txs) u) =? 0) = false)
    by (apply Z.eqb_neq; lia).
  split.
  - intros m. unfold initializeReputation.
    destruct (onlyRole ADMIN_ROLE m (run s txs)); simpl; [|eauto].
    rewrite Z0. simpl. eauto.
  - intros m Hr. unfold initializeReputation, onlyRole. rewrite Hr. simpl.
    rewrite Z0. reflexivity.
Qed.

Lemma reputation_is_initialized_once_witness :
  initializeReputation (GovernanceScenarios.at_time 1 800000) 2
    (run GovernanceScenarios.after_49_failures []) =
  Err (Revert "Reputation already initialized").
Proof.
  refine (proj2 (proj2 (reputation_is_initialized_once
                          GovernanceScenarios.after_49_failures 2 [] _))
            (GovernanceScenarios.at_time 1 800000) _).
  - vm_compute. reflexivity.
  - vm_compute. reflexivity.
Defined.
End GovernanceViews.

(** ** The NGO registry *)

Module RegistryLifecycle.
Import NGORegistry RegistryShape TokenFacts RegistryFacts.

Ltac to_role :=
  repeat match goal with
  | K : onlyRole _ _ _ = Ok _ |- _ => apply onlyRole_Ok in K
  | K : whenNotPaused _ = Ok _ |- _ => apply whenNotPaused_Ok in K; simpl in K
  | K : NGOStatus_eqb _ _ = true |- _ => apply NGOStatus_eqb_spec in K
  | K : nonempty _ = true |- _ => apply nonempty_spec in K
  end.

Lemma logActivity_Ok (m : Msg) (nid : uint256) (activity : string)
    (s s' : State) :
  logActivity m nid activity s = Ok s' ->
  (hasRole s ADMIN_ROLE (sender m) = true \/
   hasRole s VERIFIER_ROLE (sender m) = true \/
   ngoAddress (ngos s nid) = sender m) /\
  ngoId (ngos s nid) <> 0 /\
  s' = emit (NGOActivityLogged nid activity)
         (with_ngoActivityLogs
            (upd (ngoActivityLogs s) nid (ngoActivityLogs s nid ++ [activity]))
            s).
Proof.
  intros H. unfold logActivity in H. inv_ok. subst. to_prop.
  split; [|split; [assumption|reflexivity]].
  match goal with K : _ || _ = true |- _ =>
    apply orb_true_iff in K; destruct K as [K|K];
    [apply orb_true_iff in K; destruct K as [K|K]; auto
    |apply Z.eqb_eq in K; auto] end.
Qed.

Lemma logActivity_accepts (m : Msg) (nid : uint256) (activity : string)
    (s : State) :
  (hasRole s ADMIN_ROLE (sender m) = true \/
   hasRole s VERIFIER_ROLE (sender m) = true \/
   ngoAddress (ngos s nid) = sender m) ->
  ngoId (ngos s nid) <> 0 ->
  exists s', logActivity m nid activity s = Ok s'.
Proof.
  intros A N. unfold logActivity.
  assert (B : hasRole s ADMIN_ROLE (sender m)
              || hasRole s VERIFIER_ROLE (sender m)
              || (ngoAddress (ngos s nid) =? sender m) = true).
  { destruct A as [A|[A|A]].
    - rewrite A. reflexivity.
    - rewrite A. rewrite orb_true_r. reflexivity.
    - apply Z.eqb_eq in A. rewrite A. apply orb_true_r. }
  rewrite B. simpl. apply Z.eqb_neq in N. rewrite N. simpl. eauto.
Qed.

Lemma registerNGO_Ok (m : Msg) (a : address) (n r co ca k : string)
    (s s' : State) (nid : uint256) :
  registerNGO m a n r co ca k s = Ok (nid, s') ->
  paused s = false /\ a <> zero_address /\ addressToNgoId s a = 0 /\
  n <> EmptyString /\ r <> EmptyString /\
  nid = _ngoIdCounter s + 1 /\
  (hasRole s ADMIN_ROLE (sender m) = true \/
   hasRole s VERIFIER_ROLE (sender m) = true \/ a = sender m) /\
  _ngoIdCounter s' = nid /\
  addressToNgoId s' = upd (addressToNgoId s) a nid /\
  ngos s' =
    upd (ngos s) nid
      {| ngoId := nid; ngoAddress := a; name := n; registrationNumber := r;
         country := co; category := ca; kycDocumentHash := k;
         registeredAt := timestamp m; verifiedAt := 0; status := Pending;
         reputationScore := 500; totalCampaigns := 0; totalFundsRaised := 0;
         totalBeneficiaries := 0; isActive := true |} /\
  adminVerificationFrozen s' = adminVerificationFrozen s /\
  verifiedCount s' = verifiedCount s /\ roles s' = roles s /\
  paused s' = paused s /\
  ngoActivityLogs s' nid = ngoActivityLogs s nid ++ ["NGO registered"].
Proof.
  intros H. unfold registerNGO in H. inv_ok. to_role. to_prop.
  match goal with K : logActivity _ _ _ _ = Ok _ |- _ =>
    apply logActivity_Ok in K; simpl in K; rewrite ?upd_same in K;
    simpl in K; destruct K as (KA & _ & K) end.
  subst. simpl. rewrite ?upd_same. repeat split; auto.
Qed.

Lemma same_index_logged (m : Msg) (nid : uint256) (activity : string)
    (s s1 s' : State) :
  logActivity m nid activity s1 = Ok s' ->
  same_index s s1 -> same_index s s'.
Proof.
  intros H D. apply logActivity_Ok in H. destruct H as (_ & _ & ->).
  exact D.
Qed.

Lemma ngo_move_refl (n : NGO) : ngo_move n n.
Proof. unfold ngo_move. auto 10. Qed.

Lemma same_index_refl (s : State) : same_index s s.
Proof.
  unfold same_index. split; [|split; [|split; [|split]]]; auto.
  intros nid. apply ngo_move_refl.
Qed.

(** A state that differs from [s] in the record of one existing NGO. *)
Lemma same_index_one (s s' : State) (nid : uint256) (n' : NGO) :
  _ngoIdCounter s' = _ngoIdCounter s ->
  addressToNgoId s' = addressToNgoId s ->
  adminVerificationFrozen s' = adminVerificationFrozen s ->
  ngos s' = upd (ngos s) nid n' ->
  ngoId (ngos s nid) <> 0 -> ngo_move (ngos s nid) n' ->
  same_index s s'.
Proof.
  intros Hc Ha Hf Hn Hx Hm. unfold same_index. rewrite Hc, Ha, Hf, Hn.
  split; [|split; [|split; [|split]]]; auto.
  - intros q Hq. apply upd_other. intros ->. contradiction.
  - intros q. unfold upd. destruct (q =? nid) eqn:E; [|apply ngo_move_refl].
    apply Z.eqb_eq in E. subst. exact Hm.
Qed.

Lemma mark_verified_Ok (m : Msg) (nid : uint256) (s s' : State) :
  mark_verified m nid s = Ok s' ->
  _ngoIdCounter s' = _ngoIdCounter s /\
  addressToNgoId s' = addressToNgoId s /\
  adminVerificationFrozen s' = adminVerificationFrozen s /\
  roles s' = roles s /\
  verifiedCount s' = verifiedCount s + 1 /\
  ngoActivityLogs s' = ngoActivityLogs s /\
  ngos s' = upd (ngos s) nid
              (with_verifiedAt (timestamp m)
                 (with_ngo_status Verified (ngos s nid))).
Proof.
  intros H. unfold mark_verified in H. inv_ok. subst. simpl. auto 10.
Qed.

Lemma exec_same_index (g : NGOGovernance.State) (m : Msg) (c : Call)
    (s s' : State) :
  exec g m c s = Ok s' ->
  match c with
  | RegisterNGO _ _ _ _ _ _ => True
  | _ => same_index s s'
  end.
Proof.
  intros H.
  destruct c as [a n r co ca k|nid|nid|nid reason|nid reason|nid reason
                |nid reason|nid x|nid cc f b|nid act| | | |r a|r a];
    simpl in H; [exact I|..].
  - unfold verifyNGO in H. inv_ok. to_role. to_prop.
    eapply same_index_logged; [eassumption|].
    match goal with K : mark_verified _ _ _ = Ok _ |- _ =>
      apply mark_verified_Ok in K;
      destruct K as (K1 & K2 & K3 & _ & _ & _ & K4) end.
    eapply same_index_one; eauto.
    unfold ngo_move. simpl. auto 10.
  - unfold verifyNGOThroughGovernance, NGOGovernance.userReputations_getter
      in H. inv_ok. to_role. to_prop.
    eapply same_index_logged; [eassumption|].
    match goal with K : mark_verified _ _ _ = Ok _ |- _ =>
      apply mark_verified_Ok in K;
      destruct K as (K1 & K2 & K3 & _ & _ & _ & K4) end.
    eapply same_index_one; eauto.
    unfold ngo_move. simpl. auto 10.
  - unfold rejectNGO in H. inv_ok. to_role. to_prop.
    eapply same_index_logged; [eassumption|].
    eapply same_index_one; simpl; eauto.
    unfold ngo_move. simpl. auto 10.
  - unfold suspendNGO in H. inv_ok. to_role. to_prop.
    eapply same_index_logged; [eassumption|].
    eapply same_index_one; simpl; eauto.
    unfold ngo_move. simpl. auto 10.
  - apply suspendNGOThroughGovernance_Ok in H.
    destruct H as (Hx & Hs & _ & H).
    eapply same_index_logged; [eassumption|].
    eapply same_index_one; simpl; eauto.
    unfold ngo_move. simpl. auto 10.
  - unfold blacklistNGO in H. inv_ok. to_role. to_prop.
    eapply same_index_logged; [eassumption|].
    eapply same_index_one; simpl; eauto.
    unfold ngo_move. simpl. auto 10.
  - unfold updateReputation in H. inv_ok. to_role. to_prop. subst.
    eapply same_index_one; simpl; eauto.
    unfold ngo_move. simpl. auto 10.
  - unfold updateStatistics in H. inv_ok. to_role. to_prop. subst.
    eapply same_index_one; simpl; eauto.
    unfold ngo_move. simpl. auto 10.
  - eapply same_index_logged; [eassumption|]. apply same_index_refl.
  - unfold freezeAdminVerification in H. inv_ok. subst.
    unfold same_index. simpl. split; [|split; [|split; [|split]]]; auto.
    intros q. apply ngo_move_refl.
  - unfold pause in H. inv_ok. subst. exact (same_index_refl s).
  - unfold unpause in H. inv_ok. subst. exact (same_index_refl s).
  - unfold grantRole in H. inv_ok. subst. exact (same_index_refl s).
  - unfold revokeRole in H. inv_ok. subst. exact (same_index_refl s).
Qed.

Lemma registry_inv_same_index (s s' : State) :
  same_index s s' -> registry_inv s -> registry_inv s'.
Proof.
  intros (Hc & Ha & _ & Hz & Hm) (I1 & I2 & I3 & I4).
  unfold registry_inv, registered in *. rewrite Hc, Ha.
  split; [exact I1|]. split; [|split].
  - intros nid R. destruct (I2 nid R) as (J1 & J2 & J3 & J4).
    destruct (Hm nid) as (M1 & M2 & M3 & M4).
    rewrite M1, M2. split; [exact J1|]. split; [|split; [|exact J4]].
    + destruct M3 as [M3|M3]; [rewrite M3; exact J2|exact M3].
    + destruct M4 as [(M4 & M5)|[(M4 & M5 & M6)|(M4 & M5)]].
      * rewrite M4, M5. exact J3.
      * rewrite M6, J3, M4. destruct M5 as [M5|M5]; rewrite M5; reflexivity.
      * rewrite M4. destruct M5 as [M5|(_ & M5)]; rewrite M5; reflexivity.
  - intros nid R. specialize (I3 nid R). rewrite Hz; [exact I3|].
    rewrite I3. reflexivity.
  - intros a N. destruct (I4 a N) as (J1 & J2). split; [exact J1|].
    destruct (Hm (addressToNgoId s a)) as (_ & M2 & _). congruence.
Qed.

Lemma registry_inv_register (m : Msg) (a : address) (n r co ca k : string)
    (s s' : State) (nid : uint256) :
  registerNGO m a n r co ca k s = Ok (nid, s') ->
  registry_inv s -> registry_inv s'.
Proof.
  intros H (I1 & I2 & I3 & I4). apply registerNGO_Ok in H.
  destruct H as (_ & Ha & Hz & _ & _ & -> & _ & Hc & Hi & Hn & _).
  unfold registry_inv, registered in *. rewrite Hc, Hi, Hn.
  split; [lia|]. split; [|split].
  - intros q R. destruct (Z.eq_dec q (_ngoIdCounter s + 1)) as [->|N].
    + rewrite !upd_same. simpl. rewrite ?upd_same.
      repeat split; auto. lia.
    + rewrite !upd_other by exact N.
      destruct (I2 q ltac:(lia)) as (J1 & J2 & J3 & J4).
      repeat split; auto. rewrite upd_other; [exact J4|].
      intros K. rewrite K in J4. lia.
  - intros q R. rewrite upd_other by lia. apply I3. lia.
  - intros x. destruct (Z.eq_dec x a) as [->|N].
    + rewrite !upd_same. intros _. simpl. split; [lia|reflexivity].
    + rewrite !upd_other by exact N. intros K.
      destruct (I4 x K) as (J1 & J2). split; [lia|].
      rewrite upd_other by lia. exact J2.
Qed.

Lemma exec_registry_inv (g : NGOGovernance.State) (m : Msg) (c : Call)
    (s s' : State) :
  exec g m c s = Ok s' -> registry_inv s -> registry_inv s'.
Proof.
  intros H I. pose proof (exec_same_index g m c s s' H) as D.
  destruct c; try (eapply registry_inv_same_index; eassumption).
  simpl in H. inv_ok. subst. eapply registry_inv_register; eauto.
Qed.

(** A property of the registry that every registry call keeps holds
    along every run of the system from a state where it holds. *)
Lemma world_run_reg (P : State -> Prop) :
  (forall g m c s s', exec g m c s = Ok s' -> P s -> P s') ->
  forall txs w, P (World.reg w) -> P (World.reg (World.run w txs)).
Proof.
  intros Step txs. induction txs as [|tx txs IH]; intros w Hw; [exact Hw|].
  change (World.run w (tx :: txs)) with (World.run (World.step w tx) txs).
  apply IH. unfold World.step, commit.
  destruct (World.exec tx w) as [w'|e] eqn:E; [|exact Hw].
  unfold World.exec in E.
  destruct (World.tx_call tx) as [c|c|c|c]; inv_ok; subst; simpl;
    try exact Hw.
  - eapply Step; eauto.
  - destruct c; simpl in E; inv_ok; subst; simpl; exact Hw.
Qed.

Lemma reachable_registry_inv (w : World.State) :
  World.reachable w -> registry_inv (World.reg w).
Proof.
  intros (d & f & c & txs & ->).
  apply (world_run_reg registry_inv exec_registry_inv).
  unfold registry_inv, registered. simpl.
  split; [lia|]. split; [intros; lia|]. split; [reflexivity|].
  intros a N. contradiction.
Qed.

Lemma exec_out_at (nid : uint256) (a : address) (g : NGOGovernance.State)
    (m : Msg) (c : Call) (s s' : State) :
  exec g m c s = Ok s' -> out_at nid a s -> out_at nid a s'.
Proof.
  intros H (I & O & A). split; [eapply exec_registry_inv; eauto|].
  pose proof (exec_same_index g m c s s' H) as D.
  destruct c as [b n r co ca k|q|q|q reason|q reason|q reason
                |q reason|q x|q cc f b|q act| | | |r b|r b];
    try (destruct D as (_ & _ & _ & _ & D); destruct (D nid) as (_ & M2 & _ & M4);
         split; [|congruence];
         destruct M4 as [(M4 & _)|[(M4 & _)|(_ & M4)]];
         [ rewrite M4; exact O
         | rewrite M4 in O; discriminate O
         | destruct M4 as [M4|(_ & M4)]; rewrite M4; reflexivity ]).
  simpl in H. inv_ok. subst.
  match goal with K : registerNGO _ _ _ _ _ _ _ _ = Ok _ |- _ =>
    apply registerNGO_Ok in K;
    destruct K as (_ & _ & _ & _ & _ & -> & _ & _ & _ & Hn & _) end.
  rewrite Hn.
  assert (N : nid <> _ngoIdCounter s + 1).
  { intros ->. destruct I as (I1 & _ & I3 & _).
    rewrite I3 in O; [discriminate O|]. unfold registered. lia. }
  rewrite upd_other by exact N. auto.
Qed.

Lemma exec_frozen_kept (g : NGOGovernance.State) (m : Msg) (c : Call)
    (s s' : State) :
  exec g m c s = Ok s' ->
  adminVerificationFrozen s = true -> adminVerificationFrozen s' = true.
Proof.
  intros H F. pose proof (exec_same_index g m c s s' H) as D.
  destruct c; try (destruct D as (_ & _ & D & _); exact (D F)).
  simpl in H. inv_ok. subst.
  match goal with K : registerNGO _ _ _ _ _ _ _ _ = Ok _ |- _ =>
    apply registerNGO_Ok in K;
    destruct K as (_ & _ & _ & _ & _ & _ & _ & _ & _ & _ & K & _) end.
  congruence.
Qed.

Lemma verifyNGOThroughGovernance_Ok (g : NGOGovernance.State) (m : Msg)
    (nid : uint256) (s s' : State) :
  verifyNGOThroughGovernance g m nid s = Ok s' ->
  let rep := NGOGovernance.score (NGOGovernance.userReputations g (sender m)) in
  ngoId (ngos s nid) <> 0 /\ status (ngos s nid) = Pending /\
  (if adminVerificationFrozen s then 100 <= rep
   else hasRole s VERIFIER_ROLE (sender m) = true \/ 100 <= rep) /\
  (hasRole s ADMIN_ROLE (sender m) = true \/
   hasRole s VERIFIER_ROLE (sender m) = true \/
   ngoAddress (ngos s nid) = sender m) /\
  ngos s' = upd (ngos s) nid
              (with_verifiedAt (timestamp m)
                 (with_ngo_status Verified (ngos s nid))) /\
  verifiedCount s' = verifiedCount s + 1 /\
  addressToNgoId s' = addressToNgoId s /\
  ngoActivityLogs s' nid =
    ngoActivityLogs s nid ++ ["NGO verified through governance"].
Proof.
  intros H. cbv zeta.
  unfold verifyNGOThroughGovernance, NGOGovernance.userReputations_getter in H.
  inv_ok. to_role. to_prop.
  match goal with K : mark_verified _ _ _ = Ok _ |- _ =>
    apply mark_verified_Ok in K;
    destruct K as (K1 & K2 & K3 & K5 & K6 & K7 & K4) end.
  match goal with K : logActivity _ _ _ _ = Ok _ |- _ =>
    apply logActivity_Ok in K; destruct K as (KA & _ & ->) end.
  simpl. rewrite upd_same, K7.
  unfold hasRole in *. simpl in *. rewrite K5, K4, upd_same in KA. simpl in KA.
  repeat split; auto; try congruence.
  destruct (adminVerificationFrozen s); inv_ok; to_prop; auto.
  match goal with K : _ || _ = true |- _ =>
    apply orb_true_iff in K; destruct K as [K|K]; [left; exact K|right] end.
  to_prop. assumption.
Qed.
End RegistryLifecycle.

Module RegistryProperties.
Import NGORegistry RegistryShape RegistryLifecycle TokenFacts RegistryFacts.

(** In every reachable state of the system, NGO ids run from 1 to the
    counter, every registered NGO has a score of at most 1000 and is
    inactive exactly when it is Suspended or Blacklisted, and the address
    index and the NGO table point at each other. *)
Theorem ngo_directory_is_consistent (w : World.State) :
  World.reachable w -> registry_inv (World.reg w).
Proof.
  intros (d & f & c & txs & ->).
  apply (world_run_reg registry_inv).
  - intros g m call s s' E I. destruct call;
      try (eapply registry_inv_same_index;
           [exact (exec_same_index _ _ _ _ _ E)|exact I]).
    simpl in E. inv_ok. subst. eapply registry_inv_register; eauto.
  - unfold registry_inv, registered. simpl.
    split; [lia|]. split; [intros; lia|]. split; [reflexivity|].
    intros a N. contradiction.
Qed.

Lemma ngo_directory_is_consistent_witness :
  registry_inv (World.reg RegistryScenarios.suspended).
Proof.
  apply ngo_directory_is_consistent.
  unfold RegistryScenarios.suspended. apply WorldFacts.world_step_reachable.
  apply WorldFacts.world_run_reachable.
Defined.

(** An NGO that has been rejected, suspended or blacklisted never gets
    back: after any further sequence of transactions its status is still
    one of these three, [isNGOVerified] is false for its address, and
    [createCampaign] fails for it. *)
Theorem struck_off_ngo_never_returns (w : World.State) (nid : uint256)
    (txs : list World.Tx) :
  World.reachable w ->
  struck_off (status (ngos (World.reg w) nid)) = true ->
  let r := World.reg (World.run w txs) in
  let a := ngoAddress (ngos (World.reg w) nid) in
  struck_off (status (ngos r nid)) = true /\
  isNGOVerified r a = false /\
  (forall m ti d ca target duration docs f,
     sender m = a ->
     exists e,
       CampaignFactory.createCampaign r m ti d ca target duration docs f
       = Err e).
Proof.
  intros R O r a.
  assert (K : out_at nid a r).
  { apply (world_run_reg (out_at nid a) (exec_out_at nid a)).
    split; [apply reachable_registry_inv; exact R|]. auto. }
  destruct K as ((I1 & I2 & I3 & I4) & K2 & K3).
  assert (V : isNGOVerified r a = false).
  { unfold isNGOVerified.
    assert (Rg : registered r nid).
    { destruct (Z_le_dec 1 nid) as [L1|L1];
        [destruct (Z_le_dec nid (_ngoIdCounter r)) as [L2|L2]|];
        [split; assumption| |];
        (rewrite I3 in K2; [discriminate K2|unfold registered; lia]). }
    destruct (I2 nid Rg) as (_ & _ & _ & J4). rewrite K3 in J4. rewrite J4.
    unfold registered in Rg.
    destruct (nid =? 0) eqn:Z0; [reflexivity|].
    destruct (status (ngos r nid)); try discriminate K2; reflexivity. }
  split; [exact K2|]. split; [exact V|].
  intros m ti d ca target duration docs f Hm.
  unfold CampaignFactory.createCampaign.
  destruct (whenNotPaused f) as [u|e]; simpl; [|eauto].
  rewrite Hm, V. simpl. eauto.
Qed.

Lemma struck_off_ngo_never_returns_witness :
  isNGOVerified
    (World.reg
       (World.run RegistryScenarios.suspended
          [WorldScenarios.tx 1 300 (World.Registry (VerifyNGO 1))]))
    (ngoAddress (ngos (World.reg RegistryScenarios.suspended) 1)) = false.
Proof.
  refine (proj1 (proj2 (struck_off_ngo_never_returns
                          RegistryScenarios.suspended 1
                          [WorldScenarios.tx 1 300 (World.Registry (VerifyNGO 1))]
                          _ _))).
  - unfold RegistryScenarios.suspended. apply WorldFacts.world_step_reachable.
    apply WorldFacts.world_run_reachable.
  - vm_compute. reflexivity.
Defined.

(** [registerNGO] ends by logging the registration through
    [logActivity], which only admins, verifiers and the NGO's own address
    may call. So a registration succeeds only when the caller holds one
    of the two roles or registers its own address; for any other caller
    an otherwise valid registration fails with "Not authorized". The
    new NGO gets the next id, status Pending, score 500, and is active. *)
Theorem registerNGO_needs_authorized_caller (m : Msg) (a : address)
    (n r co ca k : string) (s : State) :
  (forall nid s',
     registerNGO m a n r co ca k s = Ok (nid, s') ->
     (hasRole s ADMIN_ROLE (sender m) = true \/
      hasRole s VERIFIER_ROLE (sender m) = true \/ a = sender m) /\
     nid = _ngoIdCounter s + 1 /\ addressToNgoId s' a = nid /\
     status (ngos s' nid) = Pending /\ reputationScore (ngos s' nid) = 500 /\
     isActive (ngos s' nid) = true /\ ngoAddress (ngos s' nid) = a) /\
  (paused s = false -> a <> zero_address -> addressToNgoId s a = 0 ->
   n <> EmptyString -> r <> EmptyString ->
   0 <= _ngoIdCounter s < MAX_UINT256 ->
   hasRole s ADMIN_ROLE (sender m) = false ->
   hasRole s VERIFIER_ROLE (sender m) = false -> a <> sender m ->
   registerNGO m a n r co ca k s = Err (Revert "Not authorized")).
Proof.
  split.
  - intros nid s' H. apply registerNGO_Ok in H.
    destruct H as (_ & _ & _ & _ & _ & -> & A & Hc & Hi & Hn & _).
    rewrite Hi, Hn, !upd_same. simpl. auto 10.
  - intros Hp Ha Hz Hn Hr Hc A1 A2 A3.
    unfold registerNGO, whenNotPaused. simpl. rewrite Hp. simpl.
    apply Z.eqb_neq in Ha. rewrite Ha. simpl.
    apply Z.eqb_eq in Hz. rewrite Hz. simpl.
    apply nonempty_spec in Hn, Hr. rewrite Hn, Hr. simpl.
    rewrite checked_add_fits by lia. simpl.
    unfold logActivity. simpl. unfold hasRole in *. simpl in *.
    rewrite A1, A2, upd_same. simpl.
    apply Z.eqb_neq in A3. rewrite A3. reflexivity.
Qed.

Lemma registerNGO_needs_authorized_caller_witness :
  registerNGO {| sender := 5; timestamp := 300 |} 6 "Other NGO" "REG6" "IN"
    "Food" "QmKyc" (World.reg WorldScenarios.funded)
  = Err (Revert "Not authorized").
Proof.
  refine (proj2 (registerNGO_needs_authorized_caller
                   {| sender := 5; timestamp := 300 |} 6 "Other NGO" "REG6"
                   "IN" "Food" "QmKyc" (World.reg WorldScenarios.funded))
            _ _ _ _ _ _ _ _ _);
    vm_compute; repeat split;
    first [reflexivity | intros K; discriminate K].
Defined.

(** [verifyNGOThroughGovernance] checks the caller's governance score
    (at least 100, or the verifier role while admin verification is not
    frozen) and then logs through [logActivity]: a successful call
    therefore also needs the caller to be an admin, a verifier or the NGO
    itself. A voter with any score who is none of these is turned down
    with "Not authorized". A successful call makes the NGO Verified at
    the current time and counts it. *)
Theorem verifyNGOThroughGovernance_outcome (g : NGOGovernance.State)
    (m : Msg) (nid : uint256) (s : State) :
  let rep := NGOGovernance.score (NGOGovernance.userReputations g (sender m)) in
  (forall s', verifyNGOThroughGovernance g m nid s = Ok s' ->
     ngoId (ngos s nid) <> 0 /\ status (ngos s nid) = Pending /\
     (if adminVerificationFrozen s then 100 <= rep
      else hasRole s VERIFIER_ROLE (sender m) = true \/ 100 <= rep) /\
     (hasRole s ADMIN_ROLE (sender m) = true \/
      hasRole s VERIFIER_ROLE (sender m) = true \/
      ngoAddress (ngos s nid) = sender m) /\
     status (ngos s' nid) = Verified /\
     verifiedAt (ngos s' nid) = timestamp m /\
     isActive (ngos s' nid) = isActive (ngos s nid) /\
     verifiedCount s' = verifiedCount s + 1) /\
  (ngoId (ngos s nid) <> 0 -> status (ngos s nid) = Pending ->
   100 <= rep -> verifiedCount s < MAX_UINT256 ->
   hasRole s ADMIN_ROLE (sender m) = false ->
   hasRole s VERIFIER_ROLE (sender m) = false ->
   ngoAddress (ngos s nid) <> sender m ->
   verifyNGOThroughGovernance g m nid s = Err (Revert "Not authorized")).
Proof.
  intros rep. split.
  - intros s' H. apply verifyNGOThroughGovernance_Ok in H. cbv zeta in H.
    destruct H as (H1 & H2 & H3 & H4 & H5 & H6 & _).
    rewrite H5, upd_same. simpl. auto 10.
  - intros Hx Hs Hr Hc A1 A2 A3.
    unfold verifyNGOThroughGovernance, NGOGovernance.userReputations_getter.
    apply Z.eqb_neq in Hx. rewrite Hx. simpl. rewrite Hs. simpl.
    fold rep. apply Z.leb_le in Hr. rewrite Hr.
    rewrite orb_true_r.
    assert (Q : (if adminVerificationFrozen s
                 then require true "Governance-only: insufficient reputation"
                 else require true "Not authorized") = Ok tt)
      by (destruct (adminVerificationFrozen s); reflexivity).
    rewrite Q. simpl. unfold mark_verified. simpl.
    rewrite checked_add_fits by lia. simpl.
    unfold logActivity. simpl. unfold hasRole in *. simpl in *.
    rewrite A1, A2, upd_same. simpl.
    apply Z.eqb_neq in A3. rewrite A3. reflexivity.
Qed.

Lemma verifyNGOThroughGovernance_outcome_witness :
  verifyNGOThroughGovernance
    (NGOGovernance.run (NGOGovernance.constructor 1)
       [({| sender := 1; timestamp := 100 |}, NGOGovernance.GrantRole ADMIN_ROLE 1);
        ({| sender := 1; timestamp := 100 |}, NGOGovernance.InitializeReputation 5)])
    {| sender := 5; timestamp := 400 |} 2
    (World.reg
       (World.step WorldScenarios.funded
          (WorldScenarios.tx 6 300
             (World.Registry (RegisterNGO 6 "Other NGO" "REG6" "IN" "Food"
                                "QmKyc")))))
  = Err (Revert "Not authorized").
Proof.
  refine (proj2 (verifyNGOThroughGovernance_outcome _ _ _ _) _ _ _ _ _ _ _);
    vm_compute; repeat split;
    first [reflexivity | intros K; discriminate K].
Defined.

(** Freezing admin verification cannot be undone: once the flag is set it
    stays set whatever is called afterwards, [verifyNGO] fails for every
    caller and NGO, a second freeze fails, and verification through
    governance needs a governance score of at least 100. *)
Theorem admin_verification_freeze_is_permanent (w : World.State)
    (txs : list World.Tx) :
  adminVerificationFrozen (World.reg w) = true ->
  let r := World.reg (World.run w txs) in
  adminVerificationFrozen r = true /\
  (forall m nid, exists e, verifyNGO m nid r = Err e) /\
  (forall m, exists e, freezeAdminVerification m r = Err e) /\
  (forall g m nid s',
     verifyNGOThroughGovernance g m nid r = Ok s' ->
     100 <= NGOGovernance.score (NGOGovernance.userReputations g (sender m))).
Proof.
  intros F r.
  assert (K : adminVerificationFrozen r = true).
  { apply (world_run_reg (fun s => adminVerificationFrozen s = true)
             exec_frozen_kept). exact F. }
  split; [exact K|]. split; [|split].
  - intros m nid. destruct (verifyNGO m nid r) as [s'|e] eqn:E; [|eauto].
    exfalso. unfold verifyNGO in E. inv_ok. to_prop. congruence.
  - intros m. destruct (freezeAdminVerification m r) as [s'|e] eqn:E; [|eauto].
    exfalso. unfold freezeAdminVerification in E. inv_ok. to_prop. congruence.
  - intros g m nid s' E. apply verifyNGOThroughGovernance_Ok in E.
    cbv zeta in E. destruct E as (_ & _ & E & _). rewrite K in E. exact E.
Qed.

Lemma admin_verification_freeze_is_permanent_witness :
  adminVerificationFrozen
    (World.reg
       (World.run RegistryScenarios.frozen
          [WorldScenarios.tx 1 300 (World.Registry Unpause)])) = true.
Proof.
  refine (proj1 (admin_verification_freeze_is_permanent
                   RegistryScenarios.frozen
                   [WorldScenarios.tx 1 300 (World.Registry Unpause)] _)).
  vm_compute. reflexivity.
Defined.
End RegistryProperties.

(** ** The service provider registry *)

Module ProviderFacts.
Import ServiceProviderRegistry ProviderShape TokenFacts.

Lemma ProviderStatus_eqb_spec (a b : ProviderStatus) :
  ProviderStatus_eqb a b = true <-> a = b.
Proof. destruct a, b; simpl; split; intros H; congruence. Qed.

Lemma registerProvider_Ok (m : Msg) (a : address) (n r st l d : string)
    (s s' : State) (pid : uint256) :
  registerProvider m a n r st l d s = Ok (pid, s') ->
  paused s = false /\ a <> zero_address /\ addressToProviderId s a = 0 /\
  pid = _providerIdCounter s + 1 /\
  s' = emit (ProviderRegistered pid a n)
         (with_addressToProviderId (upd (addressToProviderId s) a pid)
            (with_providers
               (upd (providers s) pid
                  {| providerId := pid; providerAddress := a; name := n;
                     registrationNumber := r; serviceType := st;
                     location := l; verificationDocHash := d;
                     registeredAt := timestamp m; verifiedAt := 0;
                     status := Pending; totalRedemptions := 0;
                     totalAmountRedeemed := 0; isActive := true |})
               (with_providerIdCounter pid s))).
Proof.
  intros H. unfold registerProvider in H. inv_ok.
  match goal with K : whenNotPaused _ = Ok _ |- _ =>
    apply whenNotPaused_Ok in K; simpl in K end.
  to_prop. subst. repeat split; auto.
Qed.

Lemma verifyProvider_Ok (m : Msg) (pid : uint256) (s s' : State) :
  verifyProvider m pid s = Ok s' ->
  hasRole s VERIFIER_ROLE (sender m) = true /\
  providerId (providers s pid) <> 0 /\ status (providers s pid) = Pending /\
  s' = emit (ProviderStatusChanged pid Pending Verified)
         (emit (ProviderVerified pid)
            (with_providers
               (upd (providers s) pid (verified_at (timestamp m) (providers s pid)))
               s)).
Proof.
  intros H. unfold verifyProvider in H. inv_ok.
  match goal with K : onlyRole _ _ _ = Ok _ |- _ => apply onlyRole_Ok in K end.
  match goal with K : ProviderStatus_eqb _ _ = true |- _ =>
    apply ProviderStatus_eqb_spec in K end.
  to_prop. subst.
  match goal with K : status _ = Pending |- _ => rewrite K end.
  repeat split; auto.
Qed.

Lemma recordRedemption_Ok (m : Msg) (pid amount : uint256) (s s' : State) :
  recordRedemption m pid amount s = Ok s' ->
  hasRole s ADMIN_ROLE (sender m) = true /\
  providerId (providers s pid) <> 0 /\
  s' = emit (RedemptionRecorded pid amount)
         (with_providers
            (upd (providers s) pid
               (with_redemptions (totalRedemptions (providers s pid) + 1)
                  (totalAmountRedeemed (providers s pid) + amount)
                  (providers s pid))) s).
Proof.
  intros H. unfold recordRedemption in H. inv_ok.
  match goal with K : onlyRole _ _ _ = Ok _ |- _ => apply onlyRole_Ok in K end.
  to_prop. subst. repeat split; auto.
Qed.

Lemma same_directory_refl (s : State) : same_directory s s.
Proof. unfold same_directory. auto 10. Qed.

Lemma exec_same_directory (m : Msg) (c : Call) (s s' : State) :
  exec m c s = Ok s' ->
  match c with
  | RegisterProvider _ _ _ _ _ _ => True
  | _ => same_directory s s'
  end.
Proof.
  intros H. destruct c as [a n r st l d|pid|pid amount| | |r a|r a];
    simpl in H; [exact I| | | | | |].
  - apply verifyProvider_Ok in H. destruct H as (_ & Hx & Hp & ->).
    unfold same_directory. simpl.
    split; [reflexivity|]. split; [reflexivity|]. split.
    + intros q Hq. apply upd_other. intros ->. contradiction.
    + intros q. unfold upd. destruct (q =? pid) eqn:E; [|auto 10].
      apply Z.eqb_eq in E. subst. simpl. auto 10.
  - apply recordRedemption_Ok in H. destruct H as (_ & Hx & ->).
    unfold same_directory. simpl.
    split; [reflexivity|]. split; [reflexivity|]. split.
    + intros q Hq. apply upd_other. intros ->. contradiction.
    + intros q. unfold upd. destruct (q =? pid) eqn:E; [|auto 10].
      apply Z.eqb_eq in E. subst. simpl. auto 10.
  - unfold pause in H. inv_ok. subst. unfold same_directory. simpl. auto 10.
  - unfold unpause in H. inv_ok. subst. unfold same_directory. simpl. auto 10.
  - unfold grantRole in H. inv_ok. subst. unfold same_directory. simpl. auto 10.
  - unfold revokeRole in H. inv_ok. subst. unfold same_directory. simpl. auto 10.
Qed.

Lemma provider_inv_same_directory (s s' : State) :
  same_directory s s' -> provider_inv s -> provider_inv s'.
Proof.
  intros (Hc & Ha & Hz & Hp) (I1 & I2 & I3 & I4).
  unfold provider_inv, registered in *. rewrite Hc, Ha.
  split; [exact I1|]. split; [|split].
  - intros pid R. destruct (I2 pid R) as (J1 & J2 & J3 & J4).
    destruct (Hp pid) as (P1 & P2 & P3 & P4).
    rewrite P1, P2, P3. repeat split; auto.
    destruct P4 as [P4|(_ & P4)]; rewrite P4; auto.
  - intros pid R. specialize (I3 pid R). rewrite Hz; [exact I3|].
    rewrite I3. reflexivity.
  - intros a N. destruct (I4 a N) as (J1 & J2). split; [exact J1|].
    destruct (Hp (addressToProviderId s a)) as (_ & P2 & _). congruence.
Qed.

Lemma provider_inv_register (m : Msg) (a : address) (n r st l d : string)
    (s s' : State) (pid : uint256) :
  registerProvider m a n r st l d s = Ok (pid, s') ->
  provider_inv s -> provider_inv s'.
Proof.
  intros H (I1 & I2 & I3 & I4). apply registerProvider_Ok in H.
  destruct H as (_ & Ha & Hz & -> & ->).
  unfold provider_inv, registered in *. simpl.
  split; [lia|]. split; [|split].
  - intros q R. destruct (Z.eq_dec q (_providerIdCounter s + 1)) as [->|N].
    + rewrite !upd_same. simpl. rewrite ?upd_same. auto.
    + rewrite !upd_other by exact N.
      destruct (I2 q ltac:(lia)) as (J1 & J2 & J3 & J4).
      repeat split; auto. rewrite upd_other; [exact J4|].
      intros K. rewrite K in J4. lia.
  - intros q R. rewrite upd_other by lia. apply I3. lia.
  - intros x. destruct (Z.eq_dec x a) as [->|N].
    + rewrite !upd_same. intros _. simpl. split; [lia|reflexivity].
    + rewrite !upd_other by exact N. intros K.
      destruct (I4 x K) as (J1 & J2). split; [lia|].
      rewrite upd_other by lia. exact J2.
Qed.

Lemma exec_provider_inv (m : Msg) (c : Call) (s s' : State) :
  exec m c s = Ok s' -> provider_inv s -> provider_inv s'.
Proof.
  intros H I. pose proof (exec_same_directory m c s s' H) as D.
  destruct c; try (eapply provider_inv_same_directory; eassumption).
  simpl in H. inv_ok. subst. eapply provider_inv_register; eauto.
Qed.

Lemma run_provider_inv (txs : list (Msg * Call)) (s : State) :
  provider_inv s -> provider_inv (run s txs).
Proof.
  revert s. induction txs as [|tx txs IH]; intros s I; [exact I|].
  change (run s (tx :: txs)) with (run (step s tx) txs). apply IH.
  unfold step, commit. destruct (exec (fst tx) (snd tx) s) eqn:E; [|exact I].
  eapply exec_provider_inv; eauto.
Qed.

Lemma reachable_provider_inv (s : State) : reachable s -> provider_inv s.
Proof.
  intros (d & txs & ->). apply run_provider_inv.
  unfold provider_inv, registered. simpl.
  split; [lia|]. split; [intros; lia|]. split; [reflexivity|].
  intros a N. contradiction.
Qed.

(** A verified provider stays verified across one successful call. *)
Lemma exec_verified_kept (m : Msg) (c : Call) (s s' : State) (a : address) :
  exec m c s = Ok s' -> provider_inv s ->
  isProviderVerified s a = true -> isProviderVerified s' a = true.
Proof.
  intros H (I1 & I2 & I3 & I4) V. unfold isProviderVerified in *.
  destruct (addressToProviderId s a =? 0) eqn:Z0; [discriminate|].
  apply Z.eqb_neq in Z0. destruct (I4 a Z0) as (R & _).
  unfold registered in R.
  pose proof (exec_same_directory m c s s' H) as D.
  destruct c as [b n r st l d|pid|pid amount| | |r b|r b];
    try (destruct D as (_ & Da & _ & Dp); rewrite Da;
         apply Z.eqb_neq in Z0; rewrite Z0;
         destruct (Dp (addressToProviderId s a)) as (_ & _ & P3 & P4);
         rewrite P3; apply andb_true_iff in V; destruct V as (V1 & V2);
         apply ProviderStatus_eqb_spec in V1;
         destruct P4 as [P4|(P4 & _)]; [rewrite P4, V1, V2; reflexivity
                                       |congruence]).
  simpl in H. inv_ok. subst.
  match goal with K : registerProvider _ _ _ _ _ _ _ _ = Ok _ |- _ =>
    apply registerProvider_Ok in K; destruct K as (_ & _ & Hz & -> & ->) end.
  simpl. assert (N : a <> b) by (intros ->; contradiction).
  rewrite upd_other by exact N. apply Z.eqb_neq in Z0. rewrite Z0.
  rewrite upd_other by lia. exact V.
Qed.
End ProviderFacts.

Module ProviderTheorems.
Import ServiceProviderRegistry ProviderShape ProviderFacts.

(** In every reachable state of the provider registry, ids run from 1 to
    the counter, every registered provider is active and either Pending
    or Verified (no entry point rejects, suspends or deactivates a
    provider), and the address index and the provider table point at
    each other. *)
Theorem provider_directory_is_consistent (s : State) :
  reachable s -> provider_inv s.
Proof.
  intros (d & txs & ->).
  assert (G : forall l s0, provider_inv s0 -> provider_inv (run s0 l)).
  { intros l. induction l as [|tx l IH]; intros s0 I0; [exact I0|].
    change (run s0 (tx :: l)) with (run (step s0 tx) l). apply IH.
    unfold step, commit.
    destruct (exec (fst tx) (snd tx) s0) eqn:E; [|exact I0].
    eapply exec_provider_inv; eauto. }
  apply G. unfold provider_inv, registered. simpl.
  split; [lia|]. split; [intros; lia|]. split; [reflexivity|].
  intros a N. contradiction.
Qed.

Lemma provider_directory_is_consistent_witness :
  provider_inv ProviderScenarios.clinic_verified.
Proof.
  apply provider_directory_is_consistent.
  exists 1. eexists. reflexivity.
Defined.

(** Once [isProviderVerified] answers true for an address, it answers
    true after any further sequence of calls: the contract has no way of
    withdrawing a verification. *)
Theorem verified_provider_stays_verified (s : State) (a : address)
    (txs : list (Msg * Call)) :
  reachable s -> isProviderVerified s a = true ->
  isProviderVerified (run s txs) a = true.
Proof.
  intros R V. apply reachable_provider_inv in R.
  revert s R V. induction txs as [|tx txs IH]; intros s R V; [exact V|].
  change (run s (tx :: txs)) with (run (step s tx) txs).
  unfold step, commit. destruct (exec (fst tx) (snd tx) s) eqn:E.
  - apply IH; [eapply exec_provider_inv; eauto|].
    eapply exec_verified_kept; eauto.
  - apply IH; assumption.
Qed.

Lemma verified_provider_stays_verified_witness :
  isProviderVerified
    (run ProviderScenarios.clinic_verified
       [ ({| sender := 1; timestamp := 30 |}, RecordRedemption 1 200);
         ({| sender := 1; timestamp := 40 |}, RevokeRole VERIFIER_ROLE 1) ])
    7 = true.
Proof.
  apply verified_provider_stays_verified.
  - exists 1. eexists. reflexivity.
  - vm_compute. reflexivity.
Defined.

(** Registering a provider and then verifying the id it was given makes
    [isProviderVerified] true for its address and [getProviderByAddress]
    return its record, with the redemption totals at 0; before the
    verification [isProviderVerified] is false. The registration is open
    to any caller, and a second registration of the address fails. *)
Theorem register_then_verify_provider (m m' : Msg) (a : address)
    (n r st l d : string) (s s1 s2 : State) (pid : uint256) :
  0 <= _providerIdCounter s ->
  registerProvider m a n r st l d s = Ok (pid, s1) ->
  verifyProvider m' pid s1 = Ok s2 ->
  isProviderVerified s1 a = false /\
  isProviderVerified s2 a = true /\
  getProviderByAddress s2 a =
    Ok {| providerId := pid; providerAddress := a; name := n;
          registrationNumber := r; serviceType := st; location := l;
          verificationDocHash := d; registeredAt := timestamp m;
          verifiedAt := timestamp m'; status := Verified;
          totalRedemptions := 0; totalAmountRedeemed := 0;
          isActive := true |} /\
  (forall m2 n2 r2 st2 l2 d2,
     registerProvider m2 a n2 r2 st2 l2 d2 s2
     = Err (Revert "Provider already registered")).
Proof.
  intros Hc H1 H2. apply registerProvider_Ok in H1.
  destruct H1 as (Hp & Ha & Hz & -> & ->).
  apply verifyProvider_Ok in H2. destruct H2 as (_ & _ & _ & ->).
  assert (N : (_providerIdCounter s + 1 =? 0) = false)
    by (apply Z.eqb_neq; lia).
  unfold isProviderVerified, getProviderByAddress. simpl.
  repeat first [rewrite upd_same | rewrite N | progress simpl].
  repeat split; auto.
  intros m2 n2 r2 st2 l2 d2.
  unfold registerProvider, whenNotPaused. simpl. rewrite Hp. simpl.
  apply Z.eqb_neq in Ha. rewrite Ha. simpl. rewrite upd_same, N. reflexivity.
Qed.

Lemma register_then_verify_provider_witness :
  exists s1 s2,
    registerProvider {| sender := 5; timestamp := 50 |} 8 "School" "REG8"
      "Education" "Delhi" "QmDoc2" ProviderScenarios.clinic_verified
    = Ok (2, s1) /\
    verifyProvider {| sender := 1; timestamp := 60 |} 2 s1 = Ok s2 /\
    isProviderVerified s2 8 = true.
Proof.
  destruct (registerProvider {| sender := 5; timestamp := 50 |} 8 "School"
              "REG8" "Education" "Delhi" "QmDoc2"
              ProviderScenarios.clinic_verified) as [[pid s1]|e] eqn:E1.
  - assert (P : pid = 2).
    { apply registerProvider_Ok in E1 as K.
      destruct K as (_ & _ & _ & K & _). rewrite K. vm_compute. reflexivity. }
    subst pid.
    destruct (verifyProvider {| sender := 1; timestamp := 60 |} 2 s1)
      as [s2|e] eqn:E2.
    + exists s1, s2. split; [reflexivity|]. split; [exact E2|].
      refine (proj1 (proj2 (register_then_verify_provider _ _ _ _ _ _ _ _ _ _
                              _ _ _ E1 E2))).
      vm_compute. intros K. discriminate K.
    + exfalso. apply registerProvider_Ok in E1.
      destruct E1 as (_ & _ & _ & _ & ->).
      assert (K : is_ok (verifyProvider {| sender := 1; timestamp := 60 |} 2
        (emit (ProviderRegistered 2 8 "School")
           (with_addressToProviderId
              (upd (addressToProviderId ProviderScenarios.clinic_verified) 8 2)
              (with_providers
                 (upd (providers ProviderScenarios.clinic_verified) 2
                    {| providerId := 2; providerAddress := 8;
                       name := "School"; registrationNumber := "REG8";
                       serviceType := "Education"; location := "Delhi";
                       verificationDocHash := "QmDoc2";
                       registeredAt := timestamp {| sender := 5; timestamp := 50 |};
                       verifiedAt := 0; status := Pending;
                       totalRedemptions := 0; totalAmountRedeemed := 0;
                       isActive := true |})
                 (with_providerIdCounter 2
                    ProviderScenarios.clinic_verified))))) = true)
        by (vm_compute; reflexivity).
      rewrite E2 in K. discriminate K.
  - exfalso.
    assert (K : is_ok (registerProvider {| sender := 5; timestamp := 50 |} 8
                         "School" "REG8" "Education" "Delhi" "QmDoc2"
                         ProviderScenarios.clinic_verified) = true)
      by (vm_compute; reflexivity).
    rewrite E1 in K. discriminate K.
Defined.
End ProviderTheorems.

(** ** The campaign factory *)

Module FactoryBooks.
Import CampaignFactory FactoryShape TokenFacts FactoryFacts WorldFacts.

Lemma campaign_move_refl (c : Campaign) : campaign_move c c.
Proof. unfold campaign_move. auto 10. Qed.

Lemma same_books_refl (s : State) : same_books s s.
Proof.
  unfold same_books.
  split; [|split; [|split; [|split; [|split; [|split]]]]]; auto.
  intros cid. apply campaign_move_refl.
Qed.

(** A state that differs from [s] in the record of one existing campaign
    and in the milestone lists. *)
Lemma same_books_one (s s' : State) (cid : uint256) (c' : Campaign) :
  _campaignIdCounter s' = _campaignIdCounter s ->
  campaignDonors s' = campaignDonors s ->
  campaignDonations s' = campaignDonations s ->
  platformFeePercentage s' = platformFeePercentage s ->
  campaigns s' = upd (campaigns s) cid c' ->
  campaignId (campaigns s cid) <> 0 -> campaign_move (campaigns s cid) c' ->
  (forall q, q <> cid -> campaignMilestones s' q = campaignMilestones s q) ->
  ((hasMilestones c' = hasMilestones (campaigns s cid) /\
    has_some (campaignMilestones s' cid) = has_some (campaignMilestones s cid))
   \/ (hasMilestones c' = true /\ has_some (campaignMilestones s' cid) = true)) ->
  same_books s s'.
Proof.
  intros Hc Hd Hn Hf Hcs Hx Hm Hms Hh. unfold same_books.
  rewrite Hc, Hd, Hn, Hf, Hcs.
  split; [|split; [|split; [|split; [|split; [|split]]]]]; auto.
  - intros q Hq. apply upd_other. intros ->. contradiction.
  - intros q. unfold upd. destruct (q =? cid) eqn:E; [|apply campaign_move_refl].
    apply Z.eqb_eq in E. subst. exact Hm.
  - intros q. unfold upd. destruct (q =? cid) eqn:E.
    + apply Z.eqb_eq in E. subst. exact Hh.
    + apply Z.eqb_neq in E. left. rewrite Hms by exact E. auto.
Qed.

Lemma has_some_set_nth {A} (n : nat) (x : A) (l : list A) :
  has_some (set_nth n x l) = has_some l.
Proof. destruct l, n; reflexivity. Qed.

Lemma has_some_app {A} (l : list A) (x : A) : has_some (l ++ [x]) = true.
Proof. destruct l; reflexivity. Qed.

Lemma updateCampaignStatus_books (cid : uint256) (st : CampaignStatus)
    (s : State) :
  campaignId (campaigns s cid) <> 0 ->
  (status (campaigns s cid) = Active /\ st = Paused \/
   status (campaigns s cid) = Paused /\ st = Active) ->
  same_books s (_updateCampaignStatus cid st s).
Proof.
  intros Hx Hs. unfold _updateCampaignStatus.
  eapply same_books_one; simpl; eauto.
  unfold campaign_move. simpl.
  destruct Hs as [(H1 & ->)|(H1 & ->)]; auto 10.
Qed.

Lemma exec_same_books (ext : World.Externals) (m : Msg) (c : Call)
    (w w' : World.State) :
  World.exec_factory ext m c w = Ok w' ->
  match c with
  | CreateCampaign _ _ _ _ _ _ | Donate _ _ => True
  | _ => same_books (World.fac w) (World.fac w')
  end.
Proof.
  intros H.
  destruct c as [t d ca ta du docs|cid d ta dl|v cid|cid b amt svc val
                |cid rcp amt|cid idx prf|cid|cid|n|a|v| | |r a|r a];
    simpl in H; try exact I; inv_ok; subst; simpl.
  - match goal with K : addMilestone _ _ _ _ _ _ = Ok _ |- _ =>
      unfold addMilestone in K; inv_ok; subst end.
    to_prop. eapply same_books_one; simpl; eauto.
    + unfold campaign_move. simpl. auto 10.
    + intros q N. apply upd_other. exact N.
    + right. rewrite upd_same. split; [reflexivity|apply has_some_app].
  - match goal with K : issueBeneficiaryToken _ _ _ _ _ _ _ _ _ = Ok _ |- _ =>
      unfold issueBeneficiaryToken in K; inv_ok; subst end.
    simpl in *. to_prop. eapply same_books_one; simpl; eauto.
    unfold campaign_move. simpl. auto 10.
  - match goal with K : releaseFunds _ _ _ _ _ _ = Ok _ |- _ =>
      apply releaseFunds_Ok in K; cbv zeta in K;
      destruct K as (_ & _ & _ & _ & _ & _ & _ & _ & _ & _ & _ & _ & ->) end.
    exact (same_books_refl (World.fac w)).
  - match goal with K : completeMilestone _ _ _ _ _ = Ok _ |- _ =>
      unfold completeMilestone in K; inv_ok;
      destruct (nth_error _ _); [|discriminate K]; inv_ok; subst end.
    to_prop. unfold same_books. simpl.
    split; [|split; [|split; [|split; [|split; [|split]]]]]; auto.
    + intros q. apply campaign_move_refl.
    + intros q. left. split; [reflexivity|]. unfold upd.
      destruct (q =? cid) eqn:E; [|reflexivity].
      apply Z.eqb_eq in E. subst. apply has_some_set_nth.
  - match goal with K : pauseCampaign _ _ _ = Ok _ |- _ =>
      unfold pauseCampaign in K; inv_ok; subst end.
    to_prop. to_status. apply updateCampaignStatus_books; auto.
  - match goal with K : resumeCampaign _ _ _ = Ok _ |- _ =>
      unfold resumeCampaign in K; inv_ok; subst end.
    to_prop. to_status. apply updateCampaignStatus_books; auto.
  - match goal with K : updatePlatformFee _ _ _ = Ok _ |- _ =>
      unfold updatePlatformFee in K; inv_ok; subst end.
    to_prop. unfold same_books. simpl.
    split; [|split; [|split; [|split; [|split; [|split]]]]]; auto.
    intros q. apply campaign_move_refl.
  - match goal with K : updateFeeCollector _ _ _ = Ok _ |- _ =>
      unfold updateFeeCollector in K; inv_ok; subst end.
    exact (same_books_refl (World.fac w)).
  - match goal with K : receive _ _ _ = Ok _ |- _ =>
      unfold receive in K; inv_ok; subst end.
    exact (same_books_refl (World.fac w)).
  - match goal with K : pause _ _ = Ok _ |- _ =>
      unfold pause in K; inv_ok; subst end.
    exact (same_books_refl (World.fac w)).
  - match goal with K : unpause _ _ = Ok _ |- _ =>
      unfold unpause in K; inv_ok; subst end.
    exact (same_books_refl (World.fac w)).
  - match goal with K : grantRole _ _ _ _ = Ok _ |- _ =>
      unfold grantRole in K; inv_ok; subst end.
    exact (same_books_refl (World.fac w)).
  - match goal with K : revokeRole _ _ _ _ = Ok _ |- _ =>
      unfold revokeRole in K; inv_ok; subst end.
    exact (same_books_refl (World.fac w)).
Qed.

Lemma books_inv_same_books (s s' : State) :
  same_books s s' -> books_inv s -> books_inv s'.
Proof.
  intros (Hc & Hd & Hn & Hf & Hz & Hm & Hh) ((I1 & I2 & I3 & I4 & I5) & J).
  split.
  - unfold campaign_inv, created in *. rewrite Hc.
    split; [exact I1|]. split; [destruct Hf as [->|Hf]; assumption|].
    split; [|split].
    + intros cid R. destruct (I3 cid R) as (K1 & K2 & K3).
      destruct (Hm cid) as (M1 & _ & M3 & M4 & _ & M6).
      rewrite M1, M3, M4. split; [exact K1|]. split; [exact K2|].
      destruct M6 as [M6|[(M6 & M7)|(M6 & M7)]].
      * rewrite M6. exact K3.
      * rewrite M7. rewrite M6 in K3. exact K3.
      * rewrite M7. rewrite M6 in K3. exact K3.
    + intros cid R. specialize (I4 cid R). rewrite Hz; [exact I4|].
      rewrite I4. reflexivity.
    + intros cid. destruct (Hh cid) as [(H1 & H2)|(H1 & H2)].
      * rewrite H1, H2. apply I5.
      * rewrite H1, H2. reflexivity.
  - intros cid. destruct (J cid) as (J1 & J2 & J3 & J4 & J5).
    destruct (Hm cid) as (_ & _ & _ & M4 & M5 & _).
    rewrite Hd, Hn, M4, M5. auto.
Qed.

Lemma books_inv_createCampaign (reg : NGORegistry.State) (m : Msg)
    (ti d ca : string) (target duration : uint256) (docs : string)
    (s s' : State) (cid : uint256) :
  createCampaign reg m ti d ca target duration docs s = Ok (cid, s') ->
  books_inv s -> books_inv s'.
Proof.
  intros H ((I1 & I2 & I3 & I4 & I5) & J).
  unfold createCampaign in H. inv_ok. to_prop. subst. simpl in *.
  assert (D : campaigns s (_campaignIdCounter s + 1) = default_Campaign)
    by (apply I4; unfold created; lia).
  split.
  - unfold campaign_inv, created in *. simpl.
    split; [lia|]. split; [exact I2|]. split; [|split].
    + intros q R. destruct (Z.eq_dec q (_campaignIdCounter s + 1)) as [->|N].
      * rewrite !upd_same. simpl. auto.
      * rewrite !upd_other by exact N. apply I3. lia.
    + intros q R. rewrite upd_other by lia. apply I4. lia.
    + intros q. destruct (Z.eq_dec q (_campaignIdCounter s + 1)) as [->|N].
      * rewrite upd_same. simpl. rewrite <- I5, D. reflexivity.
      * rewrite upd_other by exact N. apply I5.
  - intros q. destruct (J q) as (J1 & J2 & J3 & J4 & J5). simpl.
    destruct (Z.eq_dec q (_campaignIdCounter s + 1)) as [->|N].
    + rewrite upd_same. simpl. rewrite D in J2, J5. simpl in J2, J5. auto.
    + rewrite upd_other by exact N. auto.
Qed.

(** What a successful [donate] writes. *)
Lemma donate_books (m : Msg) (value cid : uint256) (s s' : State) :
  donate m value cid s = Ok s' ->
  let first := campaignDonations s cid (sender m) =? 0 in
  let c := campaigns s cid in
  let c' := campaigns s' cid in
  0 < value /\ campaignId c <> 0 /\ status c = Active /\
  _campaignIdCounter s' = _campaignIdCounter s /\
  platformFeePercentage s' = platformFeePercentage s /\
  campaignMilestones s' = campaignMilestones s /\
  campaignDonors s' =
    (if first
     then upd (campaignDonors s) cid (campaignDonors s cid ++ [sender m])
     else campaignDonors s) /\
  campaignDonations s' =
    upd (campaignDonations s) cid
      (upd (campaignDonations s cid) (sender m)
         (campaignDonations s cid (sender m) + value)) /\
  (forall q, q <> cid -> campaigns s' q = campaigns s q) /\
  campaignId c' = campaignId c /\ targetAmount c' = targetAmount c /\
  hasMilestones c' = hasMilestones c /\
  raisedAmount c' = raisedAmount c + value /\
  totalDonors c' = (if first then totalDonors c + 1 else totalDonors c) /\
  status c' =
    (if targetAmount c <=? raisedAmount c + value then Completed else Active).
Proof.
  intros H. cbv zeta. unfold donate in H. inv_ok. to_status. to_prop. subst.
  simpl in *.
  match goal with
  | K : (if ?b then _ else _) = Ok _ |- _ => destruct b eqn:First
  end; inv_ok; subst; simpl in *; rewrite ?upd_same in *; simpl in *;
  rewrite ?upd_same; simpl;
  match goal with
  | |- context [if ?b then _updateCampaignStatus _ _ _ else _] =>
      destruct b eqn:Done
  end; simpl; rewrite ?upd_same; simpl;
  (repeat split; auto; try lia;
   intros q N; rewrite ?upd_other by exact N; reflexivity).
Qed.

Lemma NoDup_snoc {A} (l : list A) (a : A) :
  NoDup l -> ~ In a l -> NoDup (l ++ [a]).
Proof.
  induction l as [|x l IH]; intros N H; simpl.
  - constructor; [intros []|constructor].
  - inversion N; subst. constructor.
    + rewrite in_app_iff. simpl. intros [K|[K|[]]]; [contradiction|].
      subst. apply H. left. reflexivity.
    + apply IH; [assumption|]. intros K. apply H. right. exact K.
Qed.

Lemma sum_cons (x : Z) (l : list Z) : World.sum (x :: l) = x + World.sum l.
Proof. reflexivity. Qed.

Lemma sum_map_untouched (f g : address -> uint256) (l : list address) :
  (forall x, In x l -> g x = f x) ->
  World.sum (map g l) = World.sum (map f l).
Proof.
  induction l as [|x l IH]; intros H; [reflexivity|].
  rewrite !map_cons, !sum_cons. rewrite H by (left; reflexivity).
  rewrite IH; [reflexivity|]. intros y Hy. apply H. right. exact Hy.
Qed.

Lemma sum_map_bumped (f : address -> uint256) (a : address) (v : uint256)
    (l : list address) :
  NoDup l -> In a l ->
  World.sum (map (upd f a (f a + v)) l) = World.sum (map f l) + v.
Proof.
  induction l as [|x l IH]; intros N H; [destruct H|].
  inversion N; subst. rewrite !map_cons, !sum_cons.
  destruct (Z.eq_dec x a) as [->|D].
  - rewrite upd_same.
    rewrite (sum_map_untouched f (upd f a (f a + v)) l); [lia|].
    intros y Hy. apply upd_other. intros ->. contradiction.
  - rewrite upd_other by exact D. destruct H as [H|H]; [contradiction|].
    rewrite <- Z.add_assoc. f_equal. exact (IH H3 H).
Qed.

Lemma books_inv_donate (m : Msg) (value cid : uint256) (s s' : State) :
  donate m value cid s = Ok s' -> books_inv s -> books_inv s'.
Proof.
  intros H ((I1 & I2 & I3 & I4 & I5) & J).
  apply donate_books in H. cbv zeta in H.
  destruct H as (Hv & Hx & Hs & Hc & Hf & Hms & Hd & Hn & Ho & C1 & C2 & C3
                 & C4 & C5 & C6).
  assert (R : created s cid).
  { unfold created.
    destruct (Z_le_dec 1 cid) as [L1|L1];
      [destruct (Z_le_dec cid (_campaignIdCounter s)) as [L2|L2]|];
      [split; assumption| |];
      (exfalso; apply Hx; rewrite I4; [reflexivity|unfold created; lia]). }
  split.
  - unfold campaign_inv, created in *. rewrite Hc, Hf, Hms.
    split; [exact I1|]. split; [exact I2|]. split; [|split].
    + intros q Rq. destruct (Z.eq_dec q cid) as [->|N].
      * destruct (I3 cid R) as (K1 & K2 & K3).
        rewrite C1, C2, C4, C6. split; [exact K1|]. split; [exact K2|].
        destruct (targetAmount (campaigns s cid)
                  <=? raisedAmount (campaigns s cid) + value) eqn:T;
          to_prop; lia.
      * rewrite Ho by exact N. apply I3. exact Rq.
    + intros q Rq. rewrite Ho; [apply I4; exact Rq|].
      intros ->. contradiction.
    + intros q. destruct (Z.eq_dec q cid) as [->|N].
      * rewrite C3. apply I5.
      * rewrite Ho by exact N. apply I5.
  - intros q. destruct (J q) as (J1 & J2 & J3 & J4 & J5).
    rewrite Hn. destruct (Z.eq_dec q cid) as [->|N].
    + rewrite upd_same, C4, C5, Hd.
      destruct (campaignDonations s cid (sender m) =? 0) eqn:First; to_prop.
      * assert (Out : ~ In (sender m) (campaignDonors s cid))
          by (intros K; apply J4 in K; lia).
        rewrite upd_same.
        split; [apply NoDup_snoc; assumption|].
        split; [rewrite length_app; simpl; lia|].
        split; [|split].
        -- intros a. unfold upd. destruct (a =? sender m); [lia|apply J3].
        -- intros a. rewrite in_app_iff. simpl.
           destruct (Z.eq_dec a (sender m)) as [->|D].
           ++ rewrite upd_same. split; [lia|auto].
           ++ rewrite upd_other by exact D. rewrite <- J4.
              split; [intros [K|[K|[]]]; [exact K|congruence]|auto].
        -- rewrite map_app, sum_app. simpl. rewrite upd_same.
           rewrite (sum_map_untouched (campaignDonations s cid)).
           ++ rewrite <- J5. lia.
           ++ intros y Hy. apply upd_other. intros ->. contradiction.
      * assert (Inl : In (sender m) (campaignDonors s cid)).
        { apply J4. specialize (J3 (sender m)). lia. }
        split; [exact J1|]. split; [exact J2|]. split; [|split].
        -- intros a. unfold upd. destruct (a =? sender m); [|apply J3].
           specialize (J3 (sender m)). lia.
        -- intros a. destruct (Z.eq_dec a (sender m)) as [->|D].
           ++ rewrite upd_same. split; [intros _|auto].
              specialize (J3 (sender m)). lia.
           ++ rewrite upd_other by exact D. apply J4.
        -- rewrite sum_map_bumped by assumption. lia.
    + rewrite upd_other by exact N. rewrite Ho by exact N.
      assert (Dn : campaignDonors s' q = campaignDonors s q).
      { rewrite Hd. destruct (_ =? 0); [apply upd_other; exact N|reflexivity]. }
      rewrite Dn. auto.
Qed.

Lemma exec_factory_books (ext : World.Externals) (m : Msg) (c : Call)
    (w w' : World.State) :
  World.exec_factory ext m c w = Ok w' ->
  books_inv (World.fac w) -> books_inv (World.fac w').
Proof.
  intros H I. pose proof (exec_same_books ext m c w w' H) as D.
  destruct c; try (eapply books_inv_same_books; eassumption);
    simpl in H; inv_ok; subst; simpl.
  - eapply books_inv_createCampaign; eauto.
  - eapply books_inv_donate; eauto.
Qed.

(** A property of the factory that every factory call keeps holds along
    every run of the system from a state where it holds. *)
Lemma world_run_fac (P : State -> Prop) :
  (forall ext m c w w', World.exec_factory ext m c w = Ok w' ->
                        P (World.fac w) -> P (World.fac w')) ->
  forall txs w, P (World.fac w) -> P (World.fac (World.run w txs)).
Proof.
  intros Step txs. induction txs as [|tx txs IH]; intros w Hw; [exact Hw|].
  change (World.run w (tx :: txs)) with (World.run (World.step w tx) txs).
  apply IH. unfold World.step, commit.
  destruct (World.exec tx w) as [w'|e] eqn:E; [|exact Hw].
  unfold World.exec in E.
  destruct (World.tx_call tx) as [c|c|c|c]; inv_ok; subst; simpl;
    try exact Hw.
  eapply Step; eauto.
Qed.

Lemma reachable_books_inv (w : World.State) :
  World.reachable w -> books_inv (World.fac w).
Proof.
  intros (d & f & c & txs & ->).
  apply (world_run_fac books_inv exec_factory_books).
  split.
  - unfold campaign_inv, created. simpl.
    split; [lia|]. split; [lia|]. split; [intros; lia|]. auto.
  - intros cid. simpl. repeat split; try lia; try constructor;
      first [intros []|intros K; lia].
Qed.

End FactoryBooks.


Module FactoryProperties.
Import CampaignFactory FactoryShape TokenFacts FactoryFacts WorldFacts
  FactoryBooks.







(** Pausing a campaign and resuming it gives back the campaign records,
    the escrow and the balance as they were; only the two status events
    are added. While the campaign is paused, donations to it and token
    issuance against it fail. The caller who paused may also resume. *)
Theorem pause_resume_round_trip (m : Msg) (cid : uint256) (s s1 : State) :
  pauseCampaign m cid s = Ok s1 ->
  status (campaigns s cid) = Active /\
  status (campaigns s1 cid) = Paused /\
  (forall m' v, exists e, donate m' v cid s1 = Err e) /\
  (forall o m' b amount service validity tok,
     exists e,
       issueBeneficiaryToken o m' cid b amount service validity tok s1
       = Err e) /\
  exists s2,
    resumeCampaign m cid s1 = Ok s2 /\
    (forall q, campaigns s2 q = campaigns s q) /\
    campaignFunds s2 = campaignFunds s /\ balance s2 = balance s /\
    campaignDonations s2 = campaignDonations s /\
    events s2 = events s ++ [CampaignStatusChanged cid Active Paused;
                             CampaignStatusChanged cid Paused Active].
Proof.
  intros H. unfold pauseCampaign in H. inv_ok. to_status. to_prop. subst.
  match goal with K : status _ = Active |- _ => rename K into Hs end.
  match goal with K : _ || _ = true |- _ => rename K into Ha end.
  match goal with K : campaignId _ <> 0 |- _ =>
    rename K into Hx; apply Z.eqb_neq in Hx end.
  split; [exact Hs|]. split; [simpl; rewrite upd_same; reflexivity|].
  split; [|split].
  - intros m' v.
    destruct (donate m' v cid (_updateCampaignStatus cid Paused s))
      as [s'|e] eqn:E; [|eauto].
    exfalso. apply donate_Ok in E. destruct E as (_ & _ & E & _).
    simpl in E. rewrite upd_same in E. discriminate E.
  - intros o m' b amount service validity tok.
    destruct (issueBeneficiaryToken o m' cid b amount service validity tok
                (_updateCampaignStatus cid Paused s))
      as [[[tid tok'] s']|e] eqn:E; [|eauto].
    exfalso. apply issueBeneficiaryToken_Ok in E. cbv zeta in E.
    destruct E as (_ & _ & _ & E & _).
    simpl in E. rewrite upd_same in E. discriminate E.
  - eexists. split.
    + unfold resumeCampaign. simpl. rewrite upd_same. simpl.
      rewrite Hx. simpl. unfold hasRole in *. simpl in *. rewrite Ha. simpl.
      reflexivity.
    + simpl. rewrite upd_same. simpl. rewrite Hs.
      repeat split; auto.
      * intros q. unfold upd. destruct (q =? cid) eqn:E; [|reflexivity].
        apply Z.eqb_eq in E. subst q.
        destruct (campaigns s cid); simpl in *; subst; reflexivity.
      * rewrite <- app_assoc. reflexivity.
Qed.

Lemma pause_resume_round_trip_witness :
  exists s1 s2,
    pauseCampaign {| sender := 2; timestamp := 300 |} 1
      (World.fac WorldScenarios.funded) = Ok s1 /\
    resumeCampaign {| sender := 2; timestamp := 300 |} 1 s1 = Ok s2 /\
    campaignFunds s2 = campaignFunds (World.fac WorldScenarios.funded).
Proof.
  destruct (pauseCampaign {| sender := 2; timestamp := 300 |} 1
              (World.fac WorldScenarios.funded)) as [s1|e] eqn:E.
  - destruct (pause_resume_round_trip _ _ _ _ E)
      as (_ & _ & _ & _ & s2 & K1 & _ & K2 & _).
    exists s1, s2. split; [reflexivity|]. split; [exact K1|exact K2].
  - exfalso.
    assert (K : is_ok (pauseCampaign {| sender := 2; timestamp := 300 |} 1
                         (World.fac WorldScenarios.funded)) = true)
      by (vm_compute; reflexivity).
    rewrite E in K. discriminate K.
Defined.

Lemma nth_error_set_nth {A} (n : nat) (x y : A) (l : list A) :
  nth_error l n = Some x -> nth_error (set_nth n y l) n = Some y.
Proof.
  revert n. induction l as [|h l IH]; intros [|n] H; simpl in *;
    try discriminate; auto.
Qed.

Lemma length_set_nth {A} (n : nat) (y : A) (l : list A) :
  List.length (set_nth n y l) = List.length l.
Proof.
  revert n. induction l as [|h l IH]; intros [|n]; simpl; auto.
Qed.

Lemma completeMilestone_Ok (m : Msg) (cid i : uint256) (p : string)
    (s s' : State) :
  completeMilestone m cid i p s = Ok s' ->
  campaignId (campaigns s cid) <> 0 /\
  ngoAddress (campaigns s cid) = sender m /\
  i < Z.of_nat (List.length (campaignMilestones s cid)) /\
  exists ms,
    nth_error (campaignMilestones s cid) (Z.to_nat i) = Some ms /\
    (m_status ms = MilestonePending \/ m_status ms = MilestoneInProgress) /\
    s' = emit (MilestoneCompletedEvent cid i)
           (with_campaignMilestones
              (upd (campaignMilestones s) cid
                 (set_nth (Z.to_nat i)
                    {| m_description := m_description ms;
                       m_targetAmount := m_targetAmount ms;
                       deadline := deadline ms;
                       m_status := MilestoneCompleted; proofHash := p;
                       completedAt := timestamp m |}
                    (campaignMilestones s cid))) s).
Proof.
  intros H. unfold completeMilestone in H. inv_ok. to_prop.
  destruct (nth_error _ _) as [ms|] eqn:N; [|discriminate H]. inv_ok. subst.
  repeat split; auto. exists ms. split; [reflexivity|]. split; [|reflexivity].
  destruct (m_status ms); auto; discriminate.
Qed.

(** A milestone is completed at most once: a successful
    [completeMilestone] stores the proof and the completion time on the
    milestone, leaves the other fields and the number of milestones as
    they are, and every further attempt of the campaign's creator on the
    same milestone fails with "Milestone cannot be completed". *)
Theorem completeMilestone_only_once (m : Msg) (cid i : uint256) (p : string)
    (s s' : State) :
  completeMilestone m cid i p s = Ok s' ->
  exists ms,
    nth_error (campaignMilestones s cid) (Z.to_nat i) = Some ms /\
    (m_status ms = MilestonePending \/ m_status ms = MilestoneInProgress) /\
    nth_error (campaignMilestones s' cid) (Z.to_nat i) =
      Some {| m_description := m_description ms;
              m_targetAmount := m_targetAmount ms; deadline := deadline ms;
              m_status := MilestoneCompleted; proofHash := p;
              completedAt := timestamp m |} /\
    List.length (campaignMilestones s' cid)
      = List.length (campaignMilestones s cid) /\
    campaigns s' = campaigns s /\
    (forall m' p', sender m' = sender m ->
       completeMilestone m' cid i p' s'
       = Err (Revert "Milestone cannot be completed")).
Proof.
  intros H. apply completeMilestone_Ok in H.
  destruct H as (Hx & Ho & Hi & ms & N & St & ->).
  exists ms. simpl. rewrite upd_same.
  split; [exact N|]. split; [exact St|].
  split; [eapply nth_error_set_nth; exact N|].
  split; [apply length_set_nth|]. split; [reflexivity|].
  intros m' p' Hm. unfold completeMilestone. simpl.
  apply Z.eqb_neq in Hx. rewrite Hx. simpl.
  rewrite Hm. apply Z.eqb_eq in Ho. rewrite Ho. simpl.
  rewrite upd_same, length_set_nth.
  apply Z.ltb_lt in Hi. rewrite Hi. simpl.
  rewrite (nth_error_set_nth _ _ _ _ N). reflexivity.
Qed.

Lemma completeMilestone_only_once_witness :
  exists s',
    completeMilestone {| sender := 2; timestamp := 400 |} 1 0 "QmProof"
      (World.fac FactoryScenarios.with_milestone) = Ok s' /\
    completeMilestone {| sender := 2; timestamp := 500 |} 1 0 "QmProof2" s'
    = Err (Revert "Milestone cannot be completed").
Proof.
  destruct (completeMilestone {| sender := 2; timestamp := 400 |} 1 0
              "QmProof" (World.fac FactoryScenarios.with_milestone))
    as [s'|e] eqn:E.
  - exists s'. split; [reflexivity|].
    destruct (completeMilestone_only_once _ _ _ _ _ _ E)
      as (ms & _ & _ & _ & _ & _ & K).
    apply K. reflexivity.
  - exfalso.
    assert (K : is_ok (completeMilestone {| sender := 2; timestamp := 400 |}
                         1 0 "QmProof"
                         (World.fac FactoryScenarios.with_milestone)) = true)
      by (vm_compute; reflexivity).
    rewrite E in K. discriminate K.
Defined.

(** [addMilestone] appends a Pending milestone with no proof to the
    campaign's list, marks the campaign as having milestones, and
    reports the index of the new milestone, which is the former length
    of the list. Only the campaign's creator passes, and the campaign
    must be Draft or Active. *)
Theorem addMilestone_appends (m : Msg) (cid : uint256) (d : string)
    (target dl : uint256) (s s' : State) :
  addMilestone m cid d target dl s = Ok s' ->
  campaignId (campaigns s cid) <> 0 /\
  ngoAddress (campaigns s cid) = sender m /\
  (status (campaigns s cid) = Draft \/ status (campaigns s cid) = Active) /\
  campaignMilestones s' cid =
    campaignMilestones s cid ++
    [{| m_description := d; m_targetAmount := target; deadline := dl;
        m_status := MilestonePending; proofHash := EmptyString;
        completedAt := 0 |}] /\
  (forall q, q <> cid -> campaignMilestones s' q = campaignMilestones s q) /\
  hasMilestones (campaigns s' cid) = true /\
  events s' =
    events s ++
    [MilestoneAdded cid (Z.of_nat (List.length (campaignMilestones s cid))) d] /\
  (forall p, exists s2,
     completeMilestone m cid
       (Z.of_nat (List.length (campaignMilestones s cid))) p s' = Ok s2).
Proof.
  intros H. unfold addMilestone in H. inv_ok. to_prop. subst.
  simpl in *. rewrite !upd_same in *. simpl.
  match goal with K : campaignId _ <> 0 |- _ => rename K into Hx end.
  match goal with K : ngoAddress _ = sender m |- _ => rename K into Ho end.
  match goal with K : _ || _ = true |- _ => rename K into Hs end.
  assert (L : Z.of_nat (List.length
                (campaignMilestones s cid ++
                 [{| m_description := d; m_targetAmount := target;
                     deadline := dl; m_status := MilestonePending;
                     proofHash := EmptyString; completedAt := 0 |}])) - 1
              = Z.of_nat (List.length (campaignMilestones s cid)))
    by (rewrite length_app; simpl; lia).
  split; [exact Hx|]. split; [exact Ho|]. split.
  { apply orb_true_iff in Hs. destruct Hs as [Hs|Hs]; to_status; auto. }
  split; [reflexivity|]. split; [intros q N; apply upd_other; exact N|].
  split; [reflexivity|]. split; [rewrite L; reflexivity|].
  intros p. unfold completeMilestone. simpl. rewrite !upd_same. simpl.
  apply Z.eqb_neq in Hx. rewrite Hx. simpl.
  rewrite Ho, Z.eqb_refl. simpl.
  assert (Lt : (Z.of_nat (List.length (campaignMilestones s cid)) <?
                Z.of_nat (List.length
                  (campaignMilestones s cid ++
                   [{| m_description := d; m_targetAmount := target;
                       deadline := dl; m_status := MilestonePending;
                       proofHash := EmptyString; completedAt := 0 |}])))
               = true) by (apply Z.ltb_lt; lia).
  rewrite Lt. simpl. rewrite Nat2Z.id, nth_error_app2 by lia.
  rewrite Nat.sub_diag. simpl. eauto.
Qed.

Lemma addMilestone_appends_witness :
  exists s' s2,
    addMilestone {| sender := 2; timestamp := 300 |} 1 "Second phase" 4000 950
      (World.fac FactoryScenarios.with_milestone) = Ok s' /\
    completeMilestone {| sender := 2; timestamp := 300 |} 1 1 "QmProof" s'
    = Ok s2.
Proof.
  destruct (addMilestone {| sender := 2; timestamp := 300 |} 1 "Second phase"
              4000 950 (World.fac FactoryScenarios.with_milestone))
    as [s'|e] eqn:E.
  - destruct (proj2 (proj2 (proj2 (proj2 (proj2 (proj2 (proj2
               (addMilestone_appends _ _ _ _ _ _ _ E))))))) "QmProof")
      as (s2 & K).
    exists s', s2. split; [reflexivity|].
    assert (L : Z.of_nat (List.length (campaignMilestones
                  (World.fac FactoryScenarios.with_milestone) 1)) = 1)
      by (vm_compute; reflexivity).
    rewrite L in K. exact K.
  - exfalso.
    assert (K : is_ok (addMilestone {| sender := 2; timestamp := 300 |} 1
                         "Second phase" 4000 950
                         (World.fac FactoryScenarios.with_milestone)) = true)
      by (vm_compute; reflexivity).
    rewrite E in K. discriminate K.
Defined.

(** In a reachable state, [releaseFunds] pays the fee collector first and
    the recipient second, the two payments add up to the amount
    released, and the fee is at most a tenth of it. *)
Theorem releaseFunds_fee_is_bounded (w : World.State)
    (av : address -> uint256 -> bool) (m : Msg) (cid : uint256)
    (recipient : address) (amount : uint256) (calls : list ExternalCall)
    (s' : State) :
  World.reachable w ->
  releaseFunds av m cid recipient amount (World.fac w) = Ok (calls, s') ->
  exists fee,
    map callee calls = [feeCollector (World.fac w); recipient] /\
    map callvalue calls = [fee; amount - fee] /\
    10 * fee <= amount.
Proof.
  intros R H. apply reachable_books_inv in R.
  destruct R as ((_ & I2 & _) & _).
  apply releaseFunds_Ok in H. cbv zeta in H.
  destruct H as (_ & _ & _ & _ & Ha & _ & _ & _ & _ & _ & _ & -> & _).
  exists (amount * platformFeePercentage (World.fac w) / 10000).
  split; [reflexivity|]. split; [reflexivity|].
  pose proof (Z.mul_div_le (amount * platformFeePercentage (World.fac w))
                10000 ltac:(lia)) as K.
  nia.
Qed.

Lemma releaseFunds_fee_is_bounded_witness :
  exists calls s' fee,
    releaseFunds (fun _ _ => true) {| sender := 1; timestamp := 200 |} 1 5 100
      (World.fac WorldScenarios.funded) = Ok (calls, s') /\
    map callvalue calls = [fee; 100 - fee] /\ 10 * fee <= 100.
Proof.
  destruct (releaseFunds (fun _ _ => true) {| sender := 1; timestamp := 200 |}
              1 5 100 (World.fac WorldScenarios.funded))
    as [[calls s']|e] eqn:E.
  - destruct (releaseFunds_fee_is_bounded WorldScenarios.funded _ _ _ _ _ _ _
                (world_run_reachable 1 100 9 WorldScenarios.setup) E)
      as (fee & _ & K1 & K2).
    exists calls, s', fee. split; [reflexivity|]. split; assumption.
  - exfalso.
    assert (K : is_ok (releaseFunds (fun _ _ => true)
                         {| sender := 1; timestamp := 200 |} 1 5 100
                         (World.fac WorldScenarios.funded)) = true)
      by (vm_compute; reflexivity).
    rewrite E in K. discriminate K.
Defined.

(** Whenever [issueBeneficiaryToken] succeeds for a caller, the view
    [canIssueTokens] answers true for that caller and campaign; when the
    view answers false, issuing fails. *)
Theorem canIssueTokens_is_necessary (o : address -> bool) (m : Msg)
    (cid : uint256) (b : address) (amount : uint256) (service : string)
    (validity : uint256) (tok : SoulboundToken.State) (s : State) :
  (forall tid tok' s',
     issueBeneficiaryToken o m cid b amount service validity tok s
     = Ok (tid, tok', s') ->
     canIssueTokens cid (sender m) s = true) /\
  (canIssueTokens cid (sender m) s = false ->
   exists e,
     issueBeneficiaryToken o m cid b amount service validity tok s = Err e).
Proof.
  assert (A : forall tid tok' s',
            issueBeneficiaryToken o m cid b amount service validity tok s
            = Ok (tid, tok', s') ->
            canIssueTokens cid (sender m) s = true).
  { intros tid tok' s' H. apply issueBeneficiaryToken_Ok in H. cbv zeta in H.
    destruct H as (_ & Hx & Ho & Hs & Hf & Ha & _).
    unfold canIssueTokens. rewrite Hs, Ho, Z.eqb_refl.
    apply Z.eqb_neq in Hx. rewrite Hx. simpl. apply Z.ltb_lt. lia. }
  split; [exact A|]. intros C.
  destruct (issueBeneficiaryToken o m cid b amount service validity tok s)
    as [[[tid tok'] s']|e] eqn:E; [|eauto].
  rewrite (A _ _ _ eq_refl) in C. discriminate C.
Qed.

Lemma canIssueTokens_is_necessary_witness :
  exists e,
    issueBeneficiaryToken (fun _ => true) {| sender := 2; timestamp := 300 |}
      1 4 200 "Eye Surgery" 50 (World.tok FactoryScenarios.completed)
      (World.fac FactoryScenarios.completed) = Err e.
Proof.
  refine (proj2 (canIssueTokens_is_necessary _ _ _ _ _ _ _ _ _) _).
  vm_compute. reflexivity.
Defined.
End FactoryProperties.


(** ** The token when receivers call back *)

Module ReentrantTokens.
Import World Reentrant ReentrantScenarios WorldScenarios TokenFacts WorldFacts
  ReentrantFacts.
Import SoulboundToken.

(** Token ids only grow, whatever is called and whatever the callees do. *)
Lemma counter_grows (now : uint256) (calls : list Tx) (w : World.State) :
  _tokenIdCounter (tok w) <= _tokenIdCounter (tok (during now calls w)).
Proof.
  apply (all_calls_respect (fun _ => True)
           (fun w w' => _tokenIdCounter (tok w) <= _tokenIdCounter (tok w')));
    auto.
  - intros. lia.
  - intros a b c. lia.
  - intros m c w0 w' RC _ E. unfold World.exec in E. simpl in E.
    destruct c as [c|c|c|c]; inv_ok; subst; simpl; try lia.
    + match goal with K : SoulboundToken.exec _ _ _ _ = Ok _ |- _ =>
        exact (proj1 (exec_entitled_kept _ _ _ _ _ K)) end.
    + destruct c; try discriminate RC; simpl in E; inv_ok; subst; simpl; lia.
  - intros hook answer m b cid amount service validity w0 tid w' Hh _ E.
    unfold Reentrant.mintToken in E. inv_ok. destruct answer; inv_ok. subst.
    match goal with K : mintToken_to_hook _ _ _ _ _ = Ok _ |- _ =>
      apply mintToken_to_hook_Ok in K;
      destruct K as (_ & _ & _ & _ & _ & Ht & _ & _ & _ & Hs) end.
    match goal with |- _ <= _tokenIdCounter (tok (with_tok ?s1 ?w1)) =>
      change (tok (with_tok s1 w1)) with s1 end.
    unfold mintToken_from_hook. simpl.
    match goal with |- _ <= _tokenIdCounter (tok (hook (with_tok ?s1 ?w1))) =>
      pose proof (Hh (with_tok s1 w1) I) as K;
      assert (K0 : _tokenIdCounter s1 = tid + 1) by (rewrite Hs; reflexivity)
    end.
    simpl in K, Ht. lia.
  - intros hook answer m cid b amount service validity w0 tid w' Hh _ E.
    unfold Reentrant.issueBeneficiaryToken in E.
    destruct (CampaignFactory.guard (fac w0)); [discriminate E|].
    inv_ok. subst. simpl.
    match goal with K : Reentrant.mintToken _ _ _ _ _ _ _ _ _ = Ok _ |- _ =>
      unfold Reentrant.mintToken in K; inv_ok; destruct answer; inv_ok; subst end.
    match goal with K : mintToken_to_hook _ _ _ _ _ = Ok _ |- _ =>
      apply mintToken_to_hook_Ok in K;
      destruct K as (_ & _ & _ & _ & _ & Ht & _ & _ & _ & Hs) end.
    match goal with |- _ <= _tokenIdCounter (tok (with_tok ?s1 ?w1)) =>
      change (tok (with_tok s1 w1)) with s1 end.
    unfold mintToken_from_hook. simpl.
    match goal with |- _ <= _tokenIdCounter (tok (hook (with_tok ?s1 ?w1))) =>
      pose proof (Hh (with_tok s1 w1) I) as K;
      assert (K0 : _tokenIdCounter s1 = tid + 1) by (rewrite Hs; reflexivity)
    end.
    simpl in K, Ht. lia.
  - intros hook1 answer1 hook2 answer2 m cid recipient amount w0 log w'
      H1 H2 _ E.
    unfold Reentrant.releaseFunds in E. inv_ok.
    destruct (CampaignFactory.guard (fac w0)); [discriminate E|]. inv_ok.
    destruct (Reentrant.transfer hook1 _ _ _ _) as [[c1 w1]|] eqn:T1;
      [|discriminate E].
    destruct (Reentrant.transfer hook2 _ _ _ _) as [[c2 w2]|] eqn:T2;
      [|discriminate E].
    inversion E. subst. simpl.
    apply transfer_tok in T1. simpl in T1. apply transfer_tok in T2.
    assert (K1 : _tokenIdCounter (tok w0) <= _tokenIdCounter (tok w1)).
    { destruct T1 as [T1|(w3 & T1 & ->)]; [rewrite T1; lia|].
      rewrite <- T1. apply H1. exact I. }
    assert (K2 : _tokenIdCounter (tok w1) <= _tokenIdCounter (tok w2)).
    { destruct T2 as [T2|(w3 & T2 & ->)]; [rewrite T2; lia|].
      rewrite <- T2. apply H2. exact I. }
    lia.
Qed.

(** X1. A mint takes the next free id and gives the token to the
    beneficiary, whose receiver hook runs before the record is written and
    may call anything, the token contract included. Whatever the hook
    does, by calls of any depth, the token is afterwards owned by the
    beneficiary and its record is the freshly written one: Active,
    unredeemed, with the given campaign and amount, expiring
    [validityPeriod] after the mint (anything the hook did to the record
    of the token in flight is overwritten); the id is the last entry of
    the beneficiary's and of the campaign's index, [TokenMinted] is the
    last event, the counter is past the id, every token that existed
    before keeps its holder and terms and does not return to Active, and
    [isTokenRedeemable] answers true exactly up to and including the
    expiry instant. With a receiver that makes no call, the counter is
    one more, the id is appended to the two indexes as they were, and no
    other token and no other contract is touched. *)
Theorem mintToken_creates_redeemable_token (now : uint256) (who b : address)
    (cid amount : uint256) (service : string) (validity : uint256)
    (calls : list Tx) (answer : bool) (w w' : World.State) (tid : uint256) :
  Reentrant.mintToken (during now calls) answer
    {| sender := who; timestamp := now |} b cid amount service validity w
  = Ok (tid, w') ->
  let s := tok w in
  let s' := tok w' in
  tid = _tokenIdCounter s /\ tid < _tokenIdCounter s' /\
  _ownerOf s tid = zero_address /\ _ownerOf s' tid = b /\
  tokenMetadata s' tid =
    {| tokenId := tid; beneficiary := b; campaignId := cid;
       entitledAmount := amount; serviceType := service;
       issuedAt := now; expiryDate := now + validity;
       isRedeemed := false; redeemedBy := zero_address; redeemedAt := 0;
       proofOfServiceHash := EmptyString; status := Active |} /\
  (exists l, beneficiaryTokens s' b = l ++ [tid]) /\
  (exists l, campaignTokens s' cid = l ++ [tid]) /\
  (exists evs, events s' = evs ++ [TokenMinted tid b cid amount service
                                     (now + validity)]) /\
  (forall m', isTokenRedeemable m' tid s' = (timestamp m' <=? now + validity)) /\
  (forall q, _ownerOf s q <> zero_address -> kept q s s') /\
  (calls = [] ->
   _tokenIdCounter s' = tid + 1 /\
   beneficiaryTokens s' b = beneficiaryTokens s b ++ [tid] /\
   campaignTokens s' cid = campaignTokens s cid ++ [tid] /\
   (forall q, q <> tid ->
      tokenMetadata s' q = tokenMetadata s q /\ _ownerOf s' q = _ownerOf s q) /\
   gov w' = gov w /\ reg w' = reg w /\ fac w' = fac w).
Proof.
  intros H. cbv zeta.
  assert (Kept : forall q, _ownerOf (tok w) q <> zero_address ->
                           kept q (tok w) (tok w')).
  { intros q Hq. eapply mintToken_kept; [|exact Hq|exact H].
    intros w0 Hq0. apply (proj1 (proj2 (exec_kept_respects q))). exact Hq0. }
  unfold Reentrant.mintToken in H. inv_ok. destruct answer; inv_ok. subst.
  match goal with K : mintToken_to_hook _ _ _ _ _ = Ok _ |- _ =>
    apply mintToken_to_hook_Ok in K;
    destruct K as (_ & _ & Hb & _ & _ & Ht & _ & He & Hfree & Hs) end.
  simpl in He.
  match goal with He : ?u = now + validity |- _ => subst u end.
  match goal with
  | Hs : ?t = SoulboundToken.emit _ _ |- _ =>
      pose proof (counter_grows now calls (with_tok t w)) as Hc;
      pose proof (proj1 (proj2 (exec_kept_respects tid)) now calls
                    (with_tok t w)) as Hk;
      remember (during now calls (with_tok t w)) as w1 eqn:Ew1
  end.
  simpl in Hc, Hk.
  assert (Ho : _ownerOf (tok w1) tid = b).
  { destruct Hk as (Hk & _).
    - rewrite Hs. unfold _ownerOf. simpl. rewrite upd_same. exact Hb.
    - rewrite Hk, Hs. unfold _ownerOf. simpl. apply upd_same. }
  match goal with |- context [tok (with_tok ?s1 ?w2)] =>
    change (tok (with_tok s1 w2)) with s1 end.
  assert (Hm : tokenMetadata
                 (mintToken_from_hook {| sender := who; timestamp := now |} b
                    cid amount service tid (now + validity) (tok w1)) tid
               = {| tokenId := tid; beneficiary := b; campaignId := cid;
                    entitledAmount := amount; serviceType := service;
                    issuedAt := now; expiryDate := now + validity;
                    isRedeemed := false; redeemedBy := zero_address;
                    redeemedAt := 0; proofOfServiceHash := EmptyString;
                    status := Active |}).
  { unfold mintToken_from_hook. simpl. apply upd_same. }
  assert (Ho' : _ownerOf
                  (mintToken_from_hook {| sender := who; timestamp := now |} b
                     cid amount service tid (now + validity) (tok w1)) tid = b).
  { unfold mintToken_from_hook, _ownerOf. simpl. exact Ho. }
  split; [exact Ht|]. split.
  { unfold mintToken_from_hook. simpl. rewrite Hs in Hc. simpl in Hc. lia. }
  split; [exact Hfree|]. split; [exact Ho'|]. split; [exact Hm|].
  split. { unfold mintToken_from_hook. simpl. rewrite upd_same. eauto. }
  split. { unfold mintToken_from_hook. simpl. rewrite upd_same. eauto. }
  split. { unfold mintToken_from_hook. simpl. eauto. }
  split.
  { intros m'. unfold isTokenRedeemable. cbv zeta. rewrite Ho', Hm. simpl.
    apply Z.eqb_neq in Hb. rewrite Hb. reflexivity. }
  split; [exact Kept|].
  intros ->. unfold during in Ew1. simpl in Ew1. subst w1.
  unfold mintToken_from_hook, _ownerOf. simpl. rewrite Hs. simpl.
  rewrite !upd_same.
  repeat split; auto.
  - rewrite upd_other by assumption. reflexivity.
  - rewrite upd_other by assumption. reflexivity.
Qed.

Lemma mintToken_creates_redeemable_token_witness :
  exists w',
    Reentrant.mintToken (during 100 minting_receiver) true
      {| sender := 1; timestamp := 100 |} 1 1 1000 "Eye Surgery" 50 funded
    = Ok (0, w') /\
    isTokenRedeemable {| sender := 7; timestamp := 150 |} 0 (tok w') = true.
Proof.
  destruct (Reentrant.mintToken (during 100 minting_receiver) true
              {| sender := 1; timestamp := 100 |} 1 1 1000 "Eye Surgery" 50
              funded) as [[tid w']|e] eqn:E.
  - pose proof (mintToken_creates_redeemable_token _ _ _ _ _ _ _ _ _ _ _ _ E)
      as K.
    cbv zeta in K.
    destruct K as (K1 & _ & _ & _ & _ & _ & _ & _ & K & _).
    assert (C0 : _tokenIdCounter (tok funded) = 0) by (vm_compute; reflexivity).
    rewrite C0 in K1. subst tid.
    exists w'. split.
    + reflexivity.
    + rewrite (K {| sender := 7; timestamp := 150 |}). reflexivity.
  - exfalso.
    assert (K : is_ok (Reentrant.mintToken (during 100 minting_receiver) true
                         {| sender := 1; timestamp := 100 |} 1 1 1000
                         "Eye Surgery" 50 funded) = true)
      by (vm_compute; reflexivity).
    rewrite E in K. discriminate K.
Defined.

(** The receiver of that mint has minted a second token from inside its
    hook: the outer mint still returns id 0, but the counter ends at
    2 and token 1 sits before token 0 in the campaign's index. *)
Lemma receiver_mints_during_mint :
  exists w',
    Reentrant.mintToken (during 100 minting_receiver) true
      {| sender := 1; timestamp := 100 |} 1 1 1000 "Eye Surgery" 50 funded
    = Ok (0, w') /\
    _tokenIdCounter (tok w') = 2 /\ campaignTokens (tok w') 1 = [1; 0] /\
    _ownerOf (tok w') 1 = 6.
Proof.
  eexists. split; [vm_compute; reflexivity|].
  repeat split; vm_compute; reflexivity.
Qed.

(** X5. Whatever transactions follow, by anyone, with callees that call
    back into the four contracts to any depth, a token that exists keeps
    its holder, entitled amount, campaign, issue time and expiry date; a
    token that has left the Active status never returns to it and its
    record never changes again. This is about tokens of the storage
    between transactions. The one token outside it is a token in flight:
    between the receiver hook of its own mint and the end of that mint it
    has a holder and a blank record, the hook can mark it expired, and
    the mint then writes its record, Active (see
    [token_in_flight_is_rewritten]). *)
Theorem token_record_is_final (txs : list (uint256 * Tx)) (w : World.State)
    (q : uint256) :
  _ownerOf (tok w) q <> zero_address ->
  let s := tok w in
  let s' := tok (Reentrant.run w txs) in
  (status (tokenMetadata s q) <> Active ->
   tokenMetadata s' q = tokenMetadata s q) /\
  _ownerOf s' q = _ownerOf s q /\
  entitledAmount (tokenMetadata s' q) = entitledAmount (tokenMetadata s q) /\
  campaignId (tokenMetadata s' q) = campaignId (tokenMetadata s q) /\
  expiryDate (tokenMetadata s' q) = expiryDate (tokenMetadata s q) /\
  issuedAt (tokenMetadata s' q) = issuedAt (tokenMetadata s q) /\
  (status (tokenMetadata s' q) = Active ->
   status (tokenMetadata s q) = Active).
Proof.
  cbv zeta. revert w. induction txs as [|tx txs IH]; intros w Ho.
  - simpl. repeat split; auto.
  - change (Reentrant.run w (tx :: txs))
      with (Reentrant.run (Reentrant.step w tx) txs).
    assert (K : kept q (tok w) (tok (Reentrant.step w tx))).
    { unfold Reentrant.step, commit.
      destruct (Reentrant.exec (fst tx) (snd tx) w) eqn:E.
      - exact (proj1 (exec_kept_respects q) _ _ _ _ Ho E).
      - apply kept_refl. }
    unfold kept in K. cbv zeta in K.
    destruct K as (K1 & _ & K3 & K4 & K5 & K6 & _ & K8 & K9).
    destruct (IH (Reentrant.step w tx)) as (I2 & I1 & I3 & I4 & I5 & I6 & I7);
      [congruence|].
    repeat split; try congruence.
    + intros N. rewrite I2; [apply K8; exact N|]. rewrite K8 by exact N.
      exact N.
    + intros A. apply K9. apply I7. exact A.
Qed.

Lemma token_record_is_final_witness :
  tokenMetadata (tok (Reentrant.run revoked_after_issue meddling)) 0
  = tokenMetadata (tok revoked_after_issue) 0.
Proof.
  refine (proj1 (token_record_is_final meddling revoked_after_issue 0 _) _).
  - vm_compute. intros K. discriminate K.
  - vm_compute. intros K. discriminate K.
Defined.

(** A receiver that marks token 0 expired from inside the hook of the
    mint of token 0 succeeds, since the token has its holder and a blank
    record, Active with expiry date 0; the mint then writes the record.
    The log reads Transfer, TokenExpired, TokenMinted, and the token is
    Active and redeemable. *)
Lemma token_in_flight_is_rewritten :
  exists w',
    Reentrant.mintToken (during 100 expiring_receiver) true
      {| sender := 1; timestamp := 100 |} 4 1 1000 "Eye Surgery" 50 funded
    = Ok (0, w') /\
    events (tok w') = [ Transfer zero_address 4 0; TokenExpired 0;
                        TokenMinted 0 4 1 1000 "Eye Surgery" 150 ] /\
    status (tokenMetadata (tok w') 0) = Active /\
    isTokenRedeemable {| sender := 7; timestamp := 150 |} 0 (tok w') = true.
Proof.
  eexists. split; [vm_compute; reflexivity|].
  repeat split; vm_compute; reflexivity.
Qed.
End ReentrantTokens.
